(** * sysbox-fs: path resolution, DAC checks and sysctl handlers

    A shallow embedding of the parts of sysbox-fs that emulate
    [path_resolution(7)] for a process ([process.pathAccess],
    [process.checkPerm]), of the common [/proc/sys] passthrough handler
    ([ProcSysCommonHandler]) and of the max-integer sysctl handler
    ([MaxIntBaseHandler]), together with the properties the specification
    states about them.

    Go strings are byte strings and are modelled by [string]; Go's [int] and
    [uint32] values are modelled by [Z] and [N]. *)

From Stdlib Require Import String Ascii ZArith NArith List Lia Bool DecimalString.
From stdpp Require Import gmap strings list.

Local Open Scope string_scope.

(** ** The Go standard-library functions the code relies on

    [strings.Split], [strings.HasPrefix], [strings.TrimSpace],
    [strconv.Atoi], [strconv.Itoa] and the Unix flavour of
    [path/filepath]: [IsAbs], [Clean], [Join], [Dir].  They follow the
    documented behaviour of the Go library. *)
Module Go.

Definition isSlash (c : ascii) : bool := Ascii.eqb c "/"%char.

(** [strings.Split(s, "/")]: the segments between slashes; the empty
    string yields one empty segment. *)
Fixpoint Split (s : string) : list string :=
  match s with
  | EmptyString => [EmptyString]
  | String c s' =>
      if isSlash c then EmptyString :: Split s'
      else match Split s' with
           | [] => [String c EmptyString]
           | seg :: segs => String c seg :: segs
           end
  end.

(** [strings.HasPrefix(s, prefix)]. *)
Definition HasPrefix (s prefix : string) : bool := String.prefix prefix s.

(** [filepath.IsAbs] on Unix. *)
Definition IsAbs (path : string) : bool := HasPrefix path "/".

(** One step of the lexical clean-up: [out] is the list of elements
    already emitted, the most recent first. *)
Definition cleanStep (rooted : bool) (out : list string) (c : string) : list string :=
  if String.eqb c "" then out
  else if String.eqb c "." then out
  else if String.eqb c ".." then
    match out with
    | top :: out' => if String.eqb top ".." then c :: out else out'
    | [] => if rooted then [] else [c]
    end
  else c :: out.

(** [filepath.Clean]: collapse repeated separators, drop ".", resolve
    inner ".." against the element before it, drop ".." at the start of a
    rooted path; the empty result is ".". *)
Definition Clean (path : string) : string :=
  if String.eqb path "" then "."
  else
    let rooted := IsAbs path in
    let out := rev (fold_left (cleanStep rooted) (Split path) []) in
    if rooted then "/" +:+ String.concat "/" out
    else match out with
         | [] => "."
         | _ => String.concat "/" out
         end.

(** [filepath.Join]: leading empty elements are skipped, the rest is
    joined with "/" and cleaned. *)
Fixpoint Join (elem : list string) : string :=
  match elem with
  | [] => ""
  | e :: rest =>
      if String.eqb e "" then Join rest else Clean (String.concat "/" elem)
  end.

(** [path[:i+1]] for the last index [i] holding a slash; [None] when the
    path has no slash. *)
Fixpoint uptoLastSlash (s : string) : option string :=
  match s with
  | EmptyString => None
  | String c s' =>
      match uptoLastSlash s' with
      | Some d => Some (String c d)
      | None => if isSlash c then Some (String c EmptyString) else None
      end
  end.

(** [filepath.Dir] on Unix. *)
Definition Dir (path : string) : string :=
  Clean (match uptoLastSlash path with Some d => d | None => "" end).

(** *** [strings.TrimSpace] *)

Definition bytes (l : list nat) : string :=
  fold_right (fun n s => String (ascii_of_nat n) s) EmptyString l.

(** The ASCII white space: tab, line feed, vertical tab, form feed,
    carriage return, space. *)
Definition asciiSpace (c : ascii) : bool :=
  let n := N_of_ascii c in
  (N.eqb n 9 || N.eqb n 10 || N.eqb n 11 || N.eqb n 12 || N.eqb n 13 || N.eqb n 32)%bool.

(** The UTF-8 encodings of the other runes of [unicode.IsSpace]: U+0085,
    U+00A0, U+1680, U+2000..U+200A, U+2028, U+2029, U+202F, U+205F,
    U+3000. *)
Definition unicodeSpaces : list string :=
  bytes [194; 133] :: bytes [194; 160] :: bytes [225; 154; 128]
  :: (map (fun k => bytes [226; 128; k]) [128; 129; 130; 131; 132; 133; 134; 135; 136; 137; 138]
  ++ [bytes [226; 128; 168]; bytes [226; 128; 169]; bytes [226; 128; 175];
      bytes [226; 129; 159]; bytes [227; 128; 128]])%list.

Fixpoint stripPrefix (pre s : string) : option string :=
  match pre, s with
  | EmptyString, _ => Some s
  | String a pre', String b s' => if Ascii.eqb a b then stripPrefix pre' s' else None
  | String _ _, EmptyString => None
  end.

Fixpoint stripAny (pres : list string) (s : string) : option string :=
  match pres with
  | [] => None
  | pre :: pres' =>
      match stripPrefix pre s with
      | Some s' => Some s'
      | None => stripAny pres' s
      end
  end.

Fixpoint trimLeftWith (spaces : list string) (fuel : nat) (s : string) : string :=
  match fuel with
  | O => s
  | S fuel' =>
      match s with
      | EmptyString => s
      | String c s' =>
          if asciiSpace c then trimLeftWith spaces fuel' s'
          else match stripAny spaces s with
               | Some s'' => trimLeftWith spaces fuel' s''
               | None => s
               end
      end
  end.

Definition strRev (s : string) : string :=
  string_of_list_ascii (rev (list_ascii_of_string s)).

Definition TrimSpace (s : string) : string :=
  let l := trimLeftWith unicodeSpaces (String.length s) s in
  strRev (trimLeftWith (map strRev unicodeSpaces) (String.length l) (strRev l)).

(** *** [strconv.Atoi] and [strconv.Itoa] *)

Definition digitVal (c : ascii) : option Z :=
  let n := N_of_ascii c in
  if (N.leb 48 n && N.leb n 57)%bool then Some (Z.of_N n - 48)%Z else None.

Fixpoint parseDigits (s : string) (acc : Z) : option Z :=
  match s with
  | EmptyString => Some acc
  | String c s' =>
      match digitVal c with
      | Some d => parseDigits s' (10 * acc + d)%Z
      | None => None
      end
  end.

Definition intMin : Z := (- 2 ^ 63)%Z.
Definition intMax : Z := (2 ^ 63 - 1)%Z.

(** [strconv.Atoi]: an optional sign, then at least one decimal digit
    and nothing else; the value has to fit Go's 64-bit [int].  [None]
    stands for the returned [*NumError]. *)
Definition Atoi (s : string) : option Z :=
  let '(neg, body) :=
    match s with
    | String c r =>
        if Ascii.eqb c "-"%char then (true, r)
        else if Ascii.eqb c "+"%char then (false, r)
        else (false, s)
    | EmptyString => (false, s)
    end in
  match body with
  | EmptyString => None
  | _ =>
      match parseDigits body 0 with
      | Some v =>
          let v' := if neg then (- v)%Z else v in
          if (Z.leb intMin v' && Z.leb v' intMax)%bool then Some v' else None
      | None => None
      end
  end.

Definition Itoa (z : Z) : string := NilZero.string_of_int (Z.to_int z).

(** [fmt.Sprintf("%d", n)] for an unsigned value. *)
Definition FormatUint (n : N) : string := NilZero.string_of_uint (N.to_uint n).

End Go.

(** ** The process service: path resolution and permission checks *)
Module Process.

(** The [syscall.Errno] values [pathAccess] returns. *)
Inductive Errno := ENOENT | ENAMETOOLONG | ENOTDIR | ELOOP | EACCES.

(** Modelled from the spec: the constants of package [domain] are not
    under src/.  The spec names the access modes [R_OK], [W_OK] and [X_OK];
    they carry the values of access(2). *)
Definition AccessMode := N.
Definition R_OK : AccessMode := 4%N.
Definition W_OK : AccessMode := 2%N.
Definition X_OK : AccessMode := 1%N.

(** Modelled from the spec: [domain.SymlinkMax] is not under src/; "if
    link count >= SYMLINK_MAX (40), fail ELOOP".  [syscall.PathMax] is
    Go's constant for Linux, 0x1000. *)
Definition SymlinkMax : nat := 40.
Definition PathMax : nat := 4096.

(** Modelled from the spec: [domain.CapType] and [domain.Cap] are not
    under src/; the spec names [CAP_DAC_OVERRIDE] and
    [CAP_DAC_READ_SEARCH], which carry their Linux numbers. *)
Inductive CapType := EFFECTIVE | PERMITTED | INHERITABLE | BOUNDING | AMBIENT.
Definition Cap := N.
Definition CAP_DAC_OVERRIDE : Cap := 1%N.
Definition CAP_DAC_READ_SEARCH : Cap := 2%N.

(** [os.FileMode]: a 32-bit word, the permission bits in the low nine
    bits, the type bits on top. *)
Definition FileMode := N.
Definition ModeDir : FileMode := N.shiftl 1%N 31%N.
Definition ModeSymlink : FileMode := N.shiftl 1%N 27%N.
Definition ModePerm : FileMode := 511%N.

Record Stat_t := { Uid : N; Gid : N }.

(** [os.FileInfo]: the mode and the underlying data source, which is a
    [*syscall.Stat_t] on a real file system. *)
Record FileInfo := { Mode : FileMode; Sys : option Stat_t }.

Definition Perm (m : FileMode) : FileMode := N.land m ModePerm.
Definition IsDir (fi : FileInfo) : bool := negb (N.eqb (N.land (Mode fi) ModeDir) 0%N).

(** The file system the process service looks at through [os.Lstat],
    [os.Stat] and [os.Readlink]; [None] stands for a returned error. *)
Record FileSys := {
  os_Lstat : string -> option FileInfo;
  os_Stat : string -> option FileInfo;
  os_Readlink : string -> option string
}.

(** The file-system calls a resolution performs, in order. *)
Inductive FsOp :=
| OpLstat (path : string)
| OpStat (path : string)
| OpReadlink (path : string).

Definition opPath (o : FsOp) : string :=
  match o with OpLstat q | OpStat q | OpReadlink q => q end.

Definition isReadlink (o : FsOp) : bool :=
  match o with OpReadlink _ => true | _ => false end.

(** [process].  [cap] is the capability set once [initCapability] has
    loaded it, which [getInfo] does before [pathAccess] runs: it answers
    [cap.Get(which, what)]. *)
Record process := {
  pid : N;
  root : string;
  cwd : string;
  uid : N;
  gid : N;
  sgid : list Z;
  cap : CapType -> Cap -> bool
}.

Definition IsCapabilitySet (p : process) (which : CapType) (what : Cap) : bool :=
  cap p which what.

(** The root and working directory [getInfo] stores in the process. *)
Definition procRoot (pid : N) : string := "/proc/" +:+ Go.FormatUint pid +:+ "/root".
Definition procCwd (pid : N) : string := "/proc/" +:+ Go.FormatUint pid +:+ "/cwd".

Definition intSliceContains (a : list Z) (x : N) : bool :=
  existsb (fun n => Z.eqb (Z.of_N x) n) a.

Definition isSymlink (fs : FileSys) (path : string) : option (bool * bool) :=
  match os_Lstat fs path with
  | None => None
  | Some fi =>
      Some (N.eqb (N.land (Mode fi) ModeSymlink) ModeSymlink, IsDir fi)
  end.

Inductive PermError := StatFailed | NotStat_t.

Definition checkPerm (fs : FileSys) (p : process) (path : string) (aMode : AccessMode)
  : bool * option PermError :=
  match os_Stat fs path with
  | None => (false, Some StatFailed)
  | Some fi =>
      let fperm := Perm (Mode fi) in
      match Sys fi with
      | None => (false, Some NotStat_t)
      | Some st =>
          let fuid := Uid st in
          let fgid := Gid st in
          let mode := aMode in
          (* owner check *)
          if (N.eqb fuid (uid p)
              && N.eqb (N.land mode (N.shiftr (N.land fperm 448%N) 6%N)) mode)%bool
          then (true, None)
          (* group check *)
          else if ((N.eqb fgid (gid p) || intSliceContains (sgid p) fgid)
                   && N.eqb (N.land mode (N.shiftr (N.land fperm 56%N) 3%N)) mode)%bool
          then (true, None)
          (* "other" check *)
          else if N.eqb (N.land mode (N.land fperm 7%N)) mode
          then (true, None)
          (* capability checks *)
          else if (IsCapabilitySet p EFFECTIVE CAP_DAC_OVERRIDE
                   && (IsDir fi
                       || negb (N.eqb (N.land aMode X_OK) X_OK)
                       || negb (N.eqb (N.land fperm 73%N) 0%N)))%bool
          then (true, None)
          else if (IsCapabilitySet p EFFECTIVE CAP_DAC_READ_SEARCH
                   && ((IsDir fi && negb (N.eqb (N.land aMode W_OK) W_OK))
                       || (negb (IsDir fi) && N.eqb aMode R_OK)))%bool
          then (true, None)
          else (false, None)
      end
  end.

(** Whether one of the three permission classes of [checkPerm] (owner,
    group, "other") grants [mode] on the file. *)
Definition classGrants (p : process) (fi : FileInfo) (st : Stat_t) (mode : AccessMode) : bool :=
  let fperm := Perm (Mode fi) in
  ((N.eqb (Uid st) (uid p)
    && N.eqb (N.land mode (N.shiftr (N.land fperm 448%N) 6%N)) mode)
   || ((N.eqb (Gid st) (gid p) || intSliceContains (sgid p) (Gid st))
       && N.eqb (N.land mode (N.shiftr (N.land fperm 56%N) 3%N)) mode)
   || N.eqb (N.land mode (N.land fperm 7%N)) mode)%bool.

(** How the symlink loop of [pathAccess] ends: with an errno, or by
    [break] with the current path, [isDir] and [linkCnt]. *)
Inductive LoopExit :=
| LoopErr (e : Errno)
| LoopBreak (cur : string) (isDir : bool) (linkCnt : nat).

(** The [for { ... }] loop that follows a symlink.  [fuel] bounds the
    number of iterations of the model; [None] means the fuel ran out. *)
Fixpoint followLinks (fuel : nat) (fs : FileSys) (p : process)
    (cur : string) (isDir : bool) (linkCnt : nat)
  : option (list FsOp * LoopExit) :=
  match fuel with
  | O => None
  | S fuel' =>
      if (SymlinkMax <=? linkCnt)%nat then Some ([], LoopErr ELOOP)
      else
        match os_Readlink fs cur with
        | None => Some ([OpReadlink cur], LoopErr ENOENT)
        | Some link =>
            let cur' :=
              if Go.IsAbs link then Go.Join [root p; link]
              else Go.Join [Go.Dir cur; link] in
            if String.eqb cur' (root p)
            then Some ([OpReadlink cur], LoopBreak cur' isDir linkCnt)
            else
              match isSymlink fs cur' with
              | None => Some ([OpReadlink cur; OpLstat cur'], LoopErr ENOENT)
              | Some (symlink, isDir') =>
                  if negb symlink
                  then Some ([OpReadlink cur; OpLstat cur'], LoopBreak cur' isDir' linkCnt)
                  else
                    match followLinks fuel' fs p cur' isDir' (linkCnt + 1) with
                    | None => None
                    | Some (tr, out) =>
                        Some (OpReadlink cur :: OpLstat cur' :: tr, out)
                    end
              end
        end
  end.

(** The permission check at the end of an iteration of the component
    loop: [X_OK] on a non-final component, the caller's mode on the final
    one; any error, or a denial, makes [pathAccess] return [EACCES]. *)
Definition permitted (fs : FileSys) (p : process) (final : bool)
    (mode : AccessMode) (cur : string) : bool :=
  match checkPerm fs p cur (if final then mode else X_OK) with
  | (perm, None) => perm
  | (_, Some _) => false
  end.

(** The path an iteration moves to for the component [c]: ".." goes to
    the parent, clamped to the root; "." stays; a name is joined. *)
Definition nextPath (p : process) (cur c : string) : string :=
  if String.eqb c ".." then
    let parent := Go.Dir cur in
    if negb (Go.HasPrefix parent (root p)) then root p else parent
  else if negb (String.eqb c ".") then Go.Join [cur; c]
  else cur.

(** The end of an iteration: the permission check on [cur], then the
    rest of the loop, [next]. *)
Definition checkAndContinue (fs : FileSys) (p : process) (final : bool)
    (mode : AccessMode) (tr : list FsOp) (cur : string) (linkCnt : nat)
    (next : string -> nat -> option (list FsOp * option Errno))
  : option (list FsOp * option Errno) :=
  if permitted fs p final mode cur
  then match next cur linkCnt with
       | None => None
       | Some (tr', r) => Some ((tr ++ OpStat cur :: tr')%list, r)
       end
  else Some ((tr ++ [OpStat cur])%list, Some EACCES).

(** One iteration of the loop over the components: [c] is the
    component, [final] tells whether it is the last one, [next] is the
    rest of the loop ([continue] and the end of the body go there). *)
Definition iteration (fs : FileSys) (p : process) (mode : AccessMode)
    (final : bool) (c : string) (cur : string) (linkCnt : nat)
    (next : string -> nat -> option (list FsOp * option Errno))
  : option (list FsOp * option Errno) :=
  if String.eqb c "" then next cur linkCnt
  else
    let cur := nextPath p cur c in
    match isSymlink fs cur with
    | None => Some ([OpLstat cur], Some ENOENT)
    | Some (symlink, isDir) =>
        if (negb final && negb symlink && negb isDir)%bool
        then Some ([OpLstat cur], Some ENOTDIR)
        else if (symlink && negb (String.eqb cur (root p)))%bool
        then
          match followLinks (S SymlinkMax) fs p cur isDir linkCnt with
          | None => None
          | Some (tr, LoopErr e) => Some (OpLstat cur :: tr, Some e)
          | Some (tr, LoopBreak cur' isDir' linkCnt') =>
              if (negb final && negb isDir')%bool
              then Some (OpLstat cur :: tr, Some ENOTDIR)
              else checkAndContinue fs p final mode (OpLstat cur :: tr) cur' linkCnt' next
          end
        else checkAndContinue fs p final mode [OpLstat cur] cur linkCnt next
    end.

(** The loop over the components of the path. *)
Fixpoint walk (fs : FileSys) (p : process) (mode : AccessMode)
    (components : list string) (cur : string) (linkCnt : nat)
  : option (list FsOp * option Errno) :=
  match components with
  | [] => Some ([], None)
  | c :: rest =>
      iteration fs p mode (match rest with [] => true | _ => false end)
        c cur linkCnt (walk fs p mode rest)
  end.

(** The errors the loop over the components can return. *)
Definition walkErrno (e : Errno) : Prop :=
  e = ENOENT \/ e = ENOTDIR \/ e = ELOOP \/ e = EACCES.

(** [pathAccess]: the calls made on the file system and the returned
    error ([None] is Go's [nil]). *)
Definition pathAccess (fs : FileSys) (p : process) (path : string) (mode : AccessMode)
  : option (list FsOp * option Errno) :=
  if String.eqb path "" then Some ([], Some ENOENT)
  else if (PathMax <? String.length path + 1)%nat then Some ([], Some ENAMETOOLONG)
  else
    let start := if Go.IsAbs path then root p else cwd p in
    walk fs p mode (Go.Split path) start 0.

End Process.

(** ** The shape of the paths a resolution visits *)
Module PathShape.

Fixpoint hasSlash (s : string) : bool :=
  match s with
  | EmptyString => false
  | String c s' => (Go.isSlash c || hasSlash s')%bool
  end.

(** A name: a path element that is not empty, is neither "." nor "..",
    and holds no slash. *)
Definition isName (c : string) : bool :=
  (negb (String.eqb c "") && negb (String.eqb c ".") && negb (String.eqb c "..")
   && negb (hasSlash c))%bool.

(** The clean absolute path made of the elements [cs]. *)
Definition absPath (cs : list string) : string := "/" +:+ String.concat "/" cs.

(** The elements of a path that [filepath.Clean] keeps when there is no
    "..": all but the empty ones and ".". *)
Definition kept (c : string) : bool :=
  (negb (String.eqb c "") && negb (String.eqb c "."))%bool.

(** A link target without a ".." element. *)
Definition noDotDot (link : string) : bool :=
  forallb (fun c => negb (String.eqb c "..")) (Go.Split link).

(** [cur] is the root, whose elements are [rcs], followed by names. *)
Definition under (rcs : list string) (cur : string) : Prop :=
  exists more, Forall (fun c => isName c = true) more /\ cur = absPath (rcs ++ more).

Fixpoint allDigits (s : string) : bool :=
  match s with
  | EmptyString => true
  | String c s' =>
      (match Go.digitVal c with Some _ => true | None => false end && allDigits s')%bool
  end.

End PathShape.

(** ** The domain types shared by the handlers *)
Module Domain.

(** The Go [error] values that flow through the handlers. *)
Inductive GoError :=
| ErrContainerNotFound          (* errors.New("Container not found") *)
| EOF                           (* io.EOF *)
| ErrErrno (e : Process.Errno)  (* a syscall.Errno *)
| ErrNum (s : string)           (* strconv's *NumError for the input s *)
| ErrOther (msg : string).

Definition error := option GoError.

(** [domain.IOnodeIface], as far as the handlers read it. *)
Record IOnode := {
  Name : string;
  Path : string;
  OpenFlags : Z;
  OpenMode : N
}.

(** A process descriptor as [ProcessCreate] builds it. *)
Record ProcessDesc := {
  pd_Pid : N;
  pd_Uid : N;
  pd_Gid : N
}.

Definition ProcessCreate (pid uid gid : N) : ProcessDesc :=
  {| pd_Pid := pid; pd_Uid := uid; pd_Gid := gid |}.

Definition StateDataMap := gmap string (gmap string string).

(** The state of a container the handlers touch. *)
Record container := {
  c_ID : string;
  c_InitPid : N;
  c_UID : N;
  c_GID : N;
  c_InitProc : ProcessDesc;
  dataStore : StateDataMap
}.

(** Modelled from the spec: [container.Data] and [container.SetData] are
    not under src/ (only their tests are); the data store is a "mapping
    path -> mapping name -> string payload", a lookup of a missing path
    or name reports that nothing is stored, and a store creates the inner
    mapping when it is missing. *)
Definition Data (c : container) (path name : string) : option string :=
  match dataStore c !! path with
  | Some m => m !! name
  | None => None
  end.

Definition SetData (c : container) (path name data : string) : container :=
  {| c_ID := c_ID c; c_InitPid := c_InitPid c; c_UID := c_UID c; c_GID := c_GID c;
     c_InitProc := c_InitProc c;
     dataStore :=
       <[path := <[name := data]> (default ∅ (dataStore c !! path))]> (dataStore c) |}.

(** Containers are shared objects that requests point to: a store from
    references to containers. *)
Definition cref := nat.
Definition store := cref -> container.

Definition update (s : store) (r : cref) (c : container) : store :=
  fun r' => if Nat.eqb r' r then c else s r'.

(** [domain.HandlerRequest]; a [nil] container is [None]. *)
Record HandlerRequest := {
  ID : N;
  Pid : N;
  Uid : N;
  Gid : N;
  Offset : Z;
  ReqData : string;
  Container : option cref
}.

(** [domain.HandlerBase]. *)
Record HandlerBase := {
  h_Name : string;
  h_Path : string;
  Enabled : bool;
  Cacheable : bool
}.

(** [domain.FileInfo], the file description the helper sends back. *)
Record DFileInfo := {
  Fname : string;
  Fsize : Z;
  Fmode : N;
  FisDir : bool
}.

Inductive NSenterMsgType :=
| LookupRequest | LookupResponse
| OpenFileRequest | OpenFileResponse
| ReadFileRequest | ReadFileResponse
| WriteFileRequest | WriteFileResponse
| ReadDirRequest | ReadDirResponse
| ErrorResponse.

(** The payload of a message is an [interface{}]: its dynamic types. *)
Inductive Payload :=
| NoPayload
| LookupPayload (Entry : string)
| OpenFilePayload (File Flags Mode : string)
| ReadFilePayload (File : string)
| WriteFilePayload (File Content : string)
| ReadDirPayload (Dir : string)
| PFileInfo (fi : DFileInfo)
| PFileInfos (fis : list DFileInfo)
| PString (s : string)
| PError (e : GoError).

Record NSenterMessage := { Type_ : NSenterMsgType; Payload_ : Payload }.

Definition NStype := string.

(** Modelled from the spec: [domain.AllNSsButMount] is not under src/;
    it is "every namespace except mnt", [{user, pid, net, ipc, uts,
    cgroup}]. *)
Definition AllNSsButMount : list NStype :=
  ["user"; "pid"; "net"; "ipc"; "uts"; "cgroup"].

(** The event [NSenterService.NewEvent] builds. *)
Record NSenterEvent := {
  ev_Pid : N;
  ev_Namespace : list NStype;
  ev_ReqMsg : NSenterMessage;
  ev_ResMsg : option NSenterMessage;
  ev_Async : bool
}.

Definition newline : string := String (ascii_of_nat 10) EmptyString.

(** A Go call returns, or panics (a failed type assertion). *)
Inductive Outcome (A : Type) :=
| Ret (a : A)
| Panic.
Arguments Ret {A} a.
Arguments Panic {A}.

End Domain.

(** ** The common [/proc/sys] passthrough handler *)
Module ProcSysCommon.
Import Domain.

Section Handler.

(** What lies outside the handler: the namespace-enter service, the
    kernel's view of the namespaces, and two helpers of the package
    that are not under src/. *)
Variable World : Type.
Variable SendRequestEvent : World -> NSenterEvent -> World * error.
Variable ReceiveResponseEvent : World -> NSenterEvent -> NSenterMessage.
Variable ProcessNsMatch : World -> ProcessDesc -> ProcessDesc -> bool.
Variable copyResultBuffer : string -> string -> string * (Z * error).
Variable emulatedFilesInfo : IOnode -> HandlerRequest -> list DFileInfo * error.

(** The state the handler works on: the outside world, the requests
    sent to the namespace-enter service so far, and the containers. *)
Record State := {
  world : World;
  sent : list NSenterEvent;
  cntrs : store
}.

Definition setContainer (st : State) (r : cref) (c : container) : State :=
  {| world := world st; sent := sent st; cntrs := update (cntrs st) r c |}.

Definition NewEvent (pid : N) (ns : list NStype) (req : NSenterMessage)
    (res : option NSenterMessage) (async : bool) : NSenterEvent :=
  {| ev_Pid := pid; ev_Namespace := ns; ev_ReqMsg := req; ev_ResMsg := res;
     ev_Async := async |}.

(** [nss.SendRequestEvent(event)], recorded in [sent]. *)
Definition sendRequest (st : State) (event : NSenterEvent) : State * error :=
  let '(w, err) := SendRequestEvent (world st) event in
  ({| world := w; sent := (sent st ++ [event])%list; cntrs := cntrs st |}, err).

Definition isErrorResponse (t : NSenterMsgType) : bool :=
  match t with ErrorResponse => true | _ => false end.

(** [responseMsg.Payload.(error)]. *)
Definition asError {A : Type} (st : State) (m : NSenterMessage)
    (k : GoError -> A) : State * Outcome A :=
  match Payload_ m with
  | PError e => (st, Ret (k e))
  | _ => (st, Panic)
  end.

Definition Lookup (h : HandlerBase) (n : IOnode) (req : HandlerRequest) (st : State)
  : State * Outcome (option DFileInfo * error) :=
  match Container req with
  | None => (st, Ret (None, Some ErrContainerNotFound))
  | Some _ =>
      let event :=
        NewEvent (Pid req) AllNSsButMount
          {| Type_ := LookupRequest; Payload_ := LookupPayload (Path n) |}
          None false in
      match sendRequest st event with
      | (st, Some err) => (st, Ret (None, Some err))
      | (st, None) =>
          let responseMsg := ReceiveResponseEvent (world st) event in
          if isErrorResponse (Type_ responseMsg)
          then asError st responseMsg (fun e => (None, Some e))
          else match Payload_ responseMsg with
               | PFileInfo info => (st, Ret (Some info, None))
               | _ => (st, Panic)
               end
      end
  end.

Definition Getattr (h : HandlerBase) (n : IOnode) (req : HandlerRequest) (st : State)
  : State * Outcome (option Process.Stat_t * error) :=
  match Container req with
  | None => (st, Ret (None, Some ErrContainerNotFound))
  | Some c =>
      (st, Ret (Some {| Process.Uid := c_UID (cntrs st c);
                        Process.Gid := c_GID (cntrs st c) |}, None))
  end.

(** The body [Open] and [Setattr] share: an [OpenFileRequest] with the
    node's flags and mode. *)
Definition openRequest (n : IOnode) (req : HandlerRequest) (st : State)
  : State * Outcome error :=
  let event :=
    NewEvent (Pid req) AllNSsButMount
      {| Type_ := OpenFileRequest;
         Payload_ := OpenFilePayload (Path n) (Go.Itoa (OpenFlags n))
                       (Go.Itoa (Z.of_N (OpenMode n))) |}
      None false in
  match sendRequest st event with
  | (st, Some err) => (st, Ret (Some err))
  | (st, None) =>
      let responseMsg := ReceiveResponseEvent (world st) event in
      if isErrorResponse (Type_ responseMsg)
      then asError st responseMsg (fun e => Some e)
      else (st, Ret None)
  end.

Definition Open (h : HandlerBase) (n : IOnode) (req : HandlerRequest) (st : State)
  : State * Outcome error :=
  match Container req with
  | None => (st, Ret (Some ErrContainerNotFound))
  | Some _ => openRequest n req st
  end.

Definition Close (h : HandlerBase) (n : IOnode) (st : State) : State * Outcome error :=
  (st, Ret None).

(** [fetchFile]: read the file inside the container's namespaces. *)
Definition fetchFile (n : IOnode) (process : ProcessDesc) (st : State)
  : State * Outcome (string * error) :=
  let event :=
    NewEvent (pd_Pid process) AllNSsButMount
      {| Type_ := ReadFileRequest; Payload_ := ReadFilePayload (Path n) |}
      None false in
  match sendRequest st event with
  | (st, Some err) => (st, Ret ("", Some err))
  | (st, None) =>
      let responseMsg := ReceiveResponseEvent (world st) event in
      if isErrorResponse (Type_ responseMsg)
      then asError st responseMsg (fun e => ("", Some e))
      else match Payload_ responseMsg with
           | PString info => (st, Ret (info, None))
           | _ => (st, Panic)
           end
  end.

(** [pushFile]: write the file inside the container's namespaces. *)
Definition pushFile (n : IOnode) (process : ProcessDesc) (s : string) (st : State)
  : State * Outcome error :=
  let event :=
    NewEvent (pd_Pid process) AllNSsButMount
      {| Type_ := WriteFileRequest; Payload_ := WriteFilePayload (Path n) s |}
      None false in
  match sendRequest st event with
  | (st, Some err) => (st, Ret (Some err))
  | (st, None) =>
      let responseMsg := ReceiveResponseEvent (world st) event in
      if isErrorResponse (Type_ responseMsg)
      then asError st responseMsg (fun e => Some e)
      else (st, Ret None)
  end.

(** [Read] returns the request's buffer as [copyResultBuffer] leaves
    it, the number of bytes and the error. *)
Definition Read (h : HandlerBase) (n : IOnode) (req : HandlerRequest) (st : State)
  : State * Outcome (string * (Z * error)) :=
  if (0 <? Offset req)%Z then (st, Ret (ReqData req, (0%Z, Some EOF)))
  else
    let name := Name n in
    let path := Path n in
    match Container req with
    | None => (st, Ret (ReqData req, (0%Z, Some ErrContainerNotFound)))
    | Some cntr =>
        let process := ProcessCreate (Pid req) (Uid req) (Gid req) in
        let finish (st : State) (data : string) :=
          (st, Ret (copyResultBuffer (ReqData req) (data +:+ newline))) in
        if (Cacheable h
            && ProcessNsMatch (world st) process (c_InitProc (cntrs st cntr)))%bool
        then
          match Data (cntrs st cntr) path name with
          | Some data => finish st data
          | None =>
              match fetchFile n process st with
              | (st, Panic) => (st, Panic)
              | (st, Ret (_, Some err)) => (st, Ret (ReqData req, (0%Z, Some err)))
              | (st, Ret (data, None)) =>
                  finish (setContainer st cntr (SetData (cntrs st cntr) path name data))
                    data
              end
          end
        else
          match fetchFile n process st with
          | (st, Panic) => (st, Panic)
          | (st, Ret (_, Some err)) => (st, Ret (ReqData req, (0%Z, Some err)))
          | (st, Ret (data, None)) => finish st data
          end
    end.

Definition Write (h : HandlerBase) (n : IOnode) (req : HandlerRequest) (st : State)
  : State * Outcome (Z * error) :=
  let name := Name n in
  let path := Path n in
  match Container req with
  | None => (st, Ret (0%Z, Some ErrContainerNotFound))
  | Some cntr =>
      let newContent := Go.TrimSpace (ReqData req) in
      let process := ProcessCreate (Pid req) (Uid req) (Gid req) in
      if (Cacheable h
          && ProcessNsMatch (world st) process (c_InitProc (cntrs st cntr)))%bool
      then
        match pushFile n process newContent st with
        | (st, Panic) => (st, Panic)
        | (st, Ret (Some err)) => (st, Ret (0%Z, Some err))
        | (st, Ret None) =>
            (setContainer st cntr (SetData (cntrs st cntr) path name newContent),
             Ret (Z.of_nat (String.length (ReqData req)), None))
        end
      else
        match pushFile n process newContent st with
        | (st, Panic) => (st, Panic)
        | (st, Ret (Some err)) => (st, Ret (0%Z, Some err))
        | (st, Ret None) => (st, Ret (Z.of_nat (String.length (ReqData req)), None))
        end
  end.

Definition ReadDirAll (h : HandlerBase) (n : IOnode) (req : HandlerRequest) (st : State)
  : State * Outcome (list DFileInfo * error) :=
  match Container req with
  | None => (st, Ret ([], Some ErrContainerNotFound))
  | Some _ =>
      let event :=
        NewEvent (Pid req) AllNSsButMount
          {| Type_ := ReadDirRequest; Payload_ := ReadDirPayload (Path n) |}
          None false in
      match sendRequest st event with
      | (st, Some err) => (st, Ret ([], Some err))
      | (st, None) =>
          let responseMsg := ReceiveResponseEvent (world st) event in
          if isErrorResponse (Type_ responseMsg)
          then asError st responseMsg (fun e => ([], Some e))
          else
            match emulatedFilesInfo n req with
            | (_, Some err) => (st, Ret ([], Some err))
            | (osEmulatedFileEntries, None) =>
                match Payload_ responseMsg with
                | PFileInfos dirEntries =>
                    (st,
                     Ret ((osEmulatedFileEntries
                           ++ List.filter (fun v => negb (existsb (fun e => String.eqb (Fname e) (Fname v))
                                                       osEmulatedFileEntries))
                                dirEntries)%list, None))
                | _ => (st, Panic)
                end
            end
      end
  end.

Definition Setattr (h : HandlerBase) (n : IOnode) (req : HandlerRequest) (st : State)
  : State * Outcome error :=
  match Container req with
  | None => (st, Ret (Some ErrContainerNotFound))
  | Some _ => openRequest n req st
  end.

(** Modelled from the spec: the FUSE adaptor's file read is not under
    src/.  The adaptor builds the request context from the FUSE request
    and delegates to the handler; of the error it gets back the spec
    says "Container-less request: Read ... with request.container = nil
    returns ContainerNotFound -> EACCES", that an errno returned by the
    helper is what "the FUSE caller observes", and that a transport
    failure is "surfaced as EIO"; the end of the file is not an
    error.  [None] is success, [inr] stands for EIO. *)
Definition fuseReadErrno (err : error) : option (Process.Errno + unit) :=
  match err with
  | None => None
  | Some EOF => None
  | Some ErrContainerNotFound => Some (inl Process.EACCES)
  | Some (ErrErrno e) => Some (inl e)
  | Some _ => Some (inr tt)
  end.

End Handler.

End ProcSysCommon.

(** ** The max-integer sysctl handler *)
Module MaxInt.
Import Domain.

(** What the handler does to the host, in order. *)
Inductive Event :=
| EvLock                       (* h.Lock.Lock() *)
| EvUnlock                     (* h.Lock.Unlock() *)
| EvReadLine                   (* n.ReadLine() *)
| EvSleep (microsecs : Z)      (* time.Sleep(d * time.Microsecond) *)
| EvWriteFile (msg : string).  (* n.WriteFile(msg) *)


Definition retries : nat := 5.
Definition retryDelay : Z := 100.


Section Handler.

(** The host: the file behind the IO node, which other agents may
    change at any time, the random source of [math/rand], and the
    service's [IgnoreErrors] setting. *)
Variable Host : Type.
Variable ReadLine : Host -> IOnode -> Host * (string * error).
Variable WriteFile : Host -> IOnode -> string -> Host * error.
Variable Intn : Host -> Z -> Host * Z.
Variable IgnoreErrors : bool.

Record State := {
  host : Host;
  trace : list Event;
  cntrs : store
}.

Definition emit (e : Event) (st : State) : State :=
  {| host := host st; trace := (trace st ++ [e])%list; cntrs := cntrs st |}.

Definition setHost (w : Host) (st : State) : State :=
  {| host := w; trace := trace st; cntrs := cntrs st |}.

Definition setContainer (st : State) (r : cref) (c : container) : State :=
  {| host := host st; trace := trace st; cntrs := update (cntrs st) r c |}.

Definition readLine (n : IOnode) (st : State) : State * (string * error) :=
  let '(w, r) := ReadLine (host st) n in (emit EvReadLine (setHost w st), r).

Definition writeFile (n : IOnode) (msg : string) (st : State) : State * error :=
  let '(w, err) := WriteFile (host st) n msg in (emit (EvWriteFile msg) (setHost w st), err).

(** [d := rand.Intn(retryDelay); time.Sleep(d microseconds)]. *)
Definition randomSleep (st : State) : State :=
  let '(w, d) := Intn (host st) retryDelay in emit (EvSleep d) (setHost w st).

Definition notEOF (err : error) : option GoError :=
  match err with
  | Some EOF | None => None
  | Some e => Some e
  end.

(** The body of [for i := 0; i < retries; i++], with [remaining =
    retries - i] iterations to go. *)
Fixpoint pushLoop (remaining : nat) (i : nat) (n : IOnode) (newMaxInt : Z)
    (st : State) : State * error :=
  match remaining with
  | O => (st, None)
  | S remaining' =>
      let '(st, (curHostMax, err)) := readLine n st in
      match notEOF err with
      | Some e => (st, Some e)
      | None =>
          match Go.Atoi curHostMax with
          | None => (st, Some (ErrNum curHostMax))
          | Some curHostMaxInt =>
              if (newMaxInt <=? curHostMaxInt)%Z then (st, None)
              else
                let st := if (0 <? i)%nat then randomSleep st else st in
                let '(st, err) := writeFile n (Go.Itoa newMaxInt) st in
                match err with
                | Some e =>
                    if negb IgnoreErrors then (st, Some e)
                    else pushLoop remaining' (S i) n newMaxInt st
                | None => pushLoop remaining' (S i) n newMaxInt st
                end
          end
      end
  end.

(** [pushFile]: the loop runs between [h.Lock.Lock()] and the deferred
    [h.Lock.Unlock()]. *)
Definition pushFile (n : IOnode) (newMaxInt : Z) (st : State) : State * error :=
  let '(st, err) := pushLoop retries 0 n newMaxInt (emit EvLock st) in
  (emit EvUnlock st, err).

Definition fetchFile (n : IOnode) (st : State) : State * (string * error) :=
  let '(st, (curHostMax, err)) := readLine n (emit EvLock st) in
  let st := emit EvUnlock st in
  match notEOF err with
  | Some e => (st, ("", Some e))
  | None =>
      match Go.Atoi curHostMax with
      | None => (st, ("", Some (ErrNum curHostMax)))
      | Some _ => (st, (curHostMax, None))
      end
  end.

(** [Read] returns the string handed to [copyResultBuffer] (which is
    not under src/), and the error. *)
Definition Read (h : HandlerBase) (n : IOnode) (req : HandlerRequest) (st : State)
  : State * (option string * error) :=
  if (0 <? Offset req)%Z then (st, (None, Some EOF))
  else
    let name := Name n in
    let path := Path n in
    match Container req with
    | None => (st, (None, Some ErrContainerNotFound))
    | Some cntr =>
        match Data (cntrs st cntr) path name with
        | Some data => (st, (Some (data +:+ newline), None))
        | None =>
            let '(st, (data, err)) := fetchFile n st in
            match notEOF err with
            | Some err => (st, (None, Some err))
            | None =>
                (setContainer st cntr (SetData (cntrs st cntr) path name data),
                 (Some (data +:+ newline), None))
            end
        end
    end.

Definition Write (h : HandlerBase) (n : IOnode) (req : HandlerRequest) (st : State)
  : State * (Z * error) :=
  let name := Name n in
  let path := Path n in
  let cntr := Container req in
  let newMax := Go.TrimSpace (ReqData req) in
  match Go.Atoi newMax with
  | None => (st, (0%Z, Some (ErrNum newMax)))
  | Some newMaxInt =>
      match cntr with
      | None => (st, (0%Z, Some ErrContainerNotFound))
      | Some cntr =>
          let len := Z.of_nat (String.length (ReqData req)) in
          match Data (cntrs st cntr) path name with
          | None =>
              match pushFile n newMaxInt st with
              | (st, Some err) => (st, (0%Z, Some err))
              | (st, None) =>
                  (setContainer st cntr (SetData (cntrs st cntr) path name newMax),
                   (len, None))
              end
          | Some curMax =>
              match Go.Atoi curMax with
              | None => (st, (0%Z, Some (ErrNum curMax)))
              | Some curMaxInt =>
                  if (newMaxInt <=? curMaxInt)%Z
                  then (setContainer st cntr (SetData (cntrs st cntr) path name newMax),
                        (len, None))
                  else
                    match pushFile n newMaxInt st with
                    | (st, Some _) => (st, (0%Z, Some EOF))
                    | (st, None) =>
                        (setContainer st cntr (SetData (cntrs st cntr) path name newMax),
                         (len, None))
                    end
              end
          end
      end
  end.

End Handler.

End MaxInt.

(** ** Concrete file systems, processes and hosts used as examples *)
Module Scenario.
Import Process.

(** A file-system entry: what [Lstat] and [Stat] report for the path and
    the link target, if it is a symlink. *)
Record Entry := {
  e_lstat : FileInfo;
  e_stat : option FileInfo;
  e_link : option string
}.

Definition dirInfo (perm u g : N) : FileInfo :=
  {| Mode := N.lor ModeDir perm; Sys := Some {| Uid := u; Gid := g |} |}.
Definition fileInfo (perm u g : N) : FileInfo :=
  {| Mode := perm; Sys := Some {| Uid := u; Gid := g |} |}.
Definition linkInfo : FileInfo :=
  {| Mode := N.lor ModeSymlink 511%N; Sys := Some {| Uid := 0%N; Gid := 0%N |} |}.

Definition dirE (perm u g : N) : Entry :=
  {| e_lstat := dirInfo perm u g; e_stat := Some (dirInfo perm u g); e_link := None |}.
Definition fileE (perm u g : N) : Entry :=
  {| e_lstat := fileInfo perm u g; e_stat := Some (fileInfo perm u g); e_link := None |}.
Definition linkE (target : string) (st : option FileInfo) : Entry :=
  {| e_lstat := linkInfo; e_stat := st; e_link := Some target |}.

Fixpoint find (tbl : list (string * Entry)) (q : string) : option Entry :=
  match tbl with
  | [] => None
  | (k, e) :: tbl' => if String.eqb k q then Some e else find tbl' q
  end.

Definition mkFs (tbl : list (string * Entry)) : FileSys :=
  {| os_Lstat := fun q => match find tbl q with Some e => Some (e_lstat e) | None => None end;
     os_Stat := fun q => match find tbl q with Some e => e_stat e | None => None end;
     os_Readlink := fun q => match find tbl q with Some e => e_link e | None => None end |}.

(** Process 42, an unprivileged user, as [getInfo] fills it in. *)
Definition p42 : process :=
  {| pid := 42%N; root := procRoot 42%N; cwd := procCwd 42%N;
     uid := 1000%N; gid := 1000%N; sgid := []; cap := fun _ _ => false |}.

(** Its file system: [/a], [/etc/passwd], a directory [/d] with a link
    [s -> .] in it, two links [x -> y -> x], a link [abs -> /etc], and a
    file [foo] in the working directory. *)
Definition fs42 : FileSys :=
  mkFs [ ("/proc/42/root", linkE "/" (Some (dirInfo 493%N 0%N 0%N)));
         ("/proc/42/cwd", linkE "/home" (Some (dirInfo 493%N 0%N 0%N)));
         ("/proc/42/root/a", dirE 493%N 0%N 0%N);
         ("/proc/42/root/etc", dirE 493%N 0%N 0%N);
         ("/proc/42/root/etc/passwd", fileE 420%N 0%N 0%N);
         ("/proc/42/root/abs", linkE "/etc" None);
         ("/proc/42/root/x", linkE "y" None);
         ("/proc/42/root/y", linkE "x" None);
         ("/proc/42/root/d", dirE 493%N 0%N 0%N);
         ("/proc/42/root/d/s", linkE "." None);
         ("/proc/42/cwd/foo", fileE 420%N 0%N 0%N) ].

(** A file system with links whose targets climb with "..". *)
Definition fsEscape : FileSys :=
  mkFs [ ("/proc/42/root", linkE "/" (Some (dirInfo 493%N 0%N 0%N)));
         ("/proc/42/root/up", linkE "../../../../etc/passwd" None);
         ("/proc/42/root/top", linkE "/../../etc" None) ].

(** A path of [n] components [s] below [/d]. *)
Fixpoint manyLinks (n : nat) : string :=
  match n with
  | O => "/d"
  | S n' => manyLinks n' +:+ "/s"
  end.

(** A string of [n] letters. *)
Fixpoint letters (n : nat) : string :=
  match n with
  | O => EmptyString
  | S n' => String "a"%char (letters n')
  end.

(** A file the process owns whose owner bits deny everything and whose
    "other" bits grant everything (mode 0007). *)
Definition fsOwnerDenied : FileSys :=
  mkFs [ ("/proc/42/root/f", fileE 7%N 1000%N 1000%N) ].

(** A root-owned file without permission bits and a root-owned
    directory, for processes that hold capabilities. *)
Definition fsCaps : FileSys :=
  mkFs [ ("/proc/42/root/f", fileE 0%N 0%N 0%N);
         ("/proc/42/root/dir", dirE 0%N 0%N 0%N) ].

Definition withCaps (caps : list Cap) : process :=
  {| pid := 42%N; root := procRoot 42%N; cwd := procCwd 42%N;
     uid := 1000%N; gid := 1000%N; sgid := [];
     cap := fun which what =>
              match which with
              | EFFECTIVE => existsb (N.eqb what) caps
              | _ => false
              end |}.

(** A host whose sysctl file holds [hostValue]; a write fails with
    [writeError] if there is one, and otherwise stores the value, after
    which the next of the [intruders] (other agents on the host)
    overwrites it; [seed] drives the random source. *)
Record SimHost := {
  hostValue : string;
  writeError : Domain.error;
  intruders : list string;
  seed : Z
}.

Definition simReadLine (w : SimHost) (n : Domain.IOnode)
  : SimHost * (string * Domain.error) :=
  (w, (hostValue w, None)).

Definition simWriteFile (w : SimHost) (n : Domain.IOnode) (msg : string)
  : SimHost * Domain.error :=
  match writeError w with
  | Some e => (w, Some e)
  | None =>
      ({| hostValue := match intruders w with v :: _ => v | [] => msg end;
          writeError := None;
          intruders := tl (intruders w);
          seed := seed w |}, None)
  end.

Definition simIntn (w : SimHost) (k : Z) : SimHost * Z :=
  ({| hostValue := hostValue w; writeError := writeError w;
      intruders := intruders w; seed := (seed w + 7)%Z |},
   (seed w mod k)%Z).

Definition emptyContainer : Domain.container :=
  {| Domain.c_ID := "c1"; Domain.c_InitPid := 1001%N;
     Domain.c_UID := 231072%N; Domain.c_GID := 231072%N;
     Domain.c_InitProc := Domain.ProcessCreate 1001%N 231072%N 231072%N;
     Domain.dataStore := ∅ |}.

(** The sysctl node of the examples and a container that has cached
    the value 1024 for it. *)
Definition maxNode : Domain.IOnode :=
  {| Domain.Name := "nf_conntrack_max";
     Domain.Path := "/proc/sys/net/netfilter/nf_conntrack_max";
     Domain.OpenFlags := 1%Z; Domain.OpenMode := 0%N |}.

Definition cached1024 : Domain.container :=
  Domain.SetData emptyContainer (Domain.Path maxNode) (Domain.Name maxNode) "1024".

Definition maxHandler : Domain.HandlerBase :=
  {| Domain.h_Name := "nfConntrackMax"; Domain.h_Path := Domain.Path maxNode;
     Domain.Enabled := true; Domain.Cacheable := true |}.

Definition writeReq (data : string) (c : option Domain.cref) : Domain.HandlerRequest :=
  {| Domain.ID := 1%N; Domain.Pid := 1001%N; Domain.Uid := 0%N; Domain.Gid := 0%N;
     Domain.Offset := 0%Z; Domain.ReqData := data; Domain.Container := c |}.

Definition maxState (w : SimHost) (c : Domain.container) : MaxInt.State SimHost :=
  {| MaxInt.host := w; MaxInt.trace := []; MaxInt.cntrs := fun _ => c |}.


(** A host that holds 512 and refuses writes. *)
Definition readOnlyHost : SimHost :=
  {| hostValue := "512"; writeError := Some (Domain.ErrErrno EACCES);
     intruders := []; seed := 0%Z |}.


(** A container's view of a sysctl that holds a list of numbers, such
    as [net.ipv4.ip_local_port_range]: the kernel takes the numbers
    separated by spaces and shows them separated by tabs.  The
    namespace-enter service writes and reads it. *)
Definition SysctlWorld := string.

Definition tab : ascii := ascii_of_nat 9.

Fixpoint spacesToTabs (s : string) : string :=
  match s with
  | EmptyString => EmptyString
  | String c s' => String (if Ascii.eqb c " "%char then tab else c) (spacesToTabs s')
  end.

Definition sysctlSend (w : SysctlWorld) (ev : Domain.NSenterEvent)
  : SysctlWorld * Domain.error :=
  match Domain.Payload_ (Domain.ev_ReqMsg ev) with
  | Domain.WriteFilePayload _ content => (spacesToTabs content, None)
  | _ => (w, None)
  end.

Definition sysctlReceive (w : SysctlWorld) (ev : Domain.NSenterEvent)
  : Domain.NSenterMessage :=
  match Domain.Payload_ (Domain.ev_ReqMsg ev) with
  | Domain.WriteFilePayload _ _ =>
      {| Domain.Type_ := Domain.WriteFileResponse; Domain.Payload_ := Domain.NoPayload |}
  | Domain.ReadFilePayload _ =>
      {| Domain.Type_ := Domain.ReadFileResponse; Domain.Payload_ := Domain.PString w |}
  | _ =>
      {| Domain.Type_ := Domain.ErrorResponse;
         Domain.Payload_ := Domain.PError (Domain.ErrErrno ENOENT) |}
  end.

(** Modelled from the spec: [domain.ProcessNsMatch] is not under src/;
    "the caller shares the container init's namespace set (equal inodes
    for pid, user, and net)".  The processes below 2000 live in the
    container's namespaces, the others in the host's. *)
Definition simNsInodes (pid : N) : N * N * N :=
  if (pid <? 2000)%N then (4026532001, 4026532002, 4026532003)%N
  else (4026531836, 4026531837, 4026531992)%N.

Definition simNsMatch (w : SysctlWorld) (p1 p2 : Domain.ProcessDesc) : bool :=
  let '(pid1, user1, net1) := simNsInodes (Domain.pd_Pid p1) in
  let '(pid2, user2, net2) := simNsInodes (Domain.pd_Pid p2) in
  (N.eqb pid1 pid2 && N.eqb user1 user2 && N.eqb net1 net2)%bool.

(** Modelled from the spec: [copyResultBuffer] is not under src/; the
    result is copied "to the output buffer", as many bytes as the buffer
    holds. *)
Definition simCopyResultBuffer (buf src : string) : string * (Z * Domain.error) :=
  let k := Nat.min (String.length buf) (String.length src) in
  (String.substring 0 k src +:+ String.substring k (String.length buf - k) buf,
   (Z.of_nat k, None)).

Definition noEmulatedFiles (n : Domain.IOnode) (req : Domain.HandlerRequest)
  : list Domain.DFileInfo * Domain.error := ([], None).

Definition portRange : Domain.IOnode :=
  {| Domain.Name := "ip_local_port_range";
     Domain.Path := "/proc/sys/net/ipv4/ip_local_port_range";
     Domain.OpenFlags := 0%Z; Domain.OpenMode := 0%N |}.

(** The payload of the examples: two numbers and a newline. *)
Definition ports : string := "1024 65535" +:+ Domain.newline.

Definition commonHandler (cacheable : bool) : Domain.HandlerBase :=
  {| Domain.h_Name := "procSysCommon"; Domain.h_Path := "/proc/sys";
     Domain.Enabled := true; Domain.Cacheable := cacheable |}.

Definition commonState (w : SysctlWorld) : ProcSysCommon.State SysctlWorld :=
  {| ProcSysCommon.world := w; ProcSysCommon.sent := [];
     ProcSysCommon.cntrs := fun _ => emptyContainer |}.

(** A request of process 1001, which lives in the container's
    namespaces: [data] is the payload of a write and the buffer of a
    read. *)
Definition request (offset : Z) (data : string) (c : option Domain.cref)
  : Domain.HandlerRequest :=
  {| Domain.ID := 7%N; Domain.Pid := 1001%N; Domain.Uid := 0%N; Domain.Gid := 0%N;
     Domain.Offset := offset; Domain.ReqData := data; Domain.Container := c |}.

(** A buffer of [n] zero bytes. *)
Fixpoint buffer (n : nat) : string :=
  match n with
  | O => EmptyString
  | S n' => String Ascii.zero (buffer n')
  end.

End Scenario.

From Stdlib Require Import DecimalPos.

(** ** Further shapes of paths *)
Module PathInputs.

(** A path made of separators only, such as "/" and "//". *)
Fixpoint onlySlashes (s : string) : bool :=
  match s with
  | EmptyString => true
  | String c s' => (Go.isSlash c && onlySlashes s')%bool
  end.

End PathInputs.

(** ** Hosts that keep what is written to them *)
Module KeptHost.
Import Domain.

(** The value the host holds bounds what the containers have cached for
    the node: the host's content parses as an integer, and so does every
    cached value, to no more than the host's. *)
Definition hostBounds {Host : Type} (content : Host -> string) (n : IOnode)
    (st : MaxInt.State Host) : Prop :=
  exists hv : Z,
    Go.Atoi (content (MaxInt.host Host st)) = Some hv
    /\ forall (r : cref) (s : string),
         Data (MaxInt.cntrs Host st r) (Path n) (Name n) = Some s ->
         exists k : Z, Go.Atoi s = Some k /\ (k <= hv)%Z.

(** The simplest such host: the content of the file, nothing else. *)
Definition fileReadLine (w : string) (n : IOnode) : string * (string * error) :=
  (w, (w, None)).

Definition fileWriteFile (w : string) (n : IOnode) (msg : string) : string * error :=
  (msg, None).

Definition fileIntn (w : string) (k : Z) : string * Z := (w, 0%Z).

Definition fileState (content : string) (c : container) : MaxInt.State string :=
  {| MaxInt.host := content; MaxInt.trace := []; MaxInt.cntrs := fun _ => c |}.

(** The writes of a list of requests, one after the other: the state
    at the end and the result of each write. *)
Fixpoint writeAll (Host : Type)
    (ReadLine : Host -> IOnode -> Host * (string * error))
    (WriteFile : Host -> IOnode -> string -> Host * error)
    (Intn : Host -> Z -> Host * Z) (IgnoreErrors : bool)
    (h : HandlerBase) (n : IOnode) (reqs : list HandlerRequest) (st : MaxInt.State Host)
  : MaxInt.State Host * list (Z * error) :=
  match reqs with
  | [] => (st, [])
  | req :: rest =>
      let '(st, r) := MaxInt.Write Host ReadLine WriteFile Intn IgnoreErrors h n req st in
      let '(st, rs) := writeAll Host ReadLine WriteFile Intn IgnoreErrors h n rest st in
      (st, r :: rs)
  end.

End KeptHost.

(** ** The handler of /proc/sys/net/ipv4/vs/expire_quiescent_template

    The resource is namespaced by the kernel, so the handler passes
    every value through to the host and keeps a copy in the container's
    data store. *)
Module VsExpireQuiescentTemplate.
Import Domain.

Section Handler.

Variable Host : Type.
Variable ReadLine : Host -> IOnode -> Host * (string * error).
Variable WriteFile : Host -> IOnode -> string -> Host * error.

Local Abbreviation State := (MaxInt.State Host).

Definition fetchFile (n : IOnode) (st : State) : State * (string * error) :=
  let '(st, (curHostVal, err)) := MaxInt.readLine Host ReadLine n st in
  match MaxInt.notEOF err with
  | Some e => (st, ("", Some e))
  | None =>
      match Go.Atoi curHostVal with
      | None => (st, ("", Some (ErrNum curHostVal)))
      | Some _ => (st, (curHostVal, None))
      end
  end.

Definition pushFile (n : IOnode) (newValInt : Z) (st : State) : State * error :=
  let '(st, err) := MaxInt.writeFile Host WriteFile n (Go.Itoa newValInt) st in
  match err with
  | Some e => (st, Some e)
  | None => (st, None)
  end.

(** [Read] returns the string handed to [copyResultBuffer] (which is
    not under src/), and the error. *)
Definition Read (h : HandlerBase) (n : IOnode) (req : HandlerRequest) (st : State)
  : State * (option string * error) :=
  if (0 <? Offset req)%Z then (st, (None, Some EOF))
  else
    let name := Name n in
    let path := Path n in
    match Container req with
    | None => (st, (None, Some ErrContainerNotFound))
    | Some cntr =>
        match Data (MaxInt.cntrs Host st cntr) path name with
        | Some data => (st, (Some (data +:+ newline), None))
        | None =>
            let '(st, (data, err)) := fetchFile n st in
            match MaxInt.notEOF err with
            | Some err => (st, (None, Some err))
            | None =>
                (MaxInt.setContainer Host st cntr
                   (SetData (MaxInt.cntrs Host st cntr) path name data),
                 (Some (data +:+ newline), None))
            end
        end
    end.

Definition Write (h : HandlerBase) (n : IOnode) (req : HandlerRequest) (st : State)
  : State * (Z * error) :=
  let name := Name n in
  let path := Path n in
  match Container req with
  | None => (st, (0%Z, Some ErrContainerNotFound))
  | Some cntr =>
      let newVal := Go.TrimSpace (ReqData req) in
      match Go.Atoi newVal with
      | None => (st, (0%Z, Some (ErrNum newVal)))
      | Some newValInt =>
          match pushFile n newValInt st with
          | (st, Some err) => (st, (0%Z, Some err))
          | (st, None) =>
              (MaxInt.setContainer Host st cntr
                 (SetData (MaxInt.cntrs Host st cntr) path name newVal),
               (Z.of_nat (String.length (ReqData req)), None))
          end
      end
  end.

End Handler.

End VsExpireQuiescentTemplate.

(** ** The table of container states (sysvisor-fs)

    [ContainerStateMap] and the registration of a [ContainerState].  The
    Go maps hold pointers; the only field written after construction is
    [pidNsInode], which [register] sets before it stores the container,
    so the tables are modelled as maps of values. *)
Module StateMap.
Import Domain.

Record ContainerState := {
  id : string;          (* container-id value generated by runC *)
  initPid : N;          (* initPid within container *)
  hostname : string;    (* defined container hostname *)
  ctime : option Z;     (* container creation time; [None] is the zeroed timestamp *)
  uidFirst : N;
  uidSize : N;
  gidFirst : N;
  gidSize : N;
  pidNsInode : N        (* inode associated to container's pid-ns *)
}.

Definition ContainerStateMap := gmap string ContainerState.

Definition NewContainerStateMap : ContainerStateMap := ∅.

Definition get (cm : ContainerStateMap) (key : string) : option ContainerState :=
  cm !! key.

Definition set (cm : ContainerStateMap) (key : string) (value : ContainerState)
  : ContainerStateMap := <[key := value]> cm.

Definition delete (cm : ContainerStateMap) (key : string) : ContainerStateMap :=
  base.delete key cm.

Definition lookup (cm : ContainerStateMap) (id : string) : option ContainerState :=
  match get cm id with
  | None => None
  | Some cntr => Some cntr
  end.

(** Modelled from the spec: [PidNsContainerMap] is not under src/.  It is
    the second of the registry's "two mutable mappings", "inode -> id",
    used through the same [get], [set] and [delete] as the table above. *)
Definition PidNsContainerMap := gmap N string.

Definition pidNsGet (pm : PidNsContainerMap) (inode : N) : option string := pm !! inode.

Definition pidNsSet (pm : PidNsContainerMap) (inode : N) (id : string)
  : PidNsContainerMap := <[inode := id]> pm.

Definition pidNsDelete (pm : PidNsContainerMap) (inode : N) : PidNsContainerMap :=
  base.delete inode pm.

(** The two global tables. *)
Record Globals := {
  ContainerStateMapGlobal : ContainerStateMap;
  PidNsContainerMapGlobal : PidNsContainerMap
}.

Section Registration.

(** [getPidNsInode]: the inode of the pid namespace of a process, from
    the host's /proc; [None] stands for its error. *)
Variable getPidNsInode : N -> option N.

Definition NewContainerState (g : Globals) (id : string) (initPid : N) (hostname : string)
    (uidFirst uidSize gidFirst gidSize : N) : option ContainerState * error :=
  match get (ContainerStateMapGlobal g) id with
  | Some _ => (None, Some (ErrOther "Container already registered"))
  | None =>
      (Some {| id := id; initPid := initPid; hostname := hostname; ctime := None;
               uidFirst := uidFirst; uidSize := uidSize;
               gidFirst := gidFirst; gidSize := gidSize; pidNsInode := 0%N |},
       None)
  end.

Definition setPidNsInode (c : ContainerState) (inode : N) : ContainerState :=
  {| id := id c; initPid := initPid c; hostname := hostname c; ctime := ctime c;
     uidFirst := uidFirst c; uidSize := uidSize c;
     gidFirst := gidFirst c; gidSize := gidSize c; pidNsInode := inode |}.

(** [register] returns the container as it leaves it, the tables and
    the error. *)
Definition register (c : ContainerState) (g : Globals)
  : ContainerState * Globals * error :=
  match getPidNsInode (initPid c) with
  | None => (c, g, Some (ErrOther "Could not find pid-namespace inode for pid"))
  | Some inode =>
      match pidNsGet (PidNsContainerMapGlobal g) inode with
      | Some _ => (c, g, Some (ErrOther "Pid-namespace already registered"))
      | None =>
          let c := setPidNsInode c inode in
          (c,
           {| ContainerStateMapGlobal := set (ContainerStateMapGlobal g) (id c) c;
              PidNsContainerMapGlobal := pidNsSet (PidNsContainerMapGlobal g) inode (id c) |},
           None)
      end
  end.

Definition unregister (c : ContainerState) (g : Globals) : Globals * error :=
  match pidNsGet (PidNsContainerMapGlobal g) (pidNsInode c) with
  | None => (g, Some (ErrOther "Container not properly registered"))
  | Some cntrId =>
      if negb (String.eqb cntrId (id c))
      then (g, Some (ErrOther "Container not properly registered"))
      else
        match get (ContainerStateMapGlobal g) (id c) with
        | None => (g, Some (ErrOther "Container not properly registered"))
        | Some _ =>
            ({| ContainerStateMapGlobal := delete (ContainerStateMapGlobal g) (id c);
                PidNsContainerMapGlobal :=
                  pidNsDelete (PidNsContainerMapGlobal g) (pidNsInode c) |},
             None)
        end
  end.

End Registration.

(** The two tables agree: a container stored under an id carries that
    id, and its pid-ns inode leads back to it; an inode leads to the id of
    a stored container that carries the inode. *)
Definition consistent (g : Globals) : Prop :=
  (forall (i : string) (c : ContainerState),
      ContainerStateMapGlobal g !! i = Some c ->
      id c = i /\ PidNsContainerMapGlobal g !! pidNsInode c = Some i)
  /\ (forall (inode : N) (i : string),
         PidNsContainerMapGlobal g !! inode = Some i ->
         exists c : ContainerState,
           ContainerStateMapGlobal g !! i = Some c /\ pidNsInode c = inode).

(** Examples: an empty registry, and containers [c1] and [c2]; every
    process lives in the pid namespace whose inode is its pid plus
    4026531836. *)
Definition noGlobals : Globals :=
  {| ContainerStateMapGlobal := NewContainerStateMap; PidNsContainerMapGlobal := ∅ |}.

Definition inodeOf (pid : N) : option N := Some (pid + 4026531836)%N.

Definition newState (i : string) (pid : N) : ContainerState :=
  {| id := i; initPid := pid; hostname := "syscont"; ctime := None;
     uidFirst := 231072%N; uidSize := 65536%N;
     gidFirst := 231072%N; gidSize := 65536%N; pidNsInode := 0%N |}.

End StateMap.

(** ** The FUSE directory node (package fuse, dir.go) *)
Module FuseDir.
Import Domain.

(** [os.FileInfo], as far as the directory node calls it.  [fi_Sys] is
    [Some] when [Sys()] holds a [*syscall.Stat_t]. *)
Record OsFileInfo := {
  fi_Name : string;
  fi_Mode : N;
  fi_IsDir : bool;
  fi_Sys : option Process.Stat_t
}.

(** [os.ModeType]: the bits of directories, symlinks, named pipes,
    sockets, devices, character devices and irregular files. *)
Definition ModeType : N :=
  N.lor Process.ModeDir
    (N.lor Process.ModeSymlink
       (N.lor (N.shiftl 1 26) (N.lor (N.shiftl 1 25)
          (N.lor (N.shiftl 1 24) (N.lor (N.shiftl 1 21) (N.shiftl 1 19)))))).

Definition IsRegular (m : N) : bool := N.eqb (N.land m ModeType) 0.

(** [fuse.Attr], as far as this code goes: the mode, which [Lookup]
    changes, and the owner. *)
Record Attr := {
  a_Mode : N;
  a_Uid : N;
  a_Gid : N
}.

Inductive NodeKind := FileNode | DirNode.

(** A [File] or a [Dir], which embeds a [File]. *)
Record Node := {
  kind : NodeKind;
  name : string;
  path : string;
  attr : Attr;
  ionode : IOnode
}.

Inductive DirentType := DT_Unknown | DT_File | DT_Dir.

Record Dirent := {
  d_Name : string;
  d_Type : DirentType
}.

(** The header of a FUSE request. *)
Record Header := {
  hdr_Pid : N;
  hdr_Uid : N;
  hdr_Gid : N
}.

Definition DentryCacheTimeout : Z := 5.

(** [time.Minute], in nanoseconds. *)
Definition Minute : Z := 60 * 1000000000.

Section Service.

(** What the node reaches through its service: the constructor of IO
    nodes and the conversion of a stat into attributes, which are not
    under src/, and the handlers, which run in a world of their own. *)
Variable World : Type.
Variable Handler : Type.
Variable NewIOnode : string -> string -> N -> IOnode.
Variable statToAttr : Process.Stat_t -> Attr.
Variable LookupHandler : IOnode -> option Handler.
Variable handlerLookup :
  Handler -> IOnode -> HandlerRequest -> World -> World * (option OsFileInfo * error).
Variable handlerReadDirAll :
  Handler -> IOnode -> HandlerRequest -> World -> World * (list OsFileInfo * error).

(** The service: the nodes handed out so far, by path. *)
Record FuseService := {
  nodeDB : gmap string Node;
  world : World
}.

(** Modelled from the spec: [NewFile] is not under src/.  The adaptor
    "exposes two node variants - directory and file - each caching the
    underlying IO-node": a file node is built from its name, its path and
    its attributes, with an IO node of its own. *)
Definition NewFile (name path : string) (attr : Attr) : Node :=
  {| kind := FileNode; name := name; path := path; attr := attr;
     ionode := NewIOnode name path 0 |}.

Definition NewDir (name path : string) (attr : Attr) : Node :=
  {| kind := DirNode; name := name; path := path; attr := attr;
     ionode := NewIOnode name path 0 |}.

Definition request (hdr : Header) : HandlerRequest :=
  {| ID := 0; Pid := hdr_Pid hdr; Uid := hdr_Uid hdr; Gid := hdr_Gid hdr;
     Offset := 0; ReqData := ""; Container := None |}.

Definition noHandler (path : string) : GoError :=
  ErrOther ("No supported handler for " +:+ path +:+ " resource").

(** [Lookup] returns the node, the [EntryValid] it puts in the response
    when it builds a node, and the error. *)
Definition Lookup (d : Node) (hdr : Header) (reqName : string) (s : FuseService)
  : FuseService * Outcome (option Node * option Z * error) :=
  let path := Go.Join [path d; reqName] in
  match nodeDB s !! path with
  | Some node => (s, Ret (Some node, None, None))
  | None =>
      let newIOnode := NewIOnode reqName path 0 in
      match LookupHandler newIOnode with
      | None => (s, Ret (None, None, Some (noHandler (FuseDir.path d))))
      | Some handler =>
          let '(w, (info, err)) := handlerLookup handler newIOnode (request hdr) (world s) in
          let s := {| nodeDB := nodeDB s; world := w |} in
          match err with
          | Some _ => (s, Ret (None, None, Some (ErrErrno Process.ENOENT)))
          | None =>
              match info with
              | None => (s, Panic)
              | Some info =>
                  match fi_Sys info with
                  | None => (s, Panic)
                  | Some stat =>
                      let attr := statToAttr stat in
                      let entryValid := (DentryCacheTimeout * Minute)%Z in
                      let newNode :=
                        if fi_IsDir info
                        then NewDir reqName path
                               {| a_Mode := N.lor Process.ModeDir (a_Mode attr);
                                  a_Uid := a_Uid attr; a_Gid := a_Gid attr |}
                        else NewFile reqName path attr in
                      ({| nodeDB := <[path := newNode]> (nodeDB s); world := world s |},
                       Ret (Some newNode, Some entryValid, None))
                  end
              end
          end
      end
  end.

(** The body of the loop of [ReadDirAll] over the files the handler
    returned. *)
Definition addChild (d : Node) (children : list Dirent) (node : OsFileInfo)
  : list Dirent :=
  if (String.eqb (path d) "/"
      && (negb (String.eqb (fi_Name node) "sys")
          && negb (String.eqb (fi_Name node) "proc")
          && negb (String.eqb (fi_Name node) "testing")))%bool
  then children
  else
    let type :=
      if fi_IsDir node then DT_Dir
      else if IsRegular (fi_Mode node) then DT_File
      else DT_Unknown in
    (children ++ [{| d_Name := fi_Name node; d_Type := type |}])%list.

Definition ReadDirAll (d : Node) (hdr : Header) (s : FuseService)
  : FuseService * (list Dirent * error) :=
  match LookupHandler (ionode d) with
  | None => (s, ([], Some (noHandler (path d))))
  | Some handler =>
      let '(w, (files, err)) := handlerReadDirAll handler (ionode d) (request hdr) (world s) in
      let s := {| nodeDB := nodeDB s; world := w |} in
      match err with
      | Some _ => (s, ([], Some (ErrErrno Process.ENOENT)))
      | None => (s, (fold_left (addChild d) files [], None))
      end
  end.

(** [Mkdir] builds a directory node and stores nothing. *)
Definition Mkdir (d : Node) (reqName : string) : Node * error :=
  (NewDir reqName (Go.Join [path d; reqName])
     {| a_Mode := 0; a_Uid := 0; a_Gid := 0 |}, None).

End Service.

(** The entries the root directory shows. *)
Definition rootVisible (name : string) : bool :=
  (String.eqb name "sys" || String.eqb name "proc" || String.eqb name "testing")%bool.

(** Examples: one handler for everything, whose world is the list of
    the paths it was asked to look up. *)
Definition simNewIOnode (name path : string) (mode : N) : IOnode :=
  {| Name := name; Path := path; OpenFlags := 0; OpenMode := mode |}.

Definition simStatToAttr (st : Process.Stat_t) : Attr :=
  {| a_Mode := 420; a_Uid := Process.Uid st; a_Gid := Process.Gid st |}.

Definition simLookupHandler (n : IOnode) : option unit := Some tt.

Definition simInfo (name : string) (isDir : bool) : OsFileInfo :=
  {| fi_Name := name; fi_Mode := if isDir then N.lor Process.ModeDir 493 else 420;
     fi_IsDir := isDir;
     fi_Sys := Some {| Process.Uid := 0; Process.Gid := 0 |} |}.

Definition simHandlerLookup (h : unit) (n : IOnode) (req : HandlerRequest)
    (w : list string) : list string * (option OsFileInfo * error) :=
  ((w ++ [Path n])%list, (Some (simInfo (Name n) false), None)).

Definition simHandlerReadDirAll (h : unit) (n : IOnode) (req : HandlerRequest)
    (w : list string) : list string * (list OsFileInfo * error) :=
  (w, ([simInfo "bin" true; simInfo "proc" true; simInfo "etc" true;
        simInfo "sys" true; simInfo "swapfile" false], None)).

Definition rootDir : Node :=
  {| kind := DirNode; name := "/"; path := "/";
     attr := {| a_Mode := N.lor Process.ModeDir 511; a_Uid := 0; a_Gid := 0 |};
     ionode := simNewIOnode "/" "/" Process.ModeDir |}.

Definition procSys : Node :=
  {| kind := DirNode; name := "sys"; path := "/proc/sys";
     attr := {| a_Mode := N.lor Process.ModeDir 365; a_Uid := 0; a_Gid := 0 |};
     ionode := simNewIOnode "sys" "/proc/sys" 0 |}.

Definition emptyService : FuseService (list string) :=
  {| nodeDB := ∅; world := [] |}.

Definition someone : Header := {| hdr_Pid := 1001; hdr_Uid := 0; hdr_Gid := 0 |}.

End FuseDir.

(** ** The /proc/uptime handler (sysvisor-fs) *)
Module ProcUptime.
Import Domain.

(** A Go byte slice: the bytes of its backing array from the start of
    the slice up to its capacity, and its length. *)
Record Slice := {
  backing : string;
  len : nat
}.

Definition cap (b : Slice) : nat := String.length (backing b).

(** The bytes of [dst] after [n] bytes at most of [src] are copied over
    its start. *)
Fixpoint copyBytes (n : nat) (dst src : string) : string :=
  match n, dst, src with
  | S n', String _ dst', String c src' => String c (copyBytes n' dst' src')
  | _, _, _ => dst
  end.

(** [copy(dst, src)]: as many bytes as the shorter of the two holds. *)
Definition copy (dst : Slice) (src : string) : Slice :=
  {| backing := copyBytes (len dst) (backing dst) src; len := len dst |}.

(** Go's [int64], with its wrap-around. *)
Definition int64 (z : Z) : Z := ((z + 2 ^ 63) mod 2 ^ 64 - 2 ^ 63)%Z.

Section Handler.

(** The services of the handler: the IO service, the state service with
    its containers, and the clock, in seconds. *)
Variable Container : Type.
Variable NewIOnode : string -> string -> N -> IOnode.
Variable PidNsInode : IOnode -> N * error.
Variable ContainerLookupByPid : N -> option Container.
Variable Ctime : Container -> Z.
Variable Now : Z.

(** The line of /proc/uptime: the same number of seconds in both
    columns. *)
Definition uptimeLine (cntr : Container) : string :=
  let uptime := int64 (Now - Ctime cntr) in
  let uptimeStr := Go.Itoa uptime in
  uptimeStr +:+ " " +:+ uptimeStr +:+ newline.

(** [Read] returns the caller's buffer as it leaves it, the number of
    bytes it reports and the error. *)
Definition Read (n : IOnode) (pid : N) (buf : Slice) (off : Z)
  : Outcome (Slice * (Z * error)) :=
  if (0 <? off)%Z then Ret (buf, (0%Z, Some EOF))
  else
    let tmpNode := NewIOnode "" (Go.Itoa (Z.of_N pid)) 0 in
    match PidNsInode tmpNode with
    | (_, Some err) => Ret (buf, (0%Z, Some err))
    | (pidInode, None) =>
        match ContainerLookupByPid pidInode with
        | None => Ret (buf, (0%Z, Some ErrContainerNotFound))
        | Some cntr =>
            let res := uptimeLine cntr in
            let copied := copy buf res in
            (* buf = buf[:len(res)] *)
            if (cap buf <? String.length res)%nat then Panic
            else Ret (copied, (Z.of_nat (String.length res), None))
        end
    end.

End Handler.

(** Examples: every process is in the pid namespace 4026531836, which
    belongs to a container created at second 1000. *)
Definition simPidNsInode (n : IOnode) : N * error := (4026531836%N, None).

Definition simContainers (inode : N) : option Z :=
  if N.eqb inode 4026531836 then Some 1000%Z else None.

Definition uptimeNode : IOnode :=
  {| Name := "uptime"; Path := "/proc/uptime"; OpenFlags := 0; OpenMode := 0 |}.

(** A slice of [n] bytes out of a zeroed array of [c] bytes. *)
Definition zeroed (n c : nat) : Slice :=
  {| backing := Scenario.buffer c; len := n |}.

End ProcUptime.

(** ** The namespace-enter events (package nsenter) *)
Module NSenter.
Import Domain.

(** The payload of a message, an [interface{}]: what the code stores
    in it, and what a decoded request can hold. *)
Inductive Payload :=
| PNil
| PStr (s : string)
| PInfo (fi : DFileInfo)
| PInfos (fis : list DFileInfo)
| PIOerror (RcvError : GoError)      (* &fuse.IOerror{RcvError: err} *)
| POther.                            (* a decoded JSON number, object or array *)

Record NSenterMessage := {
  Type_ : NSenterMsgType;
  Payload_ : Payload
}.

Record NSenterEvent := {
  Resource : string;                 (* file or directory accessed in the container *)
  Pid : N;                           (* initPid of the targeted container *)
  Namespace : list NStype;           (* namespace types to attach to *)
  ReqMsg : option NSenterMessage;
  ResMsg : option NSenterMessage
}.

Definition setResMsg (e : NSenterEvent) (m : NSenterMessage) : NSenterEvent :=
  {| Resource := Resource e; Pid := Pid e; Namespace := Namespace e;
     ReqMsg := ReqMsg e; ResMsg := Some m |}.

(** [namespacePaths]: one path per namespace type, built by
    [filepath.Join]. *)
Definition namespacePaths (e : NSenterEvent) : list string :=
  fold_left
    (fun paths nstype =>
       (paths ++ [Go.Join [nstype; ":/proc/"; Go.Itoa (Z.of_N (Pid e)); "/ns/"; nstype]])%list)
    (Namespace e) [].

(** What [os.Stat] and [ioutil.ReadDir] tell of a file; [i_Sys] is
    [Some] when [Sys()] holds a [*syscall.Stat_t]. *)
Record Info := {
  i_Name : string;
  i_Size : Z;
  i_Mode : N;
  i_IsDir : bool;
  i_Sys : option Process.Stat_t
}.

(** The [domain.FileInfo] built from it; the type assertion on [Sys()]
    has succeeded. *)
Definition fileInfo (info : Info) : DFileInfo :=
  {| Fname := i_Name info; Fsize := i_Size info; Fmode := i_Mode info;
     FisDir := i_IsDir info |}.

(** What the pipe holds for [Decode]: nothing that decodes, the JSON
    literal null, or an event. *)
Inductive Decoded :=
| DecodeError
| DecodedNull
| DecodedEvent (e : NSenterEvent).

(** How [Init] ends: it has written a response to the pipe, it has
    returned an error without writing, or it has panicked. *)
Inductive InitResult :=
| Responded (msg : NSenterMessage) (data : string)
| Failed (err : GoError)
| Panicked.

Section InContainer.

(** The files the helper sees once it has entered the namespaces, and
    [json.Marshal]. *)
Variable FS : Type.
Variable os_Stat : FS -> string -> Info + GoError.
Variable os_OpenFile : FS -> string -> Z -> N -> FS * error.
Variable ioutil_ReadFile : FS -> string -> string + GoError.
Variable ioutil_WriteFile : FS -> string -> string -> N -> FS * error.
Variable ioutil_ReadDir : FS -> string -> list Info + GoError.
Variable json_Marshal : NSenterMessage -> string + GoError.

(** [err.Error()]. *)
Variable Error : GoError -> string.

Definition errorResponse (err : GoError) : NSenterMessage :=
  {| Type_ := ErrorResponse; Payload_ := PIOerror err |}.

Definition processLookupRequest (e : NSenterEvent) (fs : FS)
  : FS * Outcome (NSenterEvent * error) :=
  match os_Stat fs (Resource e) with
  | inr err => (fs, Ret (setResMsg e (errorResponse err), None))
  | inl info =>
      match i_Sys info with
      | None => (fs, Panic)
      | Some _ =>
          (fs, Ret (setResMsg e {| Type_ := LookupResponse; Payload_ := PInfo (fileInfo info) |},
                    None))
      end
  end.

Definition processOpenFileRequest (e : NSenterEvent) (req : NSenterMessage) (fs : FS)
  : FS * Outcome (NSenterEvent * error) :=
  match Payload_ req with
  | PStr s =>
      match Go.Atoi s with
      | None => (fs, Ret (e, None))
      | Some openFlags =>
          match os_OpenFile fs (Resource e) openFlags 0 with
          | (fs, Some err) => (fs, Ret (setResMsg e (errorResponse err), None))
          | (fs, None) =>
              (fs, Ret (setResMsg e {| Type_ := OpenFileResponse; Payload_ := PNil |}, None))
          end
      end
  | _ => (fs, Panic)
  end.

Definition processFileReadRequest (e : NSenterEvent) (fs : FS)
  : FS * Outcome (NSenterEvent * error) :=
  match ioutil_ReadFile fs (Resource e) with
  | inr err => (fs, Ret (setResMsg e (errorResponse err), Some err))
  | inl fileContent =>
      (fs, Ret (setResMsg e {| Type_ := ReadFileResponse;
                               Payload_ := PStr (Go.TrimSpace fileContent) |}, None))
  end.

Definition processFileWriteRequest (e : NSenterEvent) (req : NSenterMessage) (fs : FS)
  : FS * Outcome (NSenterEvent * error) :=
  match Payload_ req with
  | PStr payload =>
      match ioutil_WriteFile fs (Resource e) payload 420 with
      | (fs, Some err) => (fs, Ret (setResMsg e (errorResponse err), None))
      | (fs, None) =>
          (fs, Ret (setResMsg e {| Type_ := WriteFileResponse; Payload_ := PNil |}, None))
      end
  | _ => (fs, Panic)
  end.

(** The loop of [processDirReadRequest] over the entries; [None] when
    a type assertion on [Sys()] fails. *)
Fixpoint dirContentList (dirContent : list Info) : option (list DFileInfo) :=
  match dirContent with
  | [] => Some []
  | entry :: rest =>
      match i_Sys entry with
      | None => None
      | Some _ =>
          match dirContentList rest with
          | None => None
          | Some l => Some (fileInfo entry :: l)
          end
      end
  end.

Definition processDirReadRequest (e : NSenterEvent) (fs : FS)
  : FS * Outcome (NSenterEvent * error) :=
  match ioutil_ReadDir fs (Resource e) with
  | inr err =>
      (fs, Ret (setResMsg e {| Type_ := ErrorResponse; Payload_ := PStr (Error err) |},
                Some err))
  | inl dirContent =>
      match dirContentList dirContent with
      | None => (fs, Panic)
      | Some l =>
          (fs, Ret (setResMsg e {| Type_ := ReadDirResponse; Payload_ := PInfos l |}, None))
      end
  end.

(** [processRequest] on the event [e0]: decoding the pipe fills the
    event in. *)
Definition processRequest (e0 : NSenterEvent) (pipe : Decoded) (fs : FS)
  : FS * Outcome (NSenterEvent * error) :=
  match pipe with
  | DecodeError =>
      (fs, Ret (e0, Some (ErrOther "Error decoding received nsenterEvent request")))
  | DecodedNull => (fs, Panic)
  | DecodedEvent e =>
      match ReqMsg e with
      | None => (fs, Panic)
      | Some req =>
          match Type_ req with
          | LookupRequest => processLookupRequest e fs
          | OpenFileRequest => processOpenFileRequest e req fs
          | ReadFileRequest => processFileReadRequest e fs
          | WriteFileRequest => processFileWriteRequest e req fs
          | ReadDirRequest => processDirReadRequest e fs
          | _ =>
              (fs, Ret (setResMsg e {| Type_ := ErrorResponse;
                                       Payload_ := PStr "Unsupported request" |}, None))
          end
      end
  end.

(** [var event NSenterEvent]. *)
Definition zeroEvent : NSenterEvent :=
  {| Resource := ""; Pid := 0; Namespace := []; ReqMsg := None; ResMsg := None |}.

(** [Init]: [envInitPipe] is the value of _LIBCONTAINER_INITPIPE. *)
Definition Init (envInitPipe : string) (pipe : Decoded) (fs : FS) : FS * InitResult :=
  match Go.Atoi envInitPipe with
  | None =>
      (fs, Failed (ErrOther ("Unable to convert _LIBCONTAINER_INITPIPE=" +:+ envInitPipe
                             +:+ " to int")))
  | Some pipefd =>
      match processRequest zeroEvent pipe fs with
      | (fs, Panic) => (fs, Panicked)
      | (fs, Ret (_, Some err)) => (fs, Failed err)
      | (fs, Ret (event, None)) =>
          match ResMsg event with
          | None => (fs, Panicked)
          | Some msg =>
              match json_Marshal msg with
              | inr err => (fs, Failed err)
              | inl data => (fs, Responded msg data)
              end
          end
      end
  end.

End InContainer.

(** Whether [Init] has written to the pipe. *)
Definition responded (r : InitResult) : bool :=
  match r with Responded _ _ => true | _ => false end.

(** Examples: a file system that holds one sysctl and refuses any
    other path. *)
Definition simReadFile (fs : unit) (path : string) : string + GoError :=
  if String.eqb path "/proc/sys/net/ipv4/ip_forward"
  then inl ("1" +:+ newline) else inr (ErrErrno Process.ENOENT).

Definition simStat (fs : unit) (path : string) : Info + GoError :=
  if String.eqb path "/proc/sys/net/ipv4/ip_forward"
  then inl {| i_Name := "ip_forward"; i_Size := 0; i_Mode := 420; i_IsDir := false;
              i_Sys := Some {| Process.Uid := 0; Process.Gid := 0 |} |}
  else inr (ErrErrno Process.ENOENT).

Definition simOpenFile (fs : unit) (path : string) (flags : Z) (perm : N) : unit * error :=
  (fs, if String.eqb path "/proc/sys/net/ipv4/ip_forward" then None
       else Some (ErrErrno Process.ENOENT)).

Definition simWrite (fs : unit) (path data : string) (perm : N) : unit * error :=
  (fs, if String.eqb path "/proc/sys/net/ipv4/ip_forward" then None
       else Some (ErrErrno Process.ENOENT)).

Definition simReadDir (fs : unit) (path : string) : list Info + GoError :=
  inr (ErrErrno Process.ENOENT).

Definition simMarshal (m : NSenterMessage) : string + GoError := inl "{}".

Definition simError (e : GoError) : string := "no such file or directory".

Definition readRequest (path : string) : NSenterEvent :=
  {| Resource := path; Pid := 1001; Namespace := ["net"];
     ReqMsg := Some {| Type_ := ReadFileRequest; Payload_ := PStr path |};
     ResMsg := None |}.

End NSenter.

(** ** The process service: reading /proc/[pid]/status *)
Module ProcInfo.
Import Domain.

(** [strings.Split(s, sep)] for a separator of one byte. *)
Fixpoint SplitOn (sep : ascii) (s : string) : list string :=
  match s with
  | EmptyString => [EmptyString]
  | String c s' =>
      if Ascii.eqb c sep then EmptyString :: SplitOn sep s'
      else match SplitOn sep s' with
           | [] => [String c EmptyString]
           | seg :: segs => String c seg :: segs
           end
  end.

(** The class \s of Go's regular expressions: tab, line feed, form
    feed, carriage return and space. *)
Definition reSpace (c : ascii) : bool :=
  let n := N_of_ascii c in
  (N.eqb n 9 || N.eqb n 10 || N.eqb n 12 || N.eqb n 13 || N.eqb n 32)%bool.

(** [regexp.MustCompile(`\s+`).ReplaceAllString(s, " ")]: every run of
    white space becomes one space.  [inRun] tells that the byte before
    was white space. *)
Fixpoint replaceRuns (inRun : bool) (s : string) : string :=
  match s with
  | EmptyString => EmptyString
  | String c s' =>
      if reSpace c
      then if inRun then replaceRuns true s' else String " " (replaceRuns true s')
      else String c (replaceRuns false s')
  end.

Definition ReplaceAllSpace (s : string) : string := replaceRuns false s.

(** [process], before [getInfo] has run: the capabilities are loaded on
    demand, the status fields are those of the last [getStatus]. *)
Record process := {
  pid : N;
  root : string;
  cwd : string;
  uid : N;
  gid : N;
  sgid : list Z;
  cap : option (Process.CapType -> Process.Cap -> bool);
  status : gmap string string
}.

Definition ProcessCreate (pid uid gid : N) : process :=
  {| pid := pid; root := ""; cwd := ""; uid := uid; gid := gid; sgid := [];
     cap := None; status := ∅ |}.

(** [uint32(v)] for an [int] [v]. *)
Definition uint32 (v : Z) : N := Z.to_N (v mod 2 ^ 32).

Section Host.

(** The host's /proc: [readStatus path] is the error of [os.Open], or
    the lines the scanner yields with the error it ends with;
    [loadCap pid] is [cap.NewPid2] followed by [Load]. *)
Variable readStatus : string -> (list string * error) + GoError.
Variable loadCap : N -> (Process.CapType -> Process.Cap -> bool) + GoError.

(** The body of the loop of [getStatus] over the lines. *)
Definition scanLine (fields : list string) (status : gmap string string) (text : string)
  : gmap string string :=
  match SplitOn ":" text with
  | [] => status
  | key :: rest =>
      fold_left
        (fun status f =>
           if String.eqb key f
           then <[f := match rest with v :: _ => v | [] => "" end]> status
           else status)
        fields status
  end.

Definition setStatus (p : process) (st : gmap string string) : process :=
  {| pid := pid p; root := root p; cwd := cwd p; uid := uid p; gid := gid p;
     sgid := sgid p; cap := cap p; status := st |}.

Definition getStatus (p : process) (fields : list string) : process * error :=
  let filename := "/proc/" +:+ Go.FormatUint (pid p) +:+ "/status" in
  match readStatus filename with
  | inr err => (p, Some err)
  | inl (lines, scanErr) =>
      let status := fold_left (scanLine fields) lines ∅ in
      match scanErr with
      | Some err => (p, Some err)
      | None => (setStatus p status, None)
      end
  end.

(** [p.status[key]]: a missing key reads as the empty string. *)
Definition statusOf (p : process) (key : string) : string :=
  default "" (status p !! key).

(** The fields of a status value: white space collapsed, trimmed, split
    at the spaces. *)
Definition fieldsOf (value : string) : list string :=
  SplitOn " " (Go.TrimSpace (ReplaceAllSpace value)).

(** The loop of [getInfo] over the supplementary groups. *)
Fixpoint parseGroups (groups : list string) (sgid : list Z) : list Z * error :=
  match groups with
  | [] => (sgid, None)
  | g :: rest =>
      if String.eqb g "" then parseGroups rest sgid
      else match Go.Atoi g with
           | None => (sgid, Some (ErrNum g))
           | Some val => parseGroups rest (sgid ++ [val])
           end
  end.

Definition getInfo (p : process) : process * error :=
  match getStatus p ["Uid"; "Gid"; "Groups"] with
  | (p, Some err) => (p, Some err)
  | (p, None) =>
      let uids := fieldsOf (statusOf p "Uid") in
      if negb (length uids =? 4)%nat then (p, Some (ErrOther "invalid uid status"))
      else
        match Go.Atoi (nth 1 uids "") with
        | None => (p, Some (ErrNum (nth 1 uids "")))
        | Some euid =>
            let gids := fieldsOf (statusOf p "Gid") in
            if negb (length gids =? 4)%nat then (p, Some (ErrOther "invalid gid status"))
            else
              match Go.Atoi (nth 1 gids "") with
              | None => (p, Some (ErrNum (nth 1 gids "")))
              | Some egid =>
                  match parseGroups (fieldsOf (statusOf p "Groups")) [] with
                  | (_, Some err) => (p, Some err)
                  | (sgid, None) =>
                      let root := Process.procRoot (pid p) in
                      let cwd := Process.procCwd (pid p) in
                      let withCap (c : option (Process.CapType -> Process.Cap -> bool)) :=
                        {| pid := pid p; root := root; cwd := cwd;
                           uid := uint32 euid; gid := uint32 egid; sgid := sgid;
                           cap := c; status := status p |} in
                      match cap p with
                      | Some c => (withCap (Some c), None)
                      | None =>
                          match loadCap (pid p) with
                          | inr err => (p, Some err)
                          | inl c => (withCap (Some c), None)
                          end
                      end
                  end
              end
        end
  end.

(** The process as [pathAccess] and [checkPerm] read it. *)
Definition view (p : process) : Process.process :=
  {| Process.pid := pid p; Process.root := root p; Process.cwd := cwd p;
     Process.uid := uid p; Process.gid := gid p; Process.sgid := sgid p;
     Process.cap := match cap p with
                    | Some c => c
                    | None => fun _ _ => false
                    end |}.

(** [PathAccess]: the process as [getInfo] leaves it, and the error of
    [getInfo] or the result of [pathAccess]. *)
Definition PathAccess (fs : Process.FileSys) (p : process) (path : string)
    (aMode : Process.AccessMode)
  : process * (GoError + option (list Process.FsOp * option Process.Errno)) :=
  match getInfo p with
  | (p, Some err) => (p, inl err)
  | (p, None) => (p, inr (Process.pathAccess fs (view p) path aMode))
  end.

End Host.

(** [parts[0]] of a line of the status file. *)
Definition keyOf (text : string) : string := hd "" (SplitOn ":" text).

Fixpoint hasColon (s : string) : bool :=
  match s with
  | EmptyString => false
  | String c s' => (Ascii.eqb c ":" || hasColon s')%bool
  end.

Definition tab : string := String (ascii_of_nat 9) EmptyString.

(** A status line as the kernel prints it: the key, a colon, and the
    values, each after a tab. *)
Definition tabbed (values : list string) : string :=
  String.concat "" (map (fun v => tab +:+ v) values).

(** The Groups line: a tab, then the groups, each followed by a
    space. *)
Definition spaced (values : list string) : string :=
  tab +:+ String.concat "" (map (fun v => v +:+ " ") values).

(** A decimal number: digits, and at least one. *)
Definition isNumber (s : string) : bool :=
  (PathShape.allDigits s && negb (String.eqb s ""))%bool.

(** Examples: the status file of process 42. *)
Definition status42 : list string :=
  ["Name:" +:+ tab +:+ "bash";
   "Uid:" +:+ tabbed ["1000"; "1001"; "1000"; "1000"];
   "Gid:" +:+ tabbed ["100"; "100"; "100"; "100"];
   "FDSize:" +:+ tab +:+ "256";
   "Groups:" +:+ spaced ["4"; "24"; "100"]].

Definition simReadStatus (path : string) : (list string * error) + GoError :=
  if String.eqb path "/proc/42/status" then inl (status42, None)
  else inr (ErrErrno Process.ENOENT).

Definition simLoadCap (pid : N) : (Process.CapType -> Process.Cap -> bool) + GoError :=
  inl (fun _ _ => false).

End ProcInfo.

(** ** The process service: the inodes of the namespaces *)
Module NsInodes.
Import Domain.

Definition Inode := N.

(** [process], as far as [NsInodes] and [UserNsInode] go: [nsInodes] is
    [None] while the map is nil. *)
Record process := {
  pid : N;
  nsInodes : option (gmap string Inode)
}.

(** [strconv.ParseUint(s, 10, 64)]: decimal digits, at least one, and a
    value below 2^64. *)
Definition ParseUint (s : string) : option N :=
  match s with
  | EmptyString => None
  | _ =>
      match Go.parseDigits s 0 with
      | Some v => if (v <? 2 ^ 64)%Z then Some (Z.to_N v) else None
      | None => None
      end
  end.

Section Host.

(** [domain.AllNSs], which is not under src/, is a parameter; so are
    the file system and the kind of [AppFs], an in-memory one in unit
    tests.  [os_Stat] gives the inode of a [*syscall.Stat_t], or [None]
    when [Sys()] holds something else. *)
Variable AllNSs : list string.
Variable memMapFs : bool.
Variable afero_ReadFile : string -> string + GoError.
Variable os_Stat : string -> option Inode + GoError.

Definition nsPath (pid : N) (ns : string) : string :=
  Go.Join ["/proc"; Go.FormatUint pid; "ns"; ns].

(** The loop of [getNsInodes] over the namespaces. *)
Fixpoint collect (pid : N) (nss : list string) (nsInodes : gmap string Inode)
  : Outcome (gmap string Inode + GoError) :=
  match nss with
  | [] => Ret (inl nsInodes)
  | ns :: rest =>
      if memMapFs then
        match afero_ReadFile (nsPath pid ns) with
        | inr err => Ret (inr err)
        | inl content =>
            match ParseUint content with
            | None => Ret (inr (ErrNum content))
            | Some nsInode => collect pid rest (<[ns := nsInode]> nsInodes)
            end
        end
      else
        match os_Stat (nsPath pid ns) with
        | inr err => Ret (inr err)
        | inl None => Panic
        | inl (Some ino) => collect pid rest (<[ns := ino]> nsInodes)
        end
  end.

Definition getNsInodes (pid : N) : Outcome (gmap string Inode + GoError) :=
  collect pid AllNSs ∅.

Definition NsInodes (p : process) : process * Outcome (gmap string Inode + GoError) :=
  match nsInodes p with
  | Some m => (p, Ret (inl m))
  | None =>
      match getNsInodes (pid p) with
      | Panic => (p, Panic)
      | Ret (inr err) => (p, Ret (inr err))
      | Ret (inl m) => ({| pid := pid p; nsInodes := Some m |}, Ret (inl m))
      end
  end.

Definition UserNsInode (p : process) : process * Outcome Inode :=
  match NsInodes p with
  | (p, Panic) => (p, Panic)
  | (p, Ret (inr _)) => (p, Ret 0%N)
  | (p, Ret (inl nsInodes)) =>
      match nsInodes !! "user" with
      | None => (p, Ret 0%N)
      | Some userns => (p, Ret userns)
      end
  end.

End Host.

(** Examples: the namespaces of Linux, and a /proc in which process
    1001 lacks the cgroup namespace file. *)
Definition linuxNSs : list string := ["user"; "pid"; "net"; "mnt"; "ipc"; "cgroup"; "uts"].

Definition simStat (path : string) : option Inode + GoError :=
  if String.eqb path "/proc/1001/ns/cgroup" then inr (ErrErrno Process.ENOENT)
  else if String.eqb path "/proc/1001/ns/user" then inl (Some 4026532001%N)
  else inl (Some 4026531999%N).

Definition simReadFile (path : string) : string + GoError := inr (ErrErrno Process.ENOENT).

End NsInodes.

(** * Properties *)

(** ** The Go library functions on examples *)

Example Split_ex : Go.Split "/a//b/" = [""; "a"; ""; "b"; ""].
Proof. reflexivity. Qed.

Example Clean_ex :
  Go.Clean "/proc/42/root/../../../../etc/passwd" = "/etc/passwd"
  /\ Go.Clean "a/../.." = ".." /\ Go.Clean "a//b/./c/.." = "a/b"
  /\ Go.Clean "/.." = "/" /\ Go.Clean "" = ".".
Proof. repeat split; reflexivity. Qed.

Example Join_Dir_ex :
  Go.Join ["/proc/42/root"; "/etc"] = "/proc/42/root/etc"
  /\ Go.Join [""; "a"; ""; "b"] = "a/b"
  /\ Go.Dir "/proc/42/root" = "/proc/42" /\ Go.Dir "abc" = "." /\ Go.Dir "/a" = "/".
Proof. repeat split; reflexivity. Qed.

Example TrimSpace_Atoi_ex :
  Go.TrimSpace "  1024 " = "1024" /\ Go.Atoi "1024" = Some 1024%Z
  /\ Go.Atoi "-7" = Some (-7)%Z /\ Go.Atoi "" = None /\ Go.Atoi "12a" = None
  /\ Go.Atoi "9223372036854775808" = None /\ Go.Itoa 2048 = "2048".
Proof. repeat split; reflexivity. Qed.

(** ** Permission checks *)
Module CheckPermFacts.
Import Process.

Lemma land_subset_bit (m x : N) (i : N) :
  N.land m x = m -> N.testbit m i = true -> N.testbit x i = true.
Proof.
  intros Hsub Hm. rewrite <- Hsub in Hm.
  rewrite N.land_spec in Hm. apply andb_true_iff in Hm. tauto.
Qed.

Lemma wants_exec_bit (aMode : N) :
  N.land aMode X_OK = X_OK -> N.testbit aMode 0 = true.
Proof.
  intros H. assert (Hb : N.testbit (N.land aMode X_OK) 0 = true) by (rewrite H; reflexivity).
  rewrite N.land_spec in Hb. apply andb_true_iff in Hb. tauto.
Qed.

Lemma exec_bit_nonzero (fperm : N) (i : N) :
  N.testbit fperm i = true -> N.testbit 73 i = true -> N.land fperm 73 <> 0%N.
Proof.
  intros Hf H73 Hz.
  assert (Hb : N.testbit (N.land fperm 73) i = true)
    by (rewrite N.land_spec, Hf, H73; reflexivity).
  rewrite Hz in Hb. rewrite N.bits_0 in Hb. discriminate.
Qed.

(** A class that grants a mode with the execute bit has an execute bit. *)
Lemma class_exec_nonzero (p : process) (fi : FileInfo) (st : Stat_t) (aMode : N) :
  classGrants p fi st aMode = true ->
  N.land aMode X_OK = X_OK ->
  N.land (Perm (Mode fi)) 73 <> 0%N.
Proof.
  intros Hc Hx. apply wants_exec_bit in Hx.
  unfold classGrants in Hc.
  repeat (apply orb_true_iff in Hc; destruct Hc as [Hc | Hc]).
  - apply andb_true_iff in Hc. destruct Hc as [_ Hc]. apply N.eqb_eq in Hc.
    pose proof (land_subset_bit _ _ 0%N Hc Hx) as Hb.
    rewrite N.shiftr_spec', N.land_spec in Hb. apply andb_true_iff in Hb.
    apply (exec_bit_nonzero _ 6%N); [tauto | reflexivity].
  - apply andb_true_iff in Hc. destruct Hc as [_ Hc]. apply N.eqb_eq in Hc.
    pose proof (land_subset_bit _ _ 0%N Hc Hx) as Hb.
    rewrite N.shiftr_spec', N.land_spec in Hb. apply andb_true_iff in Hb.
    apply (exec_bit_nonzero _ 3%N); [tauto | reflexivity].
  - apply N.eqb_eq in Hc.
    pose proof (land_subset_bit _ _ 0%N Hc Hx) as Hb.
    rewrite N.land_spec in Hb. apply andb_true_iff in Hb.
    apply (exec_bit_nonzero _ 0%N); [tauto | reflexivity].
Qed.

(** [checkPerm] on a file that [os.Stat] finds: the classes first, then
    the two capabilities. *)
Lemma checkPerm_unfold (fs : FileSys) (p : process) (path : string) (aMode : N)
    (fi : FileInfo) (st : Stat_t) :
  os_Stat fs path = Some fi -> Sys fi = Some st ->
  checkPerm fs p path aMode =
    (classGrants p fi st aMode
     || (IsCapabilitySet p EFFECTIVE CAP_DAC_OVERRIDE
         && (IsDir fi || negb (N.eqb (N.land aMode X_OK) X_OK)
             || negb (N.eqb (N.land (Perm (Mode fi)) 73) 0)))
     || (IsCapabilitySet p EFFECTIVE CAP_DAC_READ_SEARCH
         && ((IsDir fi && negb (N.eqb (N.land aMode W_OK) W_OK))
             || (negb (IsDir fi) && N.eqb aMode R_OK))), None)%bool.
Proof.
  intros Hstat Hsys. unfold checkPerm, classGrants. rewrite Hstat, Hsys.
  repeat match goal with
         | |- context [if ?b then _ else _] => destruct b eqn:?; simpl
         end; reflexivity.
Qed.

(** C6.  For a file that [os.Stat] finds: a process holding
    CAP_DAC_OVERRIDE is granted any access to a directory, any access
    without the execute bit to a file that is not a directory, and access
    with the execute bit to such a file exactly when one of the file's
    execute bits is set; a process holding CAP_DAC_READ_SEARCH is granted
    access to a directory whenever the mode does not include write, and
    to a file that is not a directory when the mode is exactly R_OK; and
    when neither a permission class nor CAP_DAC_OVERRIDE grants it,
    CAP_DAC_READ_SEARCH grants access to such a file only when the mode
    is exactly R_OK. *)
Theorem checkPerm_capabilities (fs : FileSys) (p : process) (path : string)
    (aMode : AccessMode) (fi : FileInfo) (st : Stat_t) :
  os_Stat fs path = Some fi ->
  Sys fi = Some st ->
  (IsCapabilitySet p EFFECTIVE CAP_DAC_OVERRIDE = true ->
     (IsDir fi = true -> checkPerm fs p path aMode = (true, None))
     /\ (IsDir fi = false -> N.land aMode X_OK <> X_OK ->
         checkPerm fs p path aMode = (true, None))
     /\ (IsDir fi = false -> N.land aMode X_OK = X_OK ->
         (checkPerm fs p path aMode = (true, None)
          <-> N.land (Perm (Mode fi)) 73 <> 0%N)))
  /\ (IsCapabilitySet p EFFECTIVE CAP_DAC_READ_SEARCH = true ->
     (IsDir fi = true -> N.land aMode W_OK <> W_OK ->
      checkPerm fs p path aMode = (true, None))
     /\ (IsDir fi = false -> aMode = R_OK ->
         checkPerm fs p path aMode = (true, None))
     /\ (IsDir fi = false ->
         IsCapabilitySet p EFFECTIVE CAP_DAC_OVERRIDE = false ->
         classGrants p fi st aMode = false ->
         (checkPerm fs p path aMode = (true, None) <-> aMode = R_OK))).
Proof.
  intros Hstat Hsys. rewrite (checkPerm_unfold fs p path aMode fi st Hstat Hsys).
  split; intros Hcap; rewrite Hcap; (split; [| split]).
  - intros ->. simpl. rewrite orb_true_r. reflexivity.
  - intros -> Hx. apply N.eqb_neq in Hx. rewrite Hx. simpl.
    rewrite orb_true_r. reflexivity.
  - intros Hd Hx.
    assert (Hr : N.eqb aMode R_OK = false).
    { apply N.eqb_neq. intros ->. discriminate Hx. }
    rewrite Hd, Hr, (proj2 (N.eqb_eq _ _) Hx). simpl.
    rewrite !andb_false_r, orb_false_r.
    destruct (N.eqb (N.land (Perm (Mode fi)) 73) 0) eqn:Hz; simpl.
    + apply N.eqb_eq in Hz. rewrite orb_false_r. split.
      * intros Hg. injection Hg as Hc.
        exact (class_exec_nonzero p fi st aMode Hc Hx).
      * intros Hnz. contradiction.
    + apply N.eqb_neq in Hz. rewrite orb_true_r. split; [intros _; exact Hz | reflexivity].
  - intros -> Hw. apply N.eqb_neq in Hw. rewrite Hw. simpl.
    rewrite orb_true_r. reflexivity.
  - intros -> ->. simpl. rewrite orb_true_r. reflexivity.
  - intros Hd Hov Hc. rewrite Hd, Hov, Hc. simpl.
    destruct (N.eqb aMode R_OK) eqn:He.
    + apply N.eqb_eq in He. split; [intros _; exact He | reflexivity].
    + apply N.eqb_neq in He. split; [intros Hg; discriminate Hg | contradiction].
Qed.

(** C6, on an example: a process holding both capabilities, a
    root-owned file without permission bits, write access. *)
Lemma checkPerm_capabilities_witness :
  checkPerm Scenario.fsCaps
    (Scenario.withCaps [CAP_DAC_OVERRIDE; CAP_DAC_READ_SEARCH])
    "/proc/42/root/f" W_OK = (true, None).
Proof.
  refine (proj1 (proj2 (proj1
    (checkPerm_capabilities Scenario.fsCaps
       (Scenario.withCaps [CAP_DAC_OVERRIDE; CAP_DAC_READ_SEARCH])
       "/proc/42/root/f" W_OK (Scenario.fileInfo 0 0 0) {| Uid := 0; Gid := 0 |}
       eq_refl eq_refl) eq_refl)) eq_refl _).
  vm_compute. discriminate.
Defined.

(** C9.  The classes are checked one after the other without
    exclusivity: when the "other" bits of the file contain the requested
    mode, access is granted, whoever owns the file and whatever the owner
    and group bits say. *)
Theorem checkPerm_other_class_grants (fs : FileSys) (p : process) (path : string)
    (aMode : AccessMode) (fi : FileInfo) (st : Stat_t) :
  os_Stat fs path = Some fi ->
  Sys fi = Some st ->
  N.land aMode (N.land (Perm (Mode fi)) 7) = aMode ->
  checkPerm fs p path aMode = (true, None).
Proof.
  intros Hstat Hsys Hother.
  rewrite (checkPerm_unfold fs p path aMode fi st Hstat Hsys).
  unfold classGrants. rewrite (proj2 (N.eqb_eq _ _) Hother).
  rewrite !orb_true_r. reflexivity.
Qed.

(** C9, on an example: the process owns a file of mode 0007, the owner
    bits deny reading, and reading is granted all the same. *)
Lemma checkPerm_other_class_grants_witness :
  Uid {| Uid := 1000; Gid := 1000 |} = uid Scenario.p42
  /\ N.land R_OK (N.shiftr (N.land (Perm (Mode (Scenario.fileInfo 7 1000 1000))) 448) 6) <> R_OK
  /\ checkPerm Scenario.fsOwnerDenied Scenario.p42 "/proc/42/root/f" R_OK = (true, None).
Proof.
  split; [reflexivity | split; [vm_compute; discriminate |]].
  apply (checkPerm_other_class_grants Scenario.fsOwnerDenied Scenario.p42
           "/proc/42/root/f" R_OK (Scenario.fileInfo 7 1000 1000)
           {| Uid := 1000; Gid := 1000 |}); reflexivity.
Defined.

End CheckPermFacts.

(** ** Path resolution: termination and the errors returned *)
Module PathFacts.
Import Process.

(** One iteration of the symlink loop. *)
Lemma followLinks_S (fs : FileSys) (p : process) (fuel : nat)
    (cur : string) (isDir : bool) (linkCnt : nat) :
  followLinks (S fuel) fs p cur isDir linkCnt =
    if (SymlinkMax <=? linkCnt)%nat then Some ([], LoopErr ELOOP)
    else
      match os_Readlink fs cur with
      | None => Some ([OpReadlink cur], LoopErr ENOENT)
      | Some link =>
          let cur' :=
            if Go.IsAbs link then Go.Join [root p; link]
            else Go.Join [Go.Dir cur; link] in
          if String.eqb cur' (root p)
          then Some ([OpReadlink cur], LoopBreak cur' isDir linkCnt)
          else
            match isSymlink fs cur' with
            | None => Some ([OpReadlink cur; OpLstat cur'], LoopErr ENOENT)
            | Some (symlink, isDir') =>
                if negb symlink
                then Some ([OpReadlink cur; OpLstat cur'], LoopBreak cur' isDir' linkCnt)
                else
                  match followLinks fuel fs p cur' isDir' (linkCnt + 1) with
                  | None => None
                  | Some (tr, out) =>
                      Some (OpReadlink cur :: OpLstat cur' :: tr, out)
                  end
            end
      end.
Proof. reflexivity. Qed.

(** With more fuel than [SymlinkMax - linkCnt] the symlink loop of the
    model ends by itself: it returns, or breaks. *)
Lemma followLinks_total (fs : FileSys) (p : process) (fuel : nat) :
  forall (cur : string) (isDir : bool) (linkCnt : nat),
    (SymlinkMax - linkCnt < fuel)%nat ->
    exists tr out, followLinks fuel fs p cur isDir linkCnt = Some (tr, out).
Proof.
  induction fuel as [| fuel IH]; intros cur isDir linkCnt Hfuel; [lia |].
  rewrite followLinks_S. destruct (SymlinkMax <=? linkCnt)%nat eqn:Hmax; [eauto |].
  apply Nat.leb_gt in Hmax.
  destruct (os_Readlink fs cur) as [link |]; [| eauto].
  cbv zeta.
  match goal with |- context [String.eqb ?a ?b] => destruct (String.eqb a b) end; [eauto |].
  match goal with |- context [isSymlink fs ?c] => destruct (isSymlink fs c) as [[symlink isDir'] |] end;
    [| eauto].
  destruct symlink; cbn [negb]; [| eauto].
  match goal with
  | |- context [followLinks fuel fs p ?c ?d ?k] =>
      destruct (IH c d k) as (tr & out & ->); [lia | eauto]
  end.
Qed.

(** The symlink loop only fails with [ELOOP] or [ENOENT]. *)
Lemma followLinks_errno (fs : FileSys) (p : process) (fuel : nat) :
  forall (cur : string) (isDir : bool) (linkCnt : nat) tr e,
    followLinks fuel fs p cur isDir linkCnt = Some (tr, LoopErr e) ->
    e = ELOOP \/ e = ENOENT.
Proof.
  induction fuel as [| fuel IH]; intros cur isDir linkCnt tr e; [discriminate |].
  rewrite followLinks_S.
  destruct (SymlinkMax <=? linkCnt)%nat; [intros [= <- <-]; auto |].
  destruct (os_Readlink fs cur) as [link |]; [| intros [= <- <-]; auto].
  cbv zeta.
  match goal with |- context [String.eqb ?a ?b] => destruct (String.eqb a b) end;
    [discriminate |].
  match goal with |- context [isSymlink fs ?c] => destruct (isSymlink fs c) as [[symlink isDir'] |] end;
    [| intros [= <- <-]; auto].
  destruct symlink; cbn [negb]; [| discriminate].
  match goal with
  | |- context [followLinks fuel fs p ?c ?d ?k] =>
      destruct (followLinks fuel fs p c d k) as [[tr' out] |] eqn:Hrec; [| discriminate]
  end.
  intros [= <- ->]. eapply IH; eassumption.
Qed.

Lemma followLinks_enough (fs : FileSys) (p : process)
    (cur : string) (isDir : bool) (linkCnt : nat) :
  exists tr out, followLinks (S SymlinkMax) fs p cur isDir linkCnt = Some (tr, out).
Proof. apply followLinks_total. lia. Qed.

Lemma checkAndContinue_total (fs : FileSys) (p : process) (final : bool)
    (mode : AccessMode) (tr : list FsOp) (cur : string) (linkCnt : nat)
    (next : string -> nat -> option (list FsOp * option Errno)) :
  (forall cur linkCnt, exists tr r, next cur linkCnt = Some (tr, r)) ->
  exists tr' r, checkAndContinue fs p final mode tr cur linkCnt next = Some (tr', r).
Proof.
  intros Hnext. unfold checkAndContinue.
  destruct (permitted fs p final mode cur); [| eauto].
  destruct (Hnext cur linkCnt) as (tr' & r & ->). eauto.
Qed.

Lemma iteration_total (fs : FileSys) (p : process) (mode : AccessMode)
    (final : bool) (c cur : string) (linkCnt : nat)
    (next : string -> nat -> option (list FsOp * option Errno)) :
  (forall cur linkCnt, exists tr r, next cur linkCnt = Some (tr, r)) ->
  exists tr r, iteration fs p mode final c cur linkCnt next = Some (tr, r).
Proof.
  intros Hnext. unfold iteration.
  destruct (String.eqb c ""); [apply Hnext |]. cbv zeta.
  destruct (isSymlink fs (nextPath p cur c)) as [[symlink isDir] |]; [| eauto].
  destruct (negb final && negb symlink && negb isDir)%bool; [eauto |].
  destruct (symlink && negb (String.eqb (nextPath p cur c) (root p)))%bool;
    [| apply checkAndContinue_total; exact Hnext].
  destruct (followLinks_enough fs p (nextPath p cur c) isDir linkCnt) as (tr & out & ->).
  destruct out as [e | cur' isDir' linkCnt']; [eauto |].
  destruct (negb final && negb isDir')%bool; [eauto |].
  apply checkAndContinue_total; exact Hnext.
Qed.

(** The loop over the components returns for every list of components:
    the model never runs out of fuel. *)
Lemma walk_total (fs : FileSys) (p : process) (mode : AccessMode)
    (components : list string) :
  forall (cur : string) (linkCnt : nat),
    exists tr r, walk fs p mode components cur linkCnt = Some (tr, r).
Proof.
  induction components as [| c rest IH]; intros cur linkCnt; [simpl; eauto |].
  cbn [walk]. apply iteration_total. exact IH.
Qed.

Lemma pathAccess_total (fs : FileSys) (p : process) (path : string) (mode : AccessMode) :
  exists tr r, pathAccess fs p path mode = Some (tr, r).
Proof.
  unfold pathAccess. destruct (String.eqb path ""); [eauto |].
  destruct (PathMax <? String.length path + 1)%nat; [eauto |].
  apply walk_total.
Qed.

Lemma checkAndContinue_errno (fs : FileSys) (p : process) (final : bool)
    (mode : AccessMode) (tr : list FsOp) (cur : string) (linkCnt : nat)
    (next : string -> nat -> option (list FsOp * option Errno)) :
  (forall cur linkCnt tr e, next cur linkCnt = Some (tr, Some e) -> walkErrno e) ->
  forall tr' e,
    checkAndContinue fs p final mode tr cur linkCnt next = Some (tr', Some e) ->
    walkErrno e.
Proof.
  intros Hnext tr' e. unfold checkAndContinue, walkErrno.
  destruct (permitted fs p final mode cur); [| intros [= <- <-]; tauto].
  destruct (next cur linkCnt) as [[tr0 r] |] eqn:Hn; [| discriminate].
  intros [= <- ->]. eapply Hnext. exact Hn.
Qed.

Lemma iteration_errno (fs : FileSys) (p : process) (mode : AccessMode)
    (final : bool) (c cur : string) (linkCnt : nat)
    (next : string -> nat -> option (list FsOp * option Errno)) :
  (forall cur linkCnt tr e, next cur linkCnt = Some (tr, Some e) -> walkErrno e) ->
  forall tr e,
    iteration fs p mode final c cur linkCnt next = Some (tr, Some e) -> walkErrno e.
Proof.
  intros Hnext tr e. unfold iteration.
  destruct (String.eqb c ""); [apply Hnext |]. cbv zeta.
  destruct (isSymlink fs (nextPath p cur c)) as [[symlink isDir] |];
    [| intros [= <- <-]; unfold walkErrno; tauto].
  destruct (negb final && negb symlink && negb isDir)%bool;
    [intros [= <- <-]; unfold walkErrno; tauto |].
  destruct (symlink && negb (String.eqb (nextPath p cur c) (root p)))%bool;
    [| apply checkAndContinue_errno; exact Hnext].
  destruct (followLinks (S SymlinkMax) fs p (nextPath p cur c) isDir linkCnt)
    as [[tr0 [e0 | cur' isDir' linkCnt']] |] eqn:Hf; [| | discriminate].
  - intros [= <- <-]. apply followLinks_errno in Hf. unfold walkErrno. tauto.
  - destruct (negb final && negb isDir')%bool;
      [intros [= <- <-]; unfold walkErrno; tauto |].
    apply checkAndContinue_errno; exact Hnext.
Qed.

Lemma walk_errno (fs : FileSys) (p : process) (mode : AccessMode)
    (components : list string) :
  forall (cur : string) (linkCnt : nat) tr e,
    walk fs p mode components cur linkCnt = Some (tr, Some e) -> walkErrno e.
Proof.
  induction components as [| c rest IH]; intros cur linkCnt tr e; [discriminate |].
  cbn [walk]. apply iteration_errno. exact IH.
Qed.

(** C8, as stated, fails on a path of exactly [PathMax] bytes: its
    length does not exceed [PathMax], and it is rejected as too long. *)
Lemma pathAccess_PathMax_bytes_rejected :
  ~ (PathMax < String.length (Scenario.letters 4096))%nat
  /\ pathAccess Scenario.fs42 Scenario.p42 (Scenario.letters 4096) R_OK
     = Some ([], Some ENAMETOOLONG).
Proof.
  split.
  - vm_compute. lia.
  - vm_compute. reflexivity.
Qed.

(** C8, amended.  [pathAccess] returns [ENOENT] for the empty path; for a
    non-empty path it returns [ENAMETOOLONG] exactly when the length of
    the path plus one exceeds [PathMax] (4096), that is from 4096 bytes
    on; both rejections are made without any call on the file system;
    every other path goes to the loop over its components, which never
    returns [ENAMETOOLONG]. *)
Theorem pathAccess_rejections (fs : FileSys) (p : process) (path : string)
    (mode : AccessMode) :
  pathAccess fs p "" mode = Some ([], Some ENOENT)
  /\ (path <> "" ->
      ((PathMax < String.length path + 1)%nat
       <-> exists tr, pathAccess fs p path mode = Some (tr, Some ENAMETOOLONG))
      /\ ((PathMax < String.length path + 1)%nat ->
          pathAccess fs p path mode = Some ([], Some ENAMETOOLONG))
      /\ (~ (PathMax < String.length path + 1)%nat ->
          pathAccess fs p path mode
          = walk fs p mode (Go.Split path)
              (if Go.IsAbs path then root p else cwd p) 0)).
Proof.
  split; [reflexivity |]. intros Hne.
  apply String.eqb_neq in Hne. unfold pathAccess. rewrite Hne.
  destruct (PathMax <? String.length path + 1)%nat eqn:Hlen.
  - apply Nat.ltb_lt in Hlen. repeat split; eauto. intros Hc. contradiction.
  - apply Nat.ltb_ge in Hlen. repeat split.
    + intros Hc. lia.
    + intros [tr Hw]. apply walk_errno in Hw. unfold walkErrno in Hw.
      destruct Hw as [Hw | [Hw | [Hw | Hw]]]; discriminate Hw.
    + intros Hc. lia.
Qed.

End PathFacts.

(** ** The max-integer handler: the push protocol *)
Module PushFacts.
Import Domain MaxInt.


Section Push.

Variable Host : Type.
Variable ReadLine : Host -> IOnode -> Host * (string * error).
Variable WriteFile : Host -> IOnode -> string -> Host * error.
Variable Intn : Host -> Z -> Host * Z.
Variable IgnoreErrors : bool.

(** [rand.Intn(n)] returns a number of the half-open interval [0, n). *)
Hypothesis Intn_range : forall (w : Host) (k : Z), (0 < k)%Z -> (0 <= snd (Intn w k) < k)%Z.

Local Abbreviation State := (MaxInt.State Host).
Local Abbreviation pushLoop := (MaxInt.pushLoop Host ReadLine WriteFile Intn IgnoreErrors).
Local Abbreviation pushFile := (MaxInt.pushFile Host ReadLine WriteFile Intn IgnoreErrors).
Local Abbreviation emit := (MaxInt.emit Host).
Local Abbreviation setHost := (MaxInt.setHost Host).
Local Abbreviation trace := (MaxInt.trace Host).
Local Abbreviation cntrs := (MaxInt.cntrs Host).
Local Abbreviation host := (MaxInt.host Host).





End Push.

End PushFacts.

(** ** The max-integer handler: writes *)
Module MaxIntFacts.
Import Domain MaxInt.



Section Writes.

Variable Host : Type.
Variable ReadLine : Host -> IOnode -> Host * (string * error).
Variable WriteFile : Host -> IOnode -> string -> Host * error.
Variable Intn : Host -> Z -> Host * Z.
Variable IgnoreErrors : bool.

Local Abbreviation State := (MaxInt.State Host).
Local Abbreviation pushLoop := (MaxInt.pushLoop Host ReadLine WriteFile Intn IgnoreErrors).
Local Abbreviation pushFile := (MaxInt.pushFile Host ReadLine WriteFile Intn IgnoreErrors).
Local Abbreviation Write := (MaxInt.Write Host ReadLine WriteFile Intn IgnoreErrors).
Local Abbreviation setContainer := (MaxInt.setContainer Host).
Local Abbreviation trace := (MaxInt.trace Host).
Local Abbreviation cntrs := (MaxInt.cntrs Host).
Local Abbreviation host := (MaxInt.host Host).

(** The push loop does not touch the containers. *)
Lemma pushLoop_cntrs (n : IOnode) (newMaxInt : Z) (remaining : nat) :
  forall (i : nat) (st : State),
    cntrs (fst (pushLoop remaining i n newMaxInt st)) = cntrs st.
Proof.
  induction remaining as [| remaining IH]; intros i st; [reflexivity |].
  cbn [MaxInt.pushLoop]. unfold readLine.
  destruct (ReadLine (host st) n) as [w [s err]].
  destruct (notEOF err); [reflexivity |].
  destruct (Go.Atoi s) as [cur |]; [| reflexivity].
  destruct (newMaxInt <=? cur)%Z; [reflexivity |].
  destruct (0 <? i)%nat.
  - unfold randomSleep, writeFile.
    destruct (Intn _ retryDelay) as [w1 d]. cbn [MaxInt.host MaxInt.emit MaxInt.setHost].
    destruct (WriteFile w1 n (Go.Itoa newMaxInt)) as [w2 werr].
    destruct werr; [destruct IgnoreErrors |]; cbn [negb]; try rewrite IH; reflexivity.
  - unfold writeFile. cbn [MaxInt.host MaxInt.emit MaxInt.setHost].
    destruct (WriteFile w n (Go.Itoa newMaxInt)) as [w2 werr].
    destruct werr; [destruct IgnoreErrors |]; cbn [negb]; try rewrite IH; reflexivity.
Qed.

Lemma pushFile_cntrs (n : IOnode) (newMaxInt : Z) (st : State) :
  cntrs (fst (pushFile n newMaxInt st)) = cntrs st.
Proof.
  unfold MaxInt.pushFile.
  pose proof (pushLoop_cntrs n newMaxInt retries 0 (MaxInt.emit Host EvLock st)) as H.
  destruct (pushLoop retries 0 n newMaxInt (MaxInt.emit Host EvLock st)) as [st' err].
  exact H.
Qed.


(** C10.  When a value is cached, the new value is strictly greater and
    the push to the host fails, [Write] returns [(0, io.EOF)], whatever the
    error of the push was, and the cached value stays as it was. *)
Theorem Write_push_failure_EOF (h : HandlerBase) (n : IOnode) (req : HandlerRequest)
    (st : State) (cntr : cref) (v : Z) (curMax : string) (c : Z) :
  Container req = Some cntr ->
  Go.Atoi (Go.TrimSpace (ReqData req)) = Some v ->
  Data (cntrs st cntr) (Path n) (Name n) = Some curMax ->
  Go.Atoi curMax = Some c ->
  (c < v)%Z ->
  snd (pushFile n v st) <> None ->
  snd (Write h n req st) = (0%Z, Some EOF)
  /\ cntrs (fst (Write h n req st)) = cntrs st
  /\ Data (cntrs (fst (Write h n req st)) cntr) (Path n) (Name n) = Some curMax.
Proof.
  intros Hcntr Hparse Hdata Hcur Hlt Hfail.
  pose proof (pushFile_cntrs n v st) as Hframe.
  unfold MaxInt.Write. rewrite Hparse, Hcntr, Hdata, Hcur.
  apply Z.leb_gt in Hlt. rewrite Hlt.
  destruct (pushFile n v st) as [st' [e |]]; cbn [fst snd] in *; [| contradiction].
  rewrite Hframe. repeat split. exact Hdata.
Qed.

End Writes.


(** C10, on an example: the container has cached 1024 and writes 2048
    to a host that refuses the write with EACCES. *)
Lemma Write_push_failure_EOF_witness :
  snd (MaxInt.Write _ Scenario.simReadLine Scenario.simWriteFile Scenario.simIntn false
         Scenario.maxHandler Scenario.maxNode (Scenario.writeReq "2048" (Some 0%nat))
         (Scenario.maxState Scenario.readOnlyHost Scenario.cached1024))
  = (0%Z, Some EOF)
  /\ snd (MaxInt.pushFile _ Scenario.simReadLine Scenario.simWriteFile Scenario.simIntn false
            Scenario.maxNode 2048
            (Scenario.maxState Scenario.readOnlyHost Scenario.cached1024))
     = Some (ErrErrno Process.EACCES).
Proof.
  split; [| reflexivity].
  apply (Write_push_failure_EOF Scenario.SimHost Scenario.simReadLine
           Scenario.simWriteFile Scenario.simIntn false
           Scenario.maxHandler Scenario.maxNode (Scenario.writeReq "2048" (Some 0%nat))
           (Scenario.maxState Scenario.readOnlyHost Scenario.cached1024)
           0%nat 2048%Z "1024" 1024%Z); try reflexivity.
  vm_compute. discriminate.
Defined.

End MaxIntFacts.

(** ** The common passthrough handler *)
Module CommonFacts.
Import Domain ProcSysCommon.

Section Common.

Variable World : Type.
Variable SendRequestEvent : World -> NSenterEvent -> World * error.
Variable ReceiveResponseEvent : World -> NSenterEvent -> NSenterMessage.
Variable ProcessNsMatch : World -> ProcessDesc -> ProcessDesc -> bool.
Variable copyResultBuffer : string -> string -> string * (Z * error).
Variable emulatedFilesInfo : IOnode -> HandlerRequest -> list DFileInfo * error.

Local Abbreviation State := (ProcSysCommon.State World).
Local Abbreviation Lookup := (ProcSysCommon.Lookup World SendRequestEvent ReceiveResponseEvent).
Local Abbreviation Open := (ProcSysCommon.Open World SendRequestEvent ReceiveResponseEvent).
Local Abbreviation Read :=
  (ProcSysCommon.Read World SendRequestEvent ReceiveResponseEvent ProcessNsMatch
     copyResultBuffer).
Local Abbreviation Write :=
  (ProcSysCommon.Write World SendRequestEvent ReceiveResponseEvent ProcessNsMatch).
Local Abbreviation ReadDirAll :=
  (ProcSysCommon.ReadDirAll World SendRequestEvent ReceiveResponseEvent emulatedFilesInfo).
Local Abbreviation Setattr := (ProcSysCommon.Setattr World SendRequestEvent ReceiveResponseEvent).
Local Abbreviation pushFile := (ProcSysCommon.pushFile World SendRequestEvent ReceiveResponseEvent).
Local Abbreviation world := (ProcSysCommon.world World).
Local Abbreviation sent := (ProcSysCommon.sent World).
Local Abbreviation cntrs := (ProcSysCommon.cntrs World).

(** A read at an offset above zero returns the end of the file, whoever
    asks. *)
Lemma Read_offset_EOF (h : HandlerBase) (n : IOnode) (req : HandlerRequest) (st : State) :
  (0 < Offset req)%Z ->
  Read h n req st = (st, Ret (ReqData req, (0%Z, Some EOF))).
Proof.
  intros Hoff. unfold ProcSysCommon.Read. apply Z.ltb_lt in Hoff. rewrite Hoff. reflexivity.
Qed.

(** [pushFile] leaves the containers alone. *)
Lemma commonPushFile_cntrs (n : IOnode) (process : ProcessDesc) (s : string) (st : State) :
  cntrs (fst (pushFile n process s st)) = cntrs st.
Proof.
  unfold ProcSysCommon.pushFile, sendRequest.
  destruct (SendRequestEvent _ _) as [w [e |]]; [reflexivity |].
  cbn [ProcSysCommon.world].
  destruct (isErrorResponse _); [| reflexivity].
  unfold asError. destruct (Payload_ _); reflexivity.
Qed.

(** [SetData] followed by [Data] at the same path and name. *)
Lemma Data_SetData (c : container) (path name data : string) :
  Data (SetData c path name data) path name = Some data.
Proof.
  unfold Data, SetData. cbn [dataStore]. unfold StateDataMap in *.
  rewrite lookup_insert_eq. apply lookup_insert_eq.
Qed.

Lemma update_same (s : store) (r : cref) (c : container) : update s r c r = c.
Proof. unfold update. rewrite Nat.eqb_refl. reflexivity. Qed.

(** C5, amended.  Through a cacheable common handler: when a process
    that shares the container init's namespaces writes the payload [x] and
    the write succeeds, a following read at offset zero by a process that
    shares those namespaces hands [copyResultBuffer] exactly the trimmed
    payload followed by one newline, taken from the container's cache
    without any request to the container; and every read at an offset above
    zero returns the end of the file and no bytes. *)
Theorem Write_Read_roundtrip (h : HandlerBase) (n : IOnode) (wreq rreq : HandlerRequest)
    (st st1 : State) (cntr : cref) (len : Z) :
  Cacheable h = true ->
  Container wreq = Some cntr ->
  Container rreq = Some cntr ->
  ProcessNsMatch (world st) (ProcessCreate (Pid wreq) (Uid wreq) (Gid wreq))
    (c_InitProc (cntrs st cntr)) = true ->
  Write h n wreq st = (st1, Ret (len, None)) ->
  ProcessNsMatch (world st1) (ProcessCreate (Pid rreq) (Uid rreq) (Gid rreq))
    (c_InitProc (cntrs st1 cntr)) = true ->
  (Offset rreq <= 0)%Z ->
  Data (cntrs st1 cntr) (Path n) (Name n) = Some (Go.TrimSpace (ReqData wreq))
  /\ Read h n rreq st1
     = (st1, Ret (copyResultBuffer (ReqData rreq) (Go.TrimSpace (ReqData wreq) +:+ newline)))
  /\ (forall (req : HandlerRequest) (st' : State),
         (0 < Offset req)%Z ->
         Read h n req st' = (st', Ret (ReqData req, (0%Z, Some EOF)))).
Proof.
  intros Hcache Hw Hr Hwmatch Hwrite Hrmatch Hoff.
  assert (Hdata : Data (cntrs st1 cntr) (Path n) (Name n)
                  = Some (Go.TrimSpace (ReqData wreq))).
  { unfold ProcSysCommon.Write in Hwrite. rewrite Hw, Hcache, Hwmatch in Hwrite.
    cbn [andb] in Hwrite.
    destruct (pushFile n _ _ st) as [st' [[e |] |]]; try discriminate Hwrite.
    injection Hwrite as <- _. cbn [ProcSysCommon.cntrs setContainer].
    rewrite update_same. apply Data_SetData. }
  split; [exact Hdata | split].
  - unfold ProcSysCommon.Read. apply Z.ltb_ge in Hoff. rewrite Hoff, Hr, Hcache, Hrmatch.
    cbn [andb]. rewrite Hdata. reflexivity.
  - intros req st'. apply Read_offset_EOF.
Qed.

(** C7, amended.  With a request that has no container, [Lookup],
    [Open], [Write], [ReadDirAll], [Setattr], and [Read] at an offset that
    is not above zero, fail with "Container not found" and leave the state
    as it was: nothing is sent to the namespace-enter service and no cache
    changes; a [Read] at an offset above zero returns the end of the file
    instead; and the FUSE caller of such a read at offset zero sees
    [EACCES]. *)
Theorem no_container_fails (h : HandlerBase) (n : IOnode) (req : HandlerRequest) (st : State) :
  Container req = None ->
  Lookup h n req st = (st, Ret (None, Some ErrContainerNotFound))
  /\ Open h n req st = (st, Ret (Some ErrContainerNotFound))
  /\ ((Offset req <= 0)%Z ->
      Read h n req st = (st, Ret (ReqData req, (0%Z, Some ErrContainerNotFound))))
  /\ ((0 < Offset req)%Z ->
      Read h n req st = (st, Ret (ReqData req, (0%Z, Some EOF))))
  /\ Write h n req st = (st, Ret (0%Z, Some ErrContainerNotFound))
  /\ ReadDirAll h n req st = (st, Ret ([], Some ErrContainerNotFound))
  /\ Setattr h n req st = (st, Ret (Some ErrContainerNotFound))
  /\ ((Offset req <= 0)%Z ->
      match snd (Read h n req st) with
      | Ret (_, (_, err)) => fuseReadErrno err = Some (inl Process.EACCES)
      | Panic => False
      end).
Proof.
  intros Hnil.
  unfold ProcSysCommon.Lookup, ProcSysCommon.Open, ProcSysCommon.Read, ProcSysCommon.Write,
    ProcSysCommon.ReadDirAll, ProcSysCommon.Setattr.
  rewrite Hnil. repeat split.
  - intros Hoff. apply Z.ltb_ge in Hoff. rewrite Hoff. reflexivity.
  - intros Hoff. apply Z.ltb_lt in Hoff. rewrite Hoff. reflexivity.
  - intros Hoff. apply Z.ltb_ge in Hoff. rewrite Hoff. reflexivity.
Qed.

End Common.

(** C5, as stated, fails through a handler that is not cacheable: the
    writer and the reader share the container's namespaces, the payload
    "1024 65535" and a newline is written to a sysctl that the kernel
    shows with a tab between the numbers, and the read returns the
    kernel's text and a newline, not the trimmed payload. *)
Lemma uncached_read_differs :
  Scenario.simNsMatch "32768 60999" (ProcessCreate 1001 0 0)
    (c_InitProc Scenario.emptyContainer) = true
  /\ snd (ProcSysCommon.Write _ Scenario.sysctlSend Scenario.sysctlReceive Scenario.simNsMatch
            (Scenario.commonHandler false) Scenario.portRange
            (Scenario.request 0 Scenario.ports (Some 0%nat)) (Scenario.commonState "32768 60999"))
     = Ret (11%Z, None)
  /\ snd (ProcSysCommon.Read _ Scenario.sysctlSend Scenario.sysctlReceive Scenario.simNsMatch
            Scenario.simCopyResultBuffer
            (Scenario.commonHandler false) Scenario.portRange
            (Scenario.request 0 (Scenario.buffer 16) (Some 0%nat))
            (fst (ProcSysCommon.Write _ Scenario.sysctlSend Scenario.sysctlReceive
                    Scenario.simNsMatch
                    (Scenario.commonHandler false) Scenario.portRange
                    (Scenario.request 0 Scenario.ports (Some 0%nat)) (Scenario.commonState "32768 60999"))))
     = Ret (Scenario.simCopyResultBuffer (Scenario.buffer 16)
              (Scenario.spacesToTabs "1024 65535" +:+ newline))
  /\ Go.TrimSpace Scenario.ports = "1024 65535"
  /\ Scenario.simCopyResultBuffer (Scenario.buffer 16)
       (Scenario.spacesToTabs "1024 65535" +:+ newline)
     <> Scenario.simCopyResultBuffer (Scenario.buffer 16)
          (Go.TrimSpace Scenario.ports +:+ newline).
Proof.
  repeat split; try reflexivity. vm_compute. discriminate.
Qed.

(** C5, amended, on an example: the same write and read through a
    cacheable handler. *)
Lemma Write_Read_roundtrip_witness :
  snd (ProcSysCommon.Read _ Scenario.sysctlSend Scenario.sysctlReceive Scenario.simNsMatch
         Scenario.simCopyResultBuffer
         (Scenario.commonHandler true) Scenario.portRange
         (Scenario.request 0 (Scenario.buffer 16) (Some 0%nat))
         (fst (ProcSysCommon.Write _ Scenario.sysctlSend Scenario.sysctlReceive
                 Scenario.simNsMatch
                 (Scenario.commonHandler true) Scenario.portRange
                 (Scenario.request 0 Scenario.ports (Some 0%nat)) (Scenario.commonState "32768 60999"))))
  = Ret (Scenario.simCopyResultBuffer (Scenario.buffer 16) ("1024 65535" +:+ newline)).
Proof.
  pose proof (Write_Read_roundtrip Scenario.SysctlWorld Scenario.sysctlSend
                Scenario.sysctlReceive Scenario.simNsMatch Scenario.simCopyResultBuffer
                (Scenario.commonHandler true) Scenario.portRange
                (Scenario.request 0 Scenario.ports (Some 0%nat))
                (Scenario.request 0 (Scenario.buffer 16) (Some 0%nat))
                (Scenario.commonState "32768 60999")
                (fst (ProcSysCommon.Write _ Scenario.sysctlSend Scenario.sysctlReceive
                        Scenario.simNsMatch
                        (Scenario.commonHandler true) Scenario.portRange
                        (Scenario.request 0 Scenario.ports (Some 0%nat))
                        (Scenario.commonState "32768 60999")))
                0%nat 11%Z eq_refl eq_refl eq_refl eq_refl eq_refl eq_refl
                ltac:(cbn; lia)) as (_ & Hread & _).
  rewrite Hread. reflexivity.
Defined.

(** C7, as stated, fails for a read at an offset above zero: without a
    container it returns the end of the file, not "Container not found". *)
Lemma no_container_read_at_offset_is_EOF :
  Container (Scenario.request 1 (Scenario.buffer 16) None) = None
  /\ snd (ProcSysCommon.Read _ Scenario.sysctlSend Scenario.sysctlReceive Scenario.simNsMatch
            Scenario.simCopyResultBuffer
            (Scenario.commonHandler true) Scenario.portRange
            (Scenario.request 1 (Scenario.buffer 16) None) (Scenario.commonState "32768 60999"))
     = Ret (Scenario.buffer 16, (0%Z, Some EOF))
  /\ Some EOF <> Some ErrContainerNotFound.
Proof. repeat split; try reflexivity. discriminate. Qed.

(** C7, amended, on an example: a read at offset zero without a
    container. *)
Lemma no_container_fails_witness :
  ProcSysCommon.Read _ Scenario.sysctlSend Scenario.sysctlReceive Scenario.simNsMatch
    Scenario.simCopyResultBuffer
    (Scenario.commonHandler true) Scenario.portRange
    (Scenario.request 0 (Scenario.buffer 16) None) (Scenario.commonState "32768 60999")
  = (Scenario.commonState "32768 60999", Ret (Scenario.buffer 16, (0%Z, Some ErrContainerNotFound))).
Proof.
  refine (proj1 (proj2 (proj2
    (no_container_fails Scenario.SysctlWorld Scenario.sysctlSend Scenario.sysctlReceive
       Scenario.simNsMatch Scenario.simCopyResultBuffer Scenario.noEmulatedFiles
       (Scenario.commonHandler true) Scenario.portRange
       (Scenario.request 0 (Scenario.buffer 16) None) (Scenario.commonState "32768 60999")
       eq_refl))) _).
  cbn. lia.
Defined.

End CommonFacts.

(** ** Facts about the Go path functions *)
Module GoFacts.
Import Go PathShape.

Lemma Split_nonempty (s : string) : Split s <> [].
Proof.
  destruct s as [| c s]; cbn [Split]; [discriminate |].
  destruct (isSlash c); [discriminate |]. destruct (Split s); discriminate.
Qed.

Lemma Split_app (a b : string) : Split (a +:+ String "/" b) = (Split a ++ Split b)%list.
Proof.
  induction a as [| c a IH]; [reflexivity |].
  change (String c a +:+ String "/" b) with (String c (a +:+ String "/" b)).
  cbn [Split]. rewrite IH. destruct (isSlash c); [reflexivity |].
  destruct (Split a) as [| seg segs] eqn:Ha; [exfalso; exact (Split_nonempty a Ha) |].
  reflexivity.
Qed.

Lemma Split_name (c : string) : hasSlash c = false -> Split c = [c].
Proof.
  induction c as [| x c IH]; [reflexivity |]. cbn [hasSlash Split].
  intros H. apply orb_false_iff in H. destruct H as [Hx Hc].
  rewrite Hx, (IH Hc). reflexivity.
Qed.

Lemma Split_noSlash (s : string) : Forall (fun c => hasSlash c = false) (Split s).
Proof.
  induction s as [| x s IH]; cbn [Split]; [repeat constructor |].
  destruct (isSlash x) eqn:Hx; [constructor; [reflexivity | exact IH] |].
  destruct (Split s) as [| seg segs]; [repeat constructor; cbn; rewrite Hx; reflexivity |].
  inversion IH as [| ? ? Hseg Hsegs]; subst. constructor; [| exact Hsegs].
  cbn. rewrite Hx, Hseg. reflexivity.
Qed.

Lemma isName_noSlash (c : string) : isName c = true -> hasSlash c = false.
Proof.
  unfold isName. intros H. repeat (apply andb_true_iff in H; destruct H as [H ?]).
  apply negb_true_iff. assumption.
Qed.

Lemma concat_cons (c : string) (cs : list string) :
  cs <> [] -> String.concat "/" (c :: cs) = c +:+ String "/" (String.concat "/" cs).
Proof. destruct cs; [congruence | reflexivity]. Qed.

Lemma Split_concat (cs : list string) :
  Forall (fun c => hasSlash c = false) cs -> cs <> [] ->
  Split (String.concat "/" cs) = cs.
Proof.
  induction cs as [| c cs IH]; [congruence |]. intros Hall _.
  inversion Hall as [| ? ? Hc Hcs]; subst.
  destruct cs as [| c' cs']; [cbn; apply Split_name; exact Hc |].
  rewrite concat_cons by discriminate. rewrite Split_app, (Split_name c Hc), IH; [reflexivity | exact Hcs | discriminate].
Qed.

Lemma Split_absPath (cs : list string) :
  Forall (fun c => hasSlash c = false) cs ->
  Split (absPath cs) = "" :: match cs with [] => [""] | _ => cs end.
Proof.
  intros Hall. unfold absPath. change ("/" +:+ ?x) with (String "/" x).
  cbn [Split isSlash]. change (isSlash "/") with true. cbv iota.
  destruct cs as [| c cs]; [reflexivity |]. rewrite Split_concat; [reflexivity | exact Hall | discriminate].
Qed.

Lemma isName_kept (c : string) :
  hasSlash c = false -> kept c = true -> String.eqb c ".." = false -> isName c = true.
Proof.
  unfold kept, isName. intros Hs Hk Hd. apply andb_true_iff in Hk. destruct Hk as [H1 H2].
  rewrite H1, H2, Hd, Hs. reflexivity.
Qed.

Lemma cleanStep_name (rooted : bool) (out : list string) (c : string) :
  isName c = true -> cleanStep rooted out c = c :: out.
Proof.
  unfold isName, cleanStep. intros H.
  repeat (apply andb_true_iff in H; destruct H as [H ?]).
  repeat match goal with H : negb _ = true |- _ => apply negb_true_iff in H end.
  repeat match goal with H : String.eqb _ _ = false |- _ => rewrite H; clear H end.
  reflexivity.
Qed.

Lemma cleanStep_dropped (rooted : bool) (out : list string) (c : string) :
  kept c = false -> cleanStep rooted out c = out.
Proof.
  unfold kept, cleanStep. intros H. apply andb_false_iff in H.
  destruct (String.eqb c ""); [reflexivity |].
  destruct (String.eqb c "."); [reflexivity |]. destruct H; discriminate.
Qed.

(** Without "..", cleaning appends the kept elements. *)
Lemma fold_cleanStep (rooted : bool) (l : list string) :
  forall out,
    Forall (fun c => hasSlash c = false) l ->
    forallb (fun c => negb (String.eqb c "..")) l = true ->
    fold_left (cleanStep rooted) l out = (rev (List.filter kept l) ++ out)%list
    /\ Forall (fun c => isName c = true) (List.filter kept l).
Proof.
  induction l as [| c l IH]; intros out Hs Hd; [split; [reflexivity | constructor] |].
  inversion Hs as [| ? ? Hc Hl]; subst.
  cbn [forallb] in Hd. apply andb_true_iff in Hd. destruct Hd as [Hcd Hld].
  apply negb_true_iff in Hcd.
  cbn [fold_left List.filter]. destruct (kept c) eqn:Hk.
  - rewrite (cleanStep_name rooted out c (isName_kept c Hc Hk Hcd)).
    destruct (IH (c :: out) Hl Hld) as [-> Hn]. split.
    + cbn [rev]. rewrite <- app_assoc. reflexivity.
    + constructor; [exact (isName_kept c Hc Hk Hcd) | exact Hn].
  - rewrite (cleanStep_dropped rooted out c Hk). exact (IH out Hl Hld).
Qed.

Lemma filter_kept_names (cs : list string) :
  Forall (fun c => isName c = true) cs -> List.filter kept cs = cs.
Proof.
  induction 1 as [| c cs Hc Hcs IH]; [reflexivity |]. cbn [List.filter].
  assert (Hk : kept c = true).
  { unfold isName in Hc. unfold kept.
    repeat (apply andb_true_iff in Hc; destruct Hc as [Hc ?]).
    apply andb_true_iff. split; assumption. }
  rewrite Hk, IH. reflexivity.
Qed.

Lemma names_noDotDot (cs : list string) :
  Forall (fun c => isName c = true) cs ->
  forallb (fun c => negb (String.eqb c "..")) cs = true.
Proof.
  induction 1 as [| c cs Hc Hcs IH]; [reflexivity |]. cbn [forallb]. rewrite IH, andb_true_r.
  unfold isName in Hc. repeat (apply andb_true_iff in Hc; destruct Hc as [Hc ?]). assumption.
Qed.

Lemma names_noSlash (cs : list string) :
  Forall (fun c => isName c = true) cs -> Forall (fun c => hasSlash c = false) cs.
Proof.
  induction 1 as [| c cs Hc Hcs IH]; constructor; [exact (isName_noSlash c Hc) | exact IH].
Qed.

Lemma prefix_empty (s : string) : String.prefix "" s = true.
Proof. destruct s; reflexivity. Qed.

Lemma IsAbs_slash (rest : string) : IsAbs (String "/" rest) = true.
Proof. unfold IsAbs, HasPrefix. cbn. apply prefix_empty. Qed.

Lemma Clean_rooted (rest : string) :
  Clean (String "/" rest)
  = absPath (rev (fold_left (cleanStep true) (Split (String "/" rest)) [])).
Proof.
  unfold Clean. rewrite (IsAbs_slash rest). reflexivity.
Qed.

Lemma absPath_slash (cs : list string) (l : string) :
  absPath cs +:+ String "/" l = String "/" (String.concat "/" cs +:+ String "/" l).
Proof. reflexivity. Qed.

(** Cleaning a clean absolute path followed by a slash and a path without
    "..": the kept elements of the latter are appended. *)
Lemma Clean_absPath_app (cs : list string) (l : string) :
  Forall (fun c => isName c = true) cs ->
  noDotDot l = true ->
  Clean (absPath cs +:+ String "/" l) = absPath (cs ++ List.filter kept (Split l))
  /\ Forall (fun c => isName c = true) (List.filter kept (Split l)).
Proof.
  intros Hcs Hl. rewrite absPath_slash, Clean_rooted, <- absPath_slash.
  rewrite Split_app, (Split_absPath cs (names_noSlash cs Hcs)).
  assert (Hpre : fold_left (cleanStep true) ("" :: match cs with [] => [""] | _ => cs end) []
                 = rev cs).
  { cbn [fold_left]. rewrite (cleanStep_dropped true [] "" eq_refl).
    destruct cs as [| c cs']; [reflexivity |].
    destruct (fold_cleanStep true (c :: cs') [] (names_noSlash _ Hcs) (names_noDotDot _ Hcs))
      as [-> _].
    rewrite (filter_kept_names _ Hcs), app_nil_r. reflexivity. }
  rewrite fold_left_app, Hpre.
  destruct (fold_cleanStep true (Split l) (rev cs) (Split_noSlash l) Hl) as [-> Hn].
  split; [| exact Hn].
  rewrite rev_app_distr, !rev_involutive. reflexivity.
Qed.

Lemma append_cons (x : ascii) (a b : string) : String x a +:+ b = String x (a +:+ b).
Proof. reflexivity. Qed.

Lemma append_assoc (a b c : string) : (a +:+ b) +:+ c = a +:+ (b +:+ c).
Proof.
  induction a as [| x a IH]; [reflexivity |]. rewrite !append_cons, IH. reflexivity.
Qed.

Lemma append_nil_r (a : string) : a +:+ "" = a.
Proof.
  induction a as [| x a IH]; [reflexivity |]. rewrite append_cons, IH. reflexivity.
Qed.

Lemma absPath_nonempty (cs : list string) : String.eqb (absPath cs) "" = false.
Proof. reflexivity. Qed.

Lemma Join_two (a b : string) :
  String.eqb a "" = false -> Join [a; b] = Clean (a +:+ String "/" b).
Proof. intros Ha. cbn [Join]. rewrite Ha. reflexivity. Qed.

Lemma Join_absPath (cs : list string) (l : string) :
  Forall (fun c => isName c = true) cs ->
  noDotDot l = true ->
  Join [absPath cs; l] = absPath (cs ++ List.filter kept (Split l))
  /\ Forall (fun c => isName c = true) (List.filter kept (Split l)).
Proof.
  intros Hcs Hl. rewrite (Join_two _ _ (absPath_nonempty cs)).
  apply Clean_absPath_app; assumption.
Qed.

Lemma Join_name (cs : list string) (c : string) :
  Forall (fun c => isName c = true) cs ->
  isName c = true ->
  Join [absPath cs; c] = absPath (cs ++ [c]).
Proof.
  intros Hcs Hc.
  assert (Hsplit : Split c = [c]) by (apply Split_name, isName_noSlash; exact Hc).
  assert (Hnd : noDotDot c = true).
  { unfold noDotDot. rewrite Hsplit. apply (names_noDotDot [c]). repeat constructor. exact Hc. }
  destruct (Join_absPath cs c Hcs Hnd) as [-> _].
  rewrite Hsplit, (filter_kept_names [c]); [reflexivity | repeat constructor; exact Hc].
Qed.

Lemma uptoLastSlash_none (c : string) : hasSlash c = false -> uptoLastSlash c = None.
Proof.
  induction c as [| x c IH]; [reflexivity |]. cbn [hasSlash uptoLastSlash].
  intros H. apply orb_false_iff in H. destruct H as [Hx Hc]. rewrite (IH Hc), Hx. reflexivity.
Qed.

Lemma uptoLastSlash_app (a c : string) :
  hasSlash c = false -> uptoLastSlash (a +:+ String "/" c) = Some (a +:+ "/").
Proof.
  intros Hc. induction a as [| x a IH].
  - change ("" +:+ String "/" c) with (String "/" c).
    cbn [uptoLastSlash]. rewrite (uptoLastSlash_none c Hc). reflexivity.
  - change (String x a +:+ String "/" c) with (String x (a +:+ String "/" c)).
    cbn [uptoLastSlash]. rewrite IH. reflexivity.
Qed.

Lemma concat_snoc_cons (cs : list string) :
  forall (x c : string),
    String.concat "/" ((x :: cs) ++ [c]) = String.concat "/" (x :: cs) +:+ String "/" c.
Proof.
  induction cs as [| y cs IH]; intros x c; [reflexivity |].
  change (String.concat "/" ((x :: y :: cs) ++ [c]))
    with (x +:+ String "/" (String.concat "/" ((y :: cs) ++ [c]))).
  rewrite IH.
  change (String.concat "/" (x :: y :: cs))
    with (x +:+ String "/" (String.concat "/" (y :: cs))).
  rewrite append_assoc. reflexivity.
Qed.

Lemma concat_snoc (cs : list string) (c : string) :
  cs <> [] -> String.concat "/" (cs ++ [c]) = String.concat "/" cs +:+ String "/" c.
Proof. destruct cs as [| x cs]; [congruence | intros _; apply concat_snoc_cons]. Qed.

Lemma absPath_snoc (cs : list string) (c : string) :
  absPath (cs ++ [c])
  = match cs with [] => "" | _ => absPath cs end +:+ String "/" c.
Proof.
  destruct cs as [| x cs]; [reflexivity |]. unfold absPath.
  rewrite concat_snoc by discriminate. reflexivity.
Qed.

Lemma Dir_absPath_snoc (cs : list string) (c : string) :
  Forall (fun c => isName c = true) cs ->
  isName c = true ->
  Dir (absPath (cs ++ [c])) = absPath cs.
Proof.
  intros Hcs Hc. unfold Dir. rewrite absPath_snoc.
  rewrite (uptoLastSlash_app _ c (isName_noSlash c Hc)).
  destruct cs as [| x cs]; [reflexivity |].
  destruct (Clean_absPath_app (x :: cs) "" Hcs eq_refl) as [Heq _].
  change (absPath (x :: cs) +:+ "/") with (absPath (x :: cs) +:+ String "/" "").
  rewrite Heq. cbn [Split List.filter kept]. rewrite app_nil_r. reflexivity.
Qed.

Lemma prefix_app (a b : string) : String.prefix a (a +:+ b) = true.
Proof.
  induction a as [| x a IH]; [apply prefix_empty |].
  rewrite append_cons. cbn [String.prefix].
  destruct (ascii_dec x x); [exact IH | congruence].
Qed.

Lemma prefix_length (a b : string) :
  String.prefix a b = true -> (String.length a <= String.length b)%nat.
Proof.
  revert a. induction b as [| y b IH]; intros [| x a]; cbn; try lia; try discriminate.
  destruct (ascii_dec x y); [| discriminate]. intros H. apply IH in H. lia.
Qed.

Lemma length_append (a b : string) :
  String.length (a +:+ b) = (String.length a + String.length b)%nat.
Proof.
  induction a as [| x a IH]; [reflexivity |].
  rewrite append_cons. cbn [String.length]. rewrite IH. reflexivity.
Qed.

Lemma absPath_app (rcs more : list string) :
  rcs <> [] -> exists suffix, absPath (rcs ++ more) = absPath rcs +:+ suffix.
Proof.
  intros Hr. induction more as [| x more IH] using rev_ind.
  - exists "". rewrite app_nil_r, append_nil_r. reflexivity.
  - destruct IH as [suffix IH]. exists (suffix +:+ String "/" x).
    rewrite app_assoc, absPath_snoc.
    destruct (rcs ++ more)%list eqn:He; [destruct rcs; [congruence | discriminate He] |].
    cbv iota. rewrite IH, append_assoc. reflexivity.
Qed.

(** A path under the root has the root as a prefix. *)
Lemma under_HasPrefix (rcs : list string) (cur : string) :
  rcs <> [] -> under rcs cur -> HasPrefix cur (absPath rcs) = true.
Proof.
  intros Hr (more & _ & ->). destruct (absPath_app rcs more Hr) as [suffix ->].
  apply prefix_app.
Qed.

(** The parent of the root does not have the root as a prefix. *)
Lemma Dir_root_outside (r : list string) (x : string) :
  Forall (fun c => isName c = true) r ->
  isName x = true ->
  HasPrefix (Dir (absPath (r ++ [x]))) (absPath (r ++ [x])) = false.
Proof.
  intros Hr Hx. rewrite (Dir_absPath_snoc r x Hr Hx).
  destruct (HasPrefix (absPath r) (absPath (r ++ [x]))) eqn:Hp; [| reflexivity].
  exfalso. unfold HasPrefix in Hp. apply prefix_length in Hp.
  rewrite absPath_snoc, length_append in Hp. cbn [String.length] in Hp.
  destruct r; cbn [String.length] in Hp.
  - destruct x; [discriminate Hx |].
    change (absPath []) with "/" in Hp. cbn [String.length] in Hp. lia.
  - lia.
Qed.

End GoFacts.

(** ** Path resolution stays under the process root *)
Module ConfineFacts.
Import Go PathShape Process GoFacts.

Section Confined.

Variable fs : FileSys.
Variable p : process.
Variable rcs : list string.

Hypothesis rcs_nonempty : rcs <> [].
Hypothesis rcs_names : Forall (fun c => isName c = true) rcs.
Hypothesis root_shape : root p = absPath rcs.
Hypothesis links_noDotDot :
  forall (q link : string), os_Readlink fs q = Some link -> noDotDot link = true.

Local Abbreviation visited := (fun op : FsOp => under rcs (opPath op)).

Lemma under_root : under rcs (root p).
Proof. exists []. split; [constructor | rewrite app_nil_r; exact root_shape]. Qed.

Lemma under_names (more : list string) :
  Forall (fun c => isName c = true) more ->
  Forall (fun c => isName c = true) (rcs ++ more).
Proof. intros H. apply Forall_app. split; [exact rcs_names | exact H]. Qed.

(** A path under the root other than the root has a last name below the
    root. *)
Lemma under_not_root (cur : string) :
  under rcs cur -> String.eqb cur (root p) = false ->
  exists m x,
    Forall (fun c => isName c = true) m /\ isName x = true
    /\ cur = absPath ((rcs ++ m) ++ [x]).
Proof.
  intros (more & Hmore & ->) Hne.
  destruct more as [| y more] using rev_ind.
  - rewrite app_nil_r, <- root_shape, String.eqb_refl in Hne. discriminate Hne.
  - apply Forall_app in Hmore. destruct Hmore as [Hm Hy].
    inversion Hy; subst. exists more, y. rewrite app_assoc. repeat split; assumption.
Qed.

Lemma Dir_under (cur : string) :
  under rcs cur -> String.eqb cur (root p) = false -> under rcs (Dir cur).
Proof.
  intros Hu Hne. destruct (under_not_root cur Hu Hne) as (m & x & Hm & Hx & ->).
  rewrite (Dir_absPath_snoc _ x (under_names m Hm) Hx). exists m. split; [exact Hm | reflexivity].
Qed.

Lemma nextPath_under (cur c : string) :
  hasSlash c = false -> String.eqb c "" = false ->
  under rcs cur -> under rcs (nextPath p cur c).
Proof.
  intros Hslash Hne Hu. unfold nextPath.
  destruct (String.eqb c "..") eqn:Hdd.
  - cbv zeta. destruct (negb (HasPrefix (Dir cur) (root p))) eqn:Hout; [exact under_root |].
    destruct (String.eqb cur (root p)) eqn:Hr; [| exact (Dir_under cur Hu Hr)].
    exfalso. apply String.eqb_eq in Hr. subst cur. apply negb_false_iff in Hout.
    rewrite root_shape in Hout.
    destruct rcs as [| y r] using rev_ind; [congruence |].
    apply Forall_app in rcs_names. destruct rcs_names as [Hrn Hy]. inversion Hy; subst.
    rewrite (Dir_root_outside r y Hrn) in Hout; [discriminate Hout | assumption].
  - destruct (String.eqb c ".") eqn:Hd; cbn [negb]; [exact Hu |].
    destruct Hu as (more & Hmore & ->).
    assert (Hc : isName c = true) by (unfold isName; rewrite Hne, Hd, Hdd, Hslash; reflexivity).
    rewrite (Join_name _ c (under_names more Hmore) Hc).
    exists (more ++ [c])%list. split; [| rewrite app_assoc; reflexivity].
    apply Forall_app. split; [exact Hmore | repeat constructor; exact Hc].
Qed.

Lemma linkTarget_under (cur link : string) :
  under rcs cur -> String.eqb cur (root p) = false ->
  noDotDot link = true ->
  under rcs (if IsAbs link then Join [root p; link] else Join [Dir cur; link]).
Proof.
  intros Hu Hne Hl. destruct (IsAbs link).
  - rewrite root_shape. destruct (Join_absPath rcs link rcs_names Hl) as [-> Hn].
    exists (List.filter kept (Split link)). split; [exact Hn | reflexivity].
  - destruct (Dir_under cur Hu Hne) as (m & Hm & ->).
    destruct (Join_absPath _ link (under_names m Hm) Hl) as [-> Hn].
    exists (m ++ List.filter kept (Split link))%list. split; [| rewrite app_assoc; reflexivity].
    apply Forall_app. split; assumption.
Qed.

Lemma followLinks_under (fuel : nat) :
  forall (cur : string) (isDir : bool) (linkCnt : nat) tr out,
    under rcs cur -> String.eqb cur (root p) = false ->
    followLinks fuel fs p cur isDir linkCnt = Some (tr, out) ->
    Forall visited tr
    /\ (forall cur' isDir' linkCnt', out = LoopBreak cur' isDir' linkCnt' -> under rcs cur').
Proof.
  induction fuel as [| fuel IH]; intros cur isDir linkCnt tr out Hu Hne; [discriminate |].
  rewrite PathFacts.followLinks_S.
  destruct (SymlinkMax <=? linkCnt)%nat;
    [intros [= <- <-]; split; [constructor | discriminate] |].
  destruct (os_Readlink fs cur) as [link |] eqn:Hlink;
    [| intros [= <- <-]; split; [repeat constructor; exact Hu | discriminate]].
  cbv zeta.
  pose proof (linkTarget_under cur link Hu Hne (links_noDotDot cur link Hlink)) as Hu'.
  set (cur' := if IsAbs link then Join [root p; link] else Join [Dir cur; link]) in *.
  destruct (String.eqb cur' (root p)) eqn:Hne';
    [intros [= <- <-]; split; [repeat constructor; exact Hu | intros ? ? ? [= <- _ _]; exact Hu'] |].
  destruct (isSymlink fs cur') as [[symlink isDir'] |];
    [| intros [= <- <-]; split; [repeat constructor; assumption | discriminate]].
  destruct symlink; cbn [negb];
    [| intros [= <- <-]; split;
       [repeat constructor; assumption | intros ? ? ? [= <- _ _]; exact Hu']].
  destruct (followLinks fuel fs p cur' isDir' (linkCnt + 1)) as [[tr' out'] |] eqn:Hrec;
    [| discriminate].
  intros [= <- <-]. destruct (IH _ _ _ _ _ Hu' Hne' Hrec) as [Htr Hout].
  split; [repeat constructor; assumption | exact Hout].
Qed.

Lemma checkAndContinue_under (final : bool) (mode : AccessMode) (tr0 : list FsOp)
    (cur : string) (linkCnt : nat)
    (next : string -> nat -> option (list FsOp * option Errno)) :
  (forall cur linkCnt tr r,
      under rcs cur -> next cur linkCnt = Some (tr, r) -> Forall visited tr) ->
  Forall visited tr0 -> under rcs cur ->
  forall tr r,
    checkAndContinue fs p final mode tr0 cur linkCnt next = Some (tr, r) ->
    Forall visited tr.
Proof.
  intros Hnext Htr0 Hu tr r. unfold checkAndContinue.
  destruct (permitted fs p final mode cur).
  - destruct (next cur linkCnt) as [[tr' r'] |] eqn:Hn; [| discriminate].
    intros [= <- <-]. apply Forall_app. split; [exact Htr0 |].
    constructor; [exact Hu | exact (Hnext _ _ _ _ Hu Hn)].
  - intros [= <- <-]. apply Forall_app. split; [exact Htr0 | repeat constructor; exact Hu].
Qed.

Lemma iteration_under (mode : AccessMode) (final : bool) (c cur : string) (linkCnt : nat)
    (next : string -> nat -> option (list FsOp * option Errno)) :
  (forall cur linkCnt tr r,
      under rcs cur -> next cur linkCnt = Some (tr, r) -> Forall visited tr) ->
  hasSlash c = false -> under rcs cur ->
  forall tr r,
    iteration fs p mode final c cur linkCnt next = Some (tr, r) -> Forall visited tr.
Proof.
  intros Hnext Hslash Hu tr r. unfold iteration.
  destruct (String.eqb c "") eqn:Hne; [apply Hnext; exact Hu |]. cbv zeta.
  pose proof (nextPath_under cur c Hslash Hne Hu) as Hu1.
  set (cur1 := nextPath p cur c) in *.
  destruct (isSymlink fs cur1) as [[symlink isDir] |];
    [| intros [= <- <-]; repeat constructor; exact Hu1].
  destruct (negb final && negb symlink && negb isDir)%bool;
    [intros [= <- <-]; repeat constructor; exact Hu1 |].
  destruct (symlink && negb (String.eqb cur1 (root p)))%bool eqn:Hfollow;
    [| apply checkAndContinue_under; [exact Hnext | repeat constructor; exact Hu1 | exact Hu1]].
  apply andb_true_iff in Hfollow. destruct Hfollow as [_ Hne1]. apply negb_true_iff in Hne1.
  destruct (followLinks (S SymlinkMax) fs p cur1 isDir linkCnt)
    as [[tr0 [e | cur' isDir' linkCnt']] |] eqn:Hf; [| | discriminate].
  - destruct (followLinks_under _ _ _ _ _ _ Hu1 Hne1 Hf) as [Htr0 _].
    intros [= <- <-]. constructor; assumption.
  - destruct (followLinks_under _ _ _ _ _ _ Hu1 Hne1 Hf) as [Htr0 Hout].
    destruct (negb final && negb isDir')%bool;
      [intros [= <- <-]; constructor; assumption |].
    apply checkAndContinue_under;
      [exact Hnext | constructor; assumption | exact (Hout _ _ _ eq_refl)].
Qed.

Lemma walk_under (mode : AccessMode) (components : list string) :
  forall (cur : string) (linkCnt : nat) tr r,
    Forall (fun c => hasSlash c = false) components ->
    under rcs cur ->
    walk fs p mode components cur linkCnt = Some (tr, r) ->
    Forall visited tr.
Proof.
  induction components as [| c rest IH]; intros cur linkCnt tr r Hcs Hu.
  - intros [= <- <-]. constructor.
  - inversion Hcs as [| ? ? Hc Hrest]; subst. cbn [walk].
    apply iteration_under; [| exact Hc | exact Hu].
    intros cur0 linkCnt0 tr0 r0 Hu0. apply IH; assumption.
Qed.

End Confined.

Lemma string_of_uint_digits (d : Decimal.uint) :
  allDigits (NilEmpty.string_of_uint d) = true.
Proof. induction d; cbn; try rewrite IHd; reflexivity. Qed.

Lemma FormatUint_digits (n : N) :
  allDigits (FormatUint n) = true /\ FormatUint n <> "".
Proof.
  unfold FormatUint, NilZero.string_of_uint.
  destruct (N.to_uint n) as [| d | d | d | d | d | d | d | d | d | d] eqn:Hd;
    (split; [try reflexivity; rewrite <- Hd at 1; try (cbn; rewrite string_of_uint_digits; reflexivity)
            | cbn; discriminate ]).
Qed.

Lemma digits_noSlash (s : string) : allDigits s = true -> hasSlash s = false.
Proof.
  induction s as [| c s IH]; [reflexivity |]. cbn [allDigits hasSlash].
  intros H. apply andb_true_iff in H. destruct H as [Hc Hs]. rewrite (IH Hs), orb_false_r.
  unfold isSlash. destruct (Ascii.eqb c "/") eqn:He; [| reflexivity].
  apply Ascii.eqb_eq in He. subst c. discriminate Hc.
Qed.

Lemma digits_isName (s : string) : allDigits s = true -> s <> "" -> isName s = true.
Proof.
  intros Hd Hne. unfold isName. rewrite (digits_noSlash s Hd).
  destruct s as [| c s]; [congruence |].
  cbn [allDigits] in Hd. apply andb_true_iff in Hd. destruct Hd as [Hc _].
  assert (Hdot : Ascii.eqb c "." = false).
  { destruct (Ascii.eqb c ".") eqn:He; [| reflexivity].
    apply Ascii.eqb_eq in He. subst c. discriminate Hc. }
  cbn [String.eqb]. rewrite Hdot. reflexivity.
Qed.

(** The root [getInfo] stores is a clean absolute path of three names. *)
Lemma procRoot_shape (pid : N) :
  procRoot pid = absPath ["proc"; FormatUint pid; "root"]
  /\ Forall (fun c => isName c = true) ["proc"; FormatUint pid; "root"].
Proof.
  split.
  - unfold procRoot, absPath. cbn [String.concat]. rewrite !append_cons. reflexivity.
  - destruct (FormatUint_digits pid) as [Hd Hne].
    repeat constructor. exact (digits_isName _ Hd Hne).
Qed.

(** The links of a file system given by a table are those of the table. *)
Lemma mkFs_links (tbl : list (string * Scenario.Entry)) :
  Forall (fun ke => match Scenario.e_link (snd ke) with
                    | Some link => noDotDot link = true
                    | None => True
                    end) tbl ->
  forall (q link : string),
    os_Readlink (Scenario.mkFs tbl) q = Some link -> noDotDot link = true.
Proof.
  intros Htbl q link. cbn [os_Readlink Scenario.mkFs].
  induction Htbl as [| [k e] tbl He Htbl IH]; cbn [Scenario.find]; [discriminate |].
  destruct (String.eqb k q); [| exact IH].
  cbn [snd] in He. intros Hl. rewrite Hl in He. exact He.
Qed.




(** What process 42 gets for that path: the resolution ends at
    [/proc/42/root/etc/passwd]. *)
Example scenario_dotdot_chain :
  pathAccess Scenario.fs42 Scenario.p42 "/a/../../../etc/passwd" R_OK
  = Some ([OpLstat "/proc/42/root/a"; OpStat "/proc/42/root/a";
           OpLstat "/proc/42/root"; OpStat "/proc/42/root";
           OpLstat "/proc/42/root"; OpStat "/proc/42/root";
           OpLstat "/proc/42/root"; OpStat "/proc/42/root";
           OpLstat "/proc/42/root/etc"; OpStat "/proc/42/root/etc";
           OpLstat "/proc/42/root/etc/passwd"; OpStat "/proc/42/root/etc/passwd"],
          None).
Proof. vm_compute. reflexivity. Qed.

(** A link target with ".." elements is resolved without the clamp: the
    link [/up -> ../../../../etc/passwd] makes the resolution look at
    [/etc/passwd] of the host, and the absolute target [/../../etc] at
    [/proc/etc]. *)
Example link_with_dotdot_leaves_root :
  pathAccess Scenario.fsEscape Scenario.p42 "/up" R_OK
  = Some ([OpLstat "/proc/42/root/up"; OpReadlink "/proc/42/root/up";
           OpLstat "/etc/passwd"], Some ENOENT)
  /\ pathAccess Scenario.fsEscape Scenario.p42 "/top" R_OK
     = Some ([OpLstat "/proc/42/root/top"; OpReadlink "/proc/42/root/top";
              OpLstat "/proc/etc"], Some ENOENT).
Proof. split; vm_compute; reflexivity. Qed.

(** C2: forty-one links are followed on the way through
    [/d/s/s/.../s], one per component, and the access is granted: the
    link count stays at zero, since a link that leads to a file that is no
    link is not counted. *)
Theorem pathAccess_follows_41_links :
  exists tr,
    pathAccess Scenario.fs42 Scenario.p42 (Scenario.manyLinks 41) R_OK = Some (tr, None)
    /\ length (List.filter isReadlink tr) = 41%nat.
Proof.
  eexists. split; [vm_compute; reflexivity | reflexivity].
Qed.

(** A chain of links that never ends is cut with [ELOOP] after forty
    links were followed. *)
Example link_cycle_ELOOP :
  exists tr,
    pathAccess Scenario.fs42 Scenario.p42 "/x" R_OK = Some (tr, Some ELOOP)
    /\ length (List.filter isReadlink tr) = 40%nat.
Proof.
  eexists. split; [vm_compute; reflexivity | reflexivity].
Qed.

(** The loop returns [ELOOP] as soon as it is entered with a link count
    of [SymlinkMax] or more. *)
Lemma followLinks_ELOOP (fs : FileSys) (p : process) (fuel : nat)
    (cur : string) (isDir : bool) (linkCnt : nat) :
  (SymlinkMax <= linkCnt)%nat ->
  followLinks (S fuel) fs p cur isDir linkCnt = Some ([], LoopErr ELOOP).
Proof.
  intros H. rewrite PathFacts.followLinks_S. apply Nat.leb_le in H. rewrite H. reflexivity.
Qed.

End ConfineFacts.

(** ** Path resolution: the final component and the access mode *)
Module ModeFacts.
Import Process PathInputs.

Lemma Split_trailing_slash (path : string) :
  Go.Split (path +:+ "/") = (Go.Split path ++ [""])%list.
Proof. apply (GoFacts.Split_app path ""). Qed.

(** An iteration on a component that is not the final one does not look
    at the mode the caller asked for. *)
Lemma iteration_nonfinal_mode (fs : FileSys) (p : process) (mode mode' : AccessMode)
    (c cur : string) (linkCnt : nat)
    (next next' : string -> nat -> option (list FsOp * option Errno)) :
  (forall cur linkCnt, next cur linkCnt = next' cur linkCnt) ->
  iteration fs p mode false c cur linkCnt next
  = iteration fs p mode' false c cur linkCnt next'.
Proof.
  intros Hnext. unfold iteration, checkAndContinue, permitted.
  destruct (String.eqb c ""); [apply Hnext |]. cbv zeta.
  destruct (isSymlink fs (nextPath p cur c)) as [[symlink isDir] |]; [| reflexivity].
  destruct (negb false && negb symlink && negb isDir)%bool; [reflexivity |].
  destruct (symlink && negb (String.eqb (nextPath p cur c) (root p)))%bool.
  - destruct (followLinks (S SymlinkMax) fs p (nextPath p cur c) isDir linkCnt)
      as [[tr [e | cur' isDir' linkCnt']] |]; try reflexivity.
    destruct (negb false && negb isDir')%bool; [reflexivity |].
    rewrite Hnext. reflexivity.
  - rewrite Hnext. reflexivity.
Qed.

Lemma walk_trailing_empty (fs : FileSys) (p : process) (mode mode' : AccessMode)
    (components : list string) :
  forall (cur : string) (linkCnt : nat),
    walk fs p mode (components ++ [""]) cur linkCnt
    = walk fs p mode' (components ++ [""]) cur linkCnt.
Proof.
  induction components as [| c rest IH]; intros cur linkCnt; [reflexivity |].
  cbn [app walk].
  destruct (rest ++ [""])%list as [| c' rest'] eqn:Hrest.
  - destruct rest; discriminate Hrest.
  - apply iteration_nonfinal_mode. exact IH.
Qed.

(** X1.  For a path that ends with a slash the requested access mode is
    never checked: the last component is the empty one, which the loop
    skips, and every other component is checked for search permission
    only.  The calls on the file system and the result are the same for
    any two modes. *)
Theorem pathAccess_trailing_slash_ignores_mode (fs : FileSys) (p : process)
    (path : string) (mode mode' : AccessMode) :
  pathAccess fs p (path +:+ "/") mode = pathAccess fs p (path +:+ "/") mode'.
Proof.
  unfold pathAccess.
  destruct (String.eqb (path +:+ "/") ""); [reflexivity |].
  destruct (PathMax <? String.length (path +:+ "/") + 1)%nat; [reflexivity |].
  rewrite Split_trailing_slash. apply walk_trailing_empty.
Qed.

Example trailing_slash_write_access :
  pathAccess Scenario.fs42 Scenario.p42 "/etc/passwd" W_OK
  = Some ([OpLstat "/proc/42/root/etc"; OpStat "/proc/42/root/etc";
           OpLstat "/proc/42/root/etc/passwd"; OpStat "/proc/42/root/etc/passwd"],
          Some EACCES)
  /\ pathAccess Scenario.fs42 Scenario.p42 "/etc/" W_OK
     = Some ([OpLstat "/proc/42/root/etc"; OpStat "/proc/42/root/etc"], None).
Proof. split; vm_compute; reflexivity. Qed.

Lemma walk_empty_components (fs : FileSys) (p : process) (mode : AccessMode)
    (components : list string) :
  Forall (fun c => c = "") components ->
  forall (cur : string) (linkCnt : nat),
    walk fs p mode components cur linkCnt = Some ([], None).
Proof.
  induction 1 as [| c rest Hc _ IH]; intros cur linkCnt; [reflexivity |].
  cbn [walk]. unfold iteration. subst c. cbn [String.eqb]. apply IH.
Qed.

Lemma Split_onlySlashes (s : string) :
  onlySlashes s = true -> Forall (fun c => c = "") (Go.Split s).
Proof.
  induction s as [| c s IH]; intros H; cbn [Go.Split].
  - repeat constructor.
  - cbn [onlySlashes] in H. apply andb_true_iff in H. destruct H as [Hc Hs].
    rewrite Hc. constructor; [reflexivity | apply IH; exact Hs].
Qed.

(** X2.  A path made of slashes only, of fewer than [PathMax] bytes, is
    accessible in any mode, and [pathAccess] decides so without a single
    call on the file system: no component is left to resolve, so neither
    the existence of the root nor any permission is checked. *)
Theorem pathAccess_only_slashes (fs : FileSys) (p : process) (path : string)
    (mode : AccessMode) :
  path <> "" ->
  onlySlashes path = true ->
  (String.length path < PathMax)%nat ->
  pathAccess fs p path mode = Some ([], None).
Proof.
  intros Hne Hs Hlen. unfold pathAccess.
  apply String.eqb_neq in Hne. rewrite Hne.
  assert (Hl : (PathMax <? String.length path + 1)%nat = false)
    by (apply Nat.ltb_ge; lia).
  rewrite Hl. apply walk_empty_components. apply Split_onlySlashes. exact Hs.
Qed.

Lemma pathAccess_only_slashes_witness :
  pathAccess (Scenario.mkFs []) Scenario.p42 "//" W_OK = Some ([], None).
Proof.
  apply (pathAccess_only_slashes (Scenario.mkFs []) Scenario.p42 "//" W_OK).
  - discriminate.
  - reflexivity.
  - unfold PathMax. cbn [String.length]. lia.
Defined.

End ModeFacts.

(** ** Permission checks: smaller requests *)
Module PermOrderFacts.
Import Process.

Lemma land_sub_trans (m' m x : N) :
  N.land m' m = m' -> N.land m x = m -> N.land m' x = m'.
Proof.
  intros H1 H2. transitivity (N.land (N.land m' m) x).
  - rewrite H1. reflexivity.
  - rewrite <- N.land_assoc, H2. exact H1.
Qed.

Lemma classGrants_sub (p : process) (fi : FileInfo) (st : Stat_t) (m m' : N) :
  N.land m' m = m' -> classGrants p fi st m = true -> classGrants p fi st m' = true.
Proof.
  intros Hsub. unfold classGrants. intros H.
  repeat (apply orb_true_iff in H; destruct H as [H | H]).
  - apply andb_true_iff in H. destruct H as [Hu H]. apply N.eqb_eq in H.
    rewrite Hu, (proj2 (N.eqb_eq _ _) (land_sub_trans _ _ _ Hsub H)). reflexivity.
  - apply andb_true_iff in H. destruct H as [Hg H]. apply N.eqb_eq in H.
    rewrite Hg, (proj2 (N.eqb_eq _ _) (land_sub_trans _ _ _ Hsub H)).
    rewrite orb_true_r. reflexivity.
  - apply N.eqb_eq in H.
    rewrite (proj2 (N.eqb_eq _ _) (land_sub_trans _ _ _ Hsub H)).
    rewrite !orb_true_r. reflexivity.
Qed.

(** A request within a request that lacks a bit lacks that bit too. *)
Lemma lacks_bit_sub (m m' b : N) :
  N.land m' m = m' -> N.land m b <> b -> N.land m' b <> b.
Proof.
  intros Hsub Hm Hm'. apply Hm.
  apply N.bits_inj. intros i. rewrite N.land_spec.
  destruct (N.testbit b i) eqn:Hb; [| apply andb_false_r].
  rewrite andb_true_r.
  assert (H1 : N.testbit (N.land m' b) i = true) by (rewrite Hm'; exact Hb).
  rewrite N.land_spec in H1. apply andb_true_iff in H1. destruct H1 as [H1 _].
  rewrite <- Hsub in H1. rewrite N.land_spec in H1.
  apply andb_true_iff in H1. tauto.
Qed.

(** The requests within [R_OK]. *)
Lemma sub_R_OK (m' : N) : N.land m' R_OK = m' -> m' = 0%N \/ m' = R_OK.
Proof.
  unfold R_OK. intros H.
  assert (Hle : (m' <= 4)%N) by (rewrite <- H; apply N.land_le_r).
  assert (Hc : (m' = 0 \/ m' = 1 \/ m' = 2 \/ m' = 3 \/ m' = 4)%N) by lia.
  destruct Hc as [-> | [-> | [-> | [-> | ->]]]]; try discriminate H; auto.
Qed.

(** X3.  The permissions [checkPerm] grants are closed under taking less:
    when a mode is granted on a file, every mode made of some of its bits
    is granted on that file too, whichever of the classes or capabilities
    granted the larger one. *)
Theorem checkPerm_grants_smaller_modes (fs : FileSys) (p : process) (path : string)
    (m m' : AccessMode) :
  N.land m' m = m' ->
  checkPerm fs p path m = (true, None) ->
  checkPerm fs p path m' = (true, None).
Proof.
  intros Hsub.
  destruct (os_Stat fs path) as [fi |] eqn:Hstat;
    [| unfold checkPerm; rewrite Hstat; discriminate].
  destruct (Sys fi) as [st |] eqn:Hsys;
    [| unfold checkPerm; rewrite Hstat, Hsys; discriminate].
  rewrite !(CheckPermFacts.checkPerm_unfold fs p path _ fi st Hstat Hsys).
  intros [= H]. f_equal.
  apply orb_true_iff in H. destruct H as [H | H].
  - apply orb_true_iff in H. destruct H as [H | H].
    + rewrite (classGrants_sub p fi st m m' Hsub H). reflexivity.
    + apply andb_true_iff in H. destruct H as [Hcap H]. rewrite Hcap. cbn [andb].
      apply orb_true_iff in H. destruct H as [H | H].
      * apply orb_true_iff in H. destruct H as [H | H].
        -- rewrite H. cbn [orb]. rewrite orb_true_r. reflexivity.
        -- apply negb_true_iff, N.eqb_neq in H.
           apply (lacks_bit_sub m m' X_OK Hsub), N.eqb_neq in H.
           rewrite H. cbn [negb]. rewrite orb_true_r. cbn [orb].
           rewrite orb_true_r. reflexivity.
      * rewrite H. rewrite !orb_true_r. reflexivity.
  - apply andb_true_iff in H. destruct H as [Hcap H]. rewrite Hcap. cbn [andb].
    apply orb_true_iff in H. destruct H as [H | H].
    + apply andb_true_iff in H. destruct H as [Hd H]. rewrite Hd.
      apply negb_true_iff, N.eqb_neq in H.
      apply (lacks_bit_sub m m' W_OK Hsub), N.eqb_neq in H.
      rewrite H. cbn [negb andb orb]. rewrite orb_true_r. reflexivity.
    + apply andb_true_iff in H. destruct H as [Hd H]. rewrite Hd.
      apply N.eqb_eq in H. subst m.
      destruct (sub_R_OK m' Hsub) as [-> | ->].
      * unfold classGrants. rewrite !N.land_0_l. cbn [N.eqb].
        rewrite !orb_true_r. reflexivity.
      * cbn [N.eqb R_OK Pos.eqb andb orb]. rewrite !orb_true_r. reflexivity.
Qed.

(** X3, on an example: a file of mode 0640 owned by the process grants
    read and write together, hence write alone. *)
Lemma checkPerm_grants_smaller_modes_witness :
  checkPerm (Scenario.mkFs [("/f", Scenario.fileE 416 1000 1000)]) Scenario.p42 "/f" W_OK
  = (true, None).
Proof.
  apply (checkPerm_grants_smaller_modes _ Scenario.p42 "/f" 6%N W_OK); reflexivity.
Defined.

End PermOrderFacts.

(** ** Decimal numbers: printing and parsing *)
Module NumFacts.
Import Go.

Lemma parseDigits_acc (d : Decimal.uint) :
  forall acc : positive,
    parseDigits (NilEmpty.string_of_uint d) (Z.pos acc)
    = Some (Z.pos (Pos.of_uint_acc d acc)).
Proof.
  induction d; intros acc; cbn [NilEmpty.string_of_uint parseDigits Pos.of_uint_acc];
    [reflexivity | ..];
    match goal with
    | |- context [digitVal ?c] =>
        let v := eval vm_compute in (digitVal c) in change (digitVal c) with v
    end; cbv iota beta; rewrite <- IHd; f_equal; lia.
Qed.

Lemma parseDigits_zero (d : Decimal.uint) :
  parseDigits (NilEmpty.string_of_uint d) 0 = Some (Z.of_N (Pos.of_uint d)).
Proof.
  induction d; cbn [NilEmpty.string_of_uint parseDigits Pos.of_uint];
    [reflexivity | ..];
    match goal with
    | |- context [digitVal ?c] =>
        let v := eval vm_compute in (digitVal c) in change (digitVal c) with v
    end; cbv iota beta; [exact IHd | ..];
    match goal with
    | |- parseDigits _ ?a = _ =>
        let v := eval vm_compute in a in change a with v
    end; rewrite parseDigits_acc; reflexivity.
Qed.

Lemma Atoi_digits (d : Decimal.uint) :
  d <> Decimal.Nil ->
  Atoi (NilEmpty.string_of_uint d)
  = let v := Z.of_N (Pos.of_uint d) in
    if (Z.leb intMin v && Z.leb v intMax)%bool then Some v else None.
Proof.
  intros Hd. pose proof (parseDigits_zero d) as Hp.
  destruct d; [contradiction | ..];
    cbn [NilEmpty.string_of_uint] in *; unfold Atoi;
    match goal with
    | |- context [Ascii.eqb ?c "-"%char] =>
        change (Ascii.eqb c "-"%char) with false;
        change (Ascii.eqb c "+"%char) with false
    end; cbv iota beta; rewrite Hp; reflexivity.
Qed.

Lemma Atoi_neg_digits (d : Decimal.uint) :
  d <> Decimal.Nil ->
  Atoi (String "-" (NilEmpty.string_of_uint d))
  = let v := (- Z.of_N (Pos.of_uint d))%Z in
    if (Z.leb intMin v && Z.leb v intMax)%bool then Some v else None.
Proof.
  intros Hd. pose proof (parseDigits_zero d) as Hp.
  unfold Atoi. change (Ascii.eqb "-" "-") with true. cbv iota beta.
  destruct d; [contradiction | ..];
    cbn [NilEmpty.string_of_uint] in *; rewrite Hp; reflexivity.
Qed.

Lemma NilZero_nonnil (d : Decimal.uint) :
  d <> Decimal.Nil -> NilZero.string_of_uint d = NilEmpty.string_of_uint d.
Proof. destruct d; [contradiction | reflexivity ..]. Qed.

(** What [strconv.Itoa] prints, [strconv.Atoi] reads back. *)
Lemma Atoi_Itoa (z : Z) :
  (intMin <= z <= intMax)%Z -> Atoi (Itoa z) = Some z.
Proof.
  intros Hz. unfold Itoa. destruct z as [| p | p]; cbn [Z.to_int NilZero.string_of_int].
  - reflexivity.
  - rewrite NilZero_nonnil by apply Unsigned.to_uint_nonnil.
    rewrite Atoi_digits by apply Unsigned.to_uint_nonnil.
    rewrite DecimalPos.Unsigned.of_to. cbv zeta. cbn [Z.of_N].
    destruct (Z.leb_spec intMin (Z.pos p)); [| lia].
    destruct (Z.leb_spec (Z.pos p) intMax); [| lia]. reflexivity.
  - rewrite NilZero_nonnil by apply Unsigned.to_uint_nonnil.
    rewrite Atoi_neg_digits by apply Unsigned.to_uint_nonnil.
    rewrite DecimalPos.Unsigned.of_to. cbv zeta.
    change (- Z.of_N (N.pos p))%Z with (Z.neg p).
    destruct (Z.leb_spec intMin (Z.neg p)); [| lia].
    destruct (Z.leb_spec (Z.neg p) intMax); [| lia]. reflexivity.
Qed.

Lemma Atoi_range (s : string) (z : Z) :
  Atoi s = Some z -> (intMin <= z <= intMax)%Z.
Proof.
  unfold Atoi.
  destruct (match s with
            | String c r =>
                if Ascii.eqb c "-"%char then (true, r)
                else if Ascii.eqb c "+"%char then (false, r) else (false, s)
            | EmptyString => (false, s)
            end) as [neg body].
  destruct body; [discriminate |].
  destruct (parseDigits _ 0) as [v |]; [| discriminate].
  destruct (Z.leb_spec intMin (if neg then (- v)%Z else v)); [| discriminate].
  destruct (Z.leb_spec (if neg then (- v)%Z else v) intMax); [| discriminate].
  cbn [andb]. intros [= <-]. lia.
Qed.

End NumFacts.

(** ** The max-integer handler on a host that keeps what is written *)
Module KeptHostFacts.
Import Domain MaxInt KeptHost.

Section Kept.

Variable Host : Type.
Variable ReadLine : Host -> IOnode -> Host * (string * error).
Variable WriteFile : Host -> IOnode -> string -> Host * error.
Variable Intn : Host -> Z -> Host * Z.

(** The host is a file with a content: reading returns it and leaves
    it, a write that succeeds replaces it, a write that fails leaves it,
    and so does drawing a random number. *)
Variable content : Host -> string.
Hypothesis ReadLine_content : forall (w : Host) (n : IOnode),
  snd (ReadLine w n) = (content w, None) /\ content (fst (ReadLine w n)) = content w.
Hypothesis WriteFile_content : forall (w : Host) (n : IOnode) (msg : string),
  (snd (WriteFile w n msg) = None /\ content (fst (WriteFile w n msg)) = msg)
  \/ (snd (WriteFile w n msg) <> None /\ content (fst (WriteFile w n msg)) = content w).
Hypothesis Intn_content : forall (w : Host) (k : Z), content (fst (Intn w k)) = content w.

Local Abbreviation State := (MaxInt.State Host).
Local Abbreviation host := (MaxInt.host Host).
Local Abbreviation cntrs := (MaxInt.cntrs Host).

Lemma pushLoop_host (IgnoreErrors : bool) (n : IOnode) (v : Z) (remaining : nat) :
  (Go.intMin <= v <= Go.intMax)%Z ->
  forall (i : nat) (st : State) (h : Z),
    Go.Atoi (content (host st)) = Some h ->
    exists h' : Z,
      Go.Atoi (content (host (fst (MaxInt.pushLoop Host ReadLine WriteFile Intn IgnoreErrors
                                     remaining i n v st)))) = Some h'
      /\ (h' = h \/ h' = Z.max h v)
      /\ (snd (MaxInt.pushLoop Host ReadLine WriteFile Intn IgnoreErrors remaining i n v st)
          = None ->
          IgnoreErrors = false -> (0 < remaining)%nat -> h' = Z.max h v).
Proof.
  intros Hv. induction remaining as [| remaining IH]; intros i st h Hh.
  - exists h. cbn [MaxInt.pushLoop fst snd]. repeat split; [exact Hh | tauto | lia].
  - cbn [MaxInt.pushLoop]. unfold readLine.
    destruct (ReadLine_content (host st) n) as [Hr Hc].
    destruct (ReadLine (host st) n) as [w [s err]]. cbn [fst snd] in Hr, Hc.
    injection Hr as -> ->. cbn [notEOF]. rewrite Hh.
    destruct (Z.leb_spec v h) as [Hle | Hgt].
    + exists h. cbn [fst snd MaxInt.host MaxInt.emit MaxInt.setHost].
      rewrite Hc. repeat split; [exact Hh | tauto | lia].
    + set (st0 := MaxInt.emit Host EvReadLine (MaxInt.setHost Host w st)).
      set (st1 := if (0 <? i)%nat then MaxInt.randomSleep Host Intn st0 else st0).
      assert (Hc1 : content (host st1) = content (host st)).
      { subst st1 st0. destruct (0 <? i)%nat.
        - unfold randomSleep. cbn [MaxInt.host MaxInt.emit MaxInt.setHost].
          pose proof (Intn_content w retryDelay) as Hi.
          destruct (Intn w retryDelay) as [w1 d]. cbn [fst] in Hi.
          cbn [MaxInt.host MaxInt.emit MaxInt.setHost]. rewrite Hi. exact Hc.
        - cbn [MaxInt.host MaxInt.emit MaxInt.setHost]. exact Hc. }
      unfold writeFile.
      destruct (WriteFile_content (host st1) n (Go.Itoa v)) as [[He Hw] | [He Hw]];
        destruct (WriteFile (host st1) n (Go.Itoa v)) as [w2 werr]; cbn [fst snd] in He, Hw.
      * subst werr.
        set (st2 := MaxInt.emit Host (EvWriteFile (Go.Itoa v)) (MaxInt.setHost Host w2 st1)).
        assert (H2 : Go.Atoi (content (host st2)) = Some v).
        { subst st2. cbn [MaxInt.host MaxInt.emit MaxInt.setHost]. rewrite Hw.
          apply NumFacts.Atoi_Itoa. exact Hv. }
        destruct (IH (S i) st2 v H2) as (h' & Hh' & Hor & _).
        exists h'. split; [exact Hh' |].
        assert (h' = Z.max h v) by lia. tauto.
      * destruct werr as [e |]; [| contradiction].
        set (st2 := MaxInt.emit Host (EvWriteFile (Go.Itoa v)) (MaxInt.setHost Host w2 st1)).
        assert (H2 : Go.Atoi (content (host st2)) = Some h).
        { subst st2. cbn [MaxInt.host MaxInt.emit MaxInt.setHost]. rewrite Hw, Hc1. exact Hh. }
        destruct IgnoreErrors; cbn [negb].
        -- destruct (IH (S i) st2 h H2) as (h' & Hh' & Hor & _).
           exists h'. repeat split; [exact Hh' | exact Hor | intros _ Hx; discriminate Hx].
        -- exists h. cbn [fst snd]. repeat split;
             [exact H2 | tauto | intros Hx; discriminate Hx].
Qed.

Lemma pushFile_host (IgnoreErrors : bool) (n : IOnode) (v h : Z) (st : State) :
  (Go.intMin <= v <= Go.intMax)%Z ->
  Go.Atoi (content (host st)) = Some h ->
  exists h' : Z,
    Go.Atoi (content (host (fst (MaxInt.pushFile Host ReadLine WriteFile Intn IgnoreErrors
                                   n v st)))) = Some h'
    /\ (h' = h \/ h' = Z.max h v)
    /\ (snd (MaxInt.pushFile Host ReadLine WriteFile Intn IgnoreErrors n v st) = None ->
        IgnoreErrors = false -> h' = Z.max h v).
Proof.
  intros Hv Hh. unfold MaxInt.pushFile.
  destruct (pushLoop_host IgnoreErrors n v retries Hv 0 (MaxInt.emit Host EvLock st) h Hh)
    as (h' & Hh' & Hor & Hok).
  destruct (MaxInt.pushLoop Host ReadLine WriteFile Intn IgnoreErrors retries 0 n v
              (MaxInt.emit Host EvLock st)) as [st' err].
  cbn [fst snd MaxInt.host MaxInt.emit] in *.
  exists h'. repeat split; [exact Hh' | exact Hor |].
  intros He Hi. apply Hok; [exact He | exact Hi | unfold retries; lia].
Qed.

(** X4.  On a host that keeps what is written, [pushFile] never lowers
    the host's value: whether it succeeds or fails, and whether write
    errors are ignored or not, the host afterwards holds an integer that
    is no less than before and no more than the larger of the old and the
    new value; and when the push reports success, with write errors not
    ignored, the host holds exactly the larger of the two. *)
Theorem pushFile_raises_host_to_max (IgnoreErrors : bool) (n : IOnode) (v h : Z)
    (st : State) :
  (Go.intMin <= v <= Go.intMax)%Z ->
  Go.Atoi (content (host st)) = Some h ->
  exists h' : Z,
    Go.Atoi (content (host (fst (MaxInt.pushFile Host ReadLine WriteFile Intn IgnoreErrors
                                   n v st)))) = Some h'
    /\ (h <= h' <= Z.max h v)%Z
    /\ (snd (MaxInt.pushFile Host ReadLine WriteFile Intn IgnoreErrors n v st) = None ->
        IgnoreErrors = false -> h' = Z.max h v).
Proof.
  intros Hv Hh.
  destruct (pushFile_host IgnoreErrors n v h st Hv Hh) as (h' & Hh' & Hor & Hok).
  exists h'. split; [exact Hh' |]. split; [lia | exact Hok].
Qed.

Lemma hostBounds_host (n : IOnode) (st st' : State) (h h' : Z) :
  hostBounds content n st ->
  Go.Atoi (content (host st)) = Some h ->
  Go.Atoi (content (host st')) = Some h' ->
  (h <= h')%Z ->
  cntrs st' = cntrs st ->
  hostBounds content n st'.
Proof.
  intros (hv & Hhv & Hb) Hh Hh' Hle Hc. exists h'. split; [exact Hh' |].
  intros r s Hd. rewrite Hc in Hd. destruct (Hb r s Hd) as (k & Hk & Hkh).
  exists k. split; [exact Hk |]. rewrite Hh in Hhv. injection Hhv as <-. lia.
Qed.

Lemma hostBounds_cache (n : IOnode) (st : State) (cntr : cref) (d : string) (k h : Z) :
  hostBounds content n st ->
  Go.Atoi (content (host st)) = Some h ->
  Go.Atoi d = Some k ->
  (k <= h)%Z ->
  hostBounds content n
    (MaxInt.setContainer Host st cntr (SetData (cntrs st cntr) (Path n) (Name n) d)).
Proof.
  intros (hv & Hhv & Hb) Hh Hk Hle. exists hv.
  cbn [MaxInt.host MaxInt.setContainer MaxInt.cntrs]. split; [exact Hhv |].
  rewrite Hh in Hhv. injection Hhv as <-.
  intros r s. unfold update. destruct (Nat.eqb r cntr) eqn:Hr.
  - rewrite CommonFacts.Data_SetData. intros [= <-]. exists k. split; [exact Hk | exact Hle].
  - apply Hb.
Qed.

Lemma push_then_cache (n : IOnode) (st : State) (cntr : cref) (d : string) (v h : Z) :
  hostBounds content n st ->
  Go.Atoi (content (host st)) = Some h ->
  Go.Atoi d = Some v ->
  hostBounds content n
    (match MaxInt.pushFile Host ReadLine WriteFile Intn false n v st with
     | (st', Some _) => st'
     | (st', None) =>
         MaxInt.setContainer Host st' cntr (SetData (cntrs st' cntr) (Path n) (Name n) d)
     end).
Proof.
  intros Hb Hh Hd.
  destruct (pushFile_host false n v h st (NumFacts.Atoi_range _ _ Hd) Hh)
    as (h' & Hh' & Hor & Hok).
  pose proof (MaxIntFacts.pushFile_cntrs Host ReadLine WriteFile Intn false n v st) as Hc.
  destruct (MaxInt.pushFile Host ReadLine WriteFile Intn false n v st) as [st' [e |]];
    cbn [fst snd] in *.
  - apply (hostBounds_host n st st' h h' Hb Hh Hh'); [lia | exact Hc].
  - specialize (Hok eq_refl eq_refl).
    apply (hostBounds_cache n st' cntr d v h'); [| exact Hh' | exact Hd | lia].
    apply (hostBounds_host n st st' h h' Hb Hh Hh'); [lia | exact Hc].
Qed.

Lemma Write_bounds (hb : HandlerBase) (n : IOnode) (req : HandlerRequest) (st : State) :
  hostBounds content n st ->
  hostBounds content n (fst (MaxInt.Write Host ReadLine WriteFile Intn false hb n req st)).
Proof.
  intros Hb. pose proof Hb as (h & Hh & Hcached).
  unfold MaxInt.Write.
  destruct (Go.Atoi (Go.TrimSpace (ReqData req))) as [v |] eqn:Hv; [| exact Hb].
  destruct (Container req) as [cntr |]; [| exact Hb].
  destruct (Data (cntrs st cntr) (Path n) (Name n)) as [curMax |] eqn:Hd.
  - destruct (Hcached cntr curMax Hd) as (k & Hk & Hkh). rewrite Hk.
    destruct (Z.leb_spec v k) as [Hle | Hgt].
    + cbn [fst]. apply (hostBounds_cache n st cntr _ v h Hb Hh Hv). lia.
    + pose proof (push_then_cache n st cntr (Go.TrimSpace (ReqData req)) v h Hb Hh Hv)
        as Hp.
      destruct (MaxInt.pushFile Host ReadLine WriteFile Intn false n v st)
        as [st' [e |]]; exact Hp.
  - pose proof (push_then_cache n st cntr (Go.TrimSpace (ReqData req)) v h Hb Hh Hv)
      as Hp.
    destruct (MaxInt.pushFile Host ReadLine WriteFile Intn false n v st)
      as [st' [e |]]; exact Hp.
Qed.

(** X5.  On a host that keeps what is written, and with write errors
    not ignored, the value of the host is at all times an upper bound of
    what the containers have cached for the node: [Write] and [Read] keep
    it so, whatever the request. *)
Theorem host_bounds_the_caches (hb : HandlerBase) (n : IOnode) (req : HandlerRequest)
    (st : State) :
  hostBounds content n st ->
  hostBounds content n (fst (MaxInt.Write Host ReadLine WriteFile Intn false hb n req st))
  /\ hostBounds content n (fst (MaxInt.Read Host ReadLine hb n req st)).
Proof.
  intros Hb. split; [apply Write_bounds; exact Hb |].
  pose proof Hb as (h & Hh & Hcached).
  unfold MaxInt.Read.
  destruct (0 <? Offset req)%Z; [exact Hb |].
  destruct (Container req) as [cntr |]; [| exact Hb].
  destruct (Data (cntrs st cntr) (Path n) (Name n)) as [data |]; [exact Hb |].
  unfold MaxInt.fetchFile, readLine.
  cbn [MaxInt.host MaxInt.emit].
  destruct (ReadLine_content (host st) n) as [Hr Hc].
  destruct (ReadLine (host st) n) as [w [s err]]. cbn [fst snd] in Hr, Hc.
  injection Hr as -> ->. cbn [notEOF]. rewrite Hh. cbn [notEOF fst].
  set (st1 := MaxInt.emit Host EvUnlock
                (MaxInt.emit Host EvReadLine
                   (MaxInt.setHost Host w (MaxInt.emit Host EvLock st)))).
  assert (Hh1 : Go.Atoi (content (host st1)) = Some h).
  { subst st1. cbn [MaxInt.host MaxInt.emit MaxInt.setHost]. rewrite Hc. exact Hh. }
  apply (hostBounds_cache n st1 cntr _ h h); [| exact Hh1 | exact Hh | lia].
  apply (hostBounds_host n st st1 h h Hb Hh Hh1); [lia | reflexivity].
Qed.

Lemma Write_host_max (hb : HandlerBase) (n : IOnode) (req : HandlerRequest)
    (st : State) (h v : Z) :
  hostBounds content n st ->
  Go.Atoi (content (host st)) = Some h ->
  Go.Atoi (Go.TrimSpace (ReqData req)) = Some v ->
  snd (snd (MaxInt.Write Host ReadLine WriteFile Intn false hb n req st)) = None ->
  Go.Atoi (content (host (fst (MaxInt.Write Host ReadLine WriteFile Intn false hb n req st))))
  = Some (Z.max h v).
Proof.
  intros Hb Hh Hv. pose proof Hb as (h0 & Hh0 & Hcached).
  rewrite Hh in Hh0. injection Hh0 as <-.
  unfold MaxInt.Write. rewrite Hv.
  destruct (Container req) as [cntr |]; [| discriminate].
  destruct (pushFile_host false n v h st (NumFacts.Atoi_range _ _ Hv) Hh)
    as (h' & Hh' & _ & Hok).
  destruct (Data (cntrs st cntr) (Path n) (Name n)) as [curMax |] eqn:Hd.
  - destruct (Hcached cntr curMax Hd) as (c & Hc & Hch). rewrite Hc.
    destruct (Z.leb_spec v c) as [Hle | Hgt].
    + intros _. cbn [fst MaxInt.host MaxInt.setContainer].
      rewrite Hh. f_equal. lia.
    + destruct (MaxInt.pushFile Host ReadLine WriteFile Intn false n v st)
        as [st' [e |]]; [discriminate |].
      intros _. cbn [fst snd MaxInt.host MaxInt.setContainer] in *.
      rewrite Hh'. f_equal. apply Hok; reflexivity.
  - destruct (MaxInt.pushFile Host ReadLine WriteFile Intn false n v st)
      as [st' [e |]]; [discriminate |].
    intros _. cbn [fst snd MaxInt.host MaxInt.setContainer] in *.
    rewrite Hh'. f_equal. apply Hok; reflexivity.
Qed.

(** X8.  The host ends up with the maximum.  On a host that keeps what
    is written, with write errors not ignored and the host bounding the
    caches at the start, after any sequence of writes of integers by any
    containers that all succeed, the host holds the largest of the value
    it held at the start and the values written, and it still bounds the
    caches. *)
Theorem writes_leave_the_maximum (hb : HandlerBase) (n : IOnode)
    (reqs : list HandlerRequest) (values : list Z) :
  Forall2 (fun req v => Go.Atoi (Go.TrimSpace (ReqData req)) = Some v) reqs values ->
  forall (st : State) (h : Z),
    hostBounds content n st ->
    Go.Atoi (content (host st)) = Some h ->
    Forall (fun r => snd r = None)
      (snd (writeAll Host ReadLine WriteFile Intn false hb n reqs st)) ->
    Go.Atoi (content (host (fst (writeAll Host ReadLine WriteFile Intn false hb n reqs st))))
    = Some (fold_left Z.max values h)
    /\ hostBounds content n (fst (writeAll Host ReadLine WriteFile Intn false hb n reqs st)).
Proof.
  induction 1 as [| req v reqs values Hv _ IH]; intros st h Hb Hh Hok.
  - cbn [writeAll fst fold_left]. split; [exact Hh | exact Hb].
  - cbn [writeAll] in *.
    pose proof (Write_bounds hb n req st Hb) as Hb1.
    pose proof (Write_host_max hb n req st h v Hb Hh Hv) as Hh1.
    destruct (MaxInt.Write Host ReadLine WriteFile Intn false hb n req st) as [st1 r1].
    cbn [fst snd] in *.
    destruct (writeAll Host ReadLine WriteFile Intn false hb n reqs st1) as [st2 rs] eqn:Hrest.
    cbn [fst snd fold_left] in *.
    inversion Hok as [| ? ? Hr1 Hrs]; subst.
    specialize (IH st1 (Z.max h v) Hb1 (Hh1 Hr1)). rewrite Hrest in IH.
    apply IH. exact Hrs.
Qed.

End Kept.

Lemma fileHost_ReadLine (w : string) (n : IOnode) :
  snd (fileReadLine w n) = (w, None) /\ fst (fileReadLine w n) = w.
Proof. split; reflexivity. Qed.

Lemma fileHost_WriteFile (w : string) (n : IOnode) (msg : string) :
  (snd (fileWriteFile w n msg) = None /\ fst (fileWriteFile w n msg) = msg)
  \/ (snd (fileWriteFile w n msg) <> None /\ fst (fileWriteFile w n msg) = w).
Proof. left. split; reflexivity. Qed.

(** X4, on an example: 2048 is pushed to a host that holds 512. *)
Lemma pushFile_raises_host_to_max_witness :
  exists h' : Z,
    Go.Atoi (MaxInt.host string
               (fst (MaxInt.pushFile string fileReadLine fileWriteFile fileIntn false
                       Scenario.maxNode 2048 (fileState "512" Scenario.emptyContainer))))
    = Some h'
    /\ (512 <= h' <= Z.max 512 2048)%Z
    /\ (snd (MaxInt.pushFile string fileReadLine fileWriteFile fileIntn false
               Scenario.maxNode 2048 (fileState "512" Scenario.emptyContainer)) = None ->
        false = false -> h' = Z.max 512 2048).
Proof.
  apply (pushFile_raises_host_to_max string fileReadLine fileWriteFile fileIntn
           (fun w => w) fileHost_ReadLine fileHost_WriteFile (fun w k => eq_refl)
           false Scenario.maxNode 2048 512
           (fileState "512" Scenario.emptyContainer)).
  - unfold Go.intMin, Go.intMax. lia.
  - reflexivity.
Defined.

Lemma hostBounds_fileState :
  hostBounds (fun w : string => w) Scenario.maxNode (fileState "4096" Scenario.cached1024).
Proof.
  exists 4096%Z. split; [reflexivity |].
  intros r s Hd. exists 1024%Z. cbn [fileState MaxInt.cntrs] in Hd.
  change (Data Scenario.cached1024 (Path Scenario.maxNode) (Name Scenario.maxNode))
    with (Some "1024") in Hd.
  injection Hd as <-. split; [reflexivity | lia].
Qed.

(** X5, on an example: a container that has cached 1024 writes 8192 to
    a host that holds 4096. *)
Lemma host_bounds_the_caches_witness :
  hostBounds (fun w : string => w) Scenario.maxNode
    (fst (MaxInt.Write string fileReadLine fileWriteFile fileIntn false
            Scenario.maxHandler Scenario.maxNode (Scenario.writeReq "8192" (Some 0%nat))
            (fileState "4096" Scenario.cached1024)))
  /\ hostBounds (fun w : string => w) Scenario.maxNode
       (fst (MaxInt.Read string fileReadLine
               Scenario.maxHandler Scenario.maxNode (Scenario.writeReq "8192" (Some 0%nat))
               (fileState "4096" Scenario.cached1024))).
Proof.
  apply (host_bounds_the_caches string fileReadLine fileWriteFile fileIntn
           (fun w => w) fileHost_ReadLine fileHost_WriteFile (fun w k => eq_refl)).
  exact hostBounds_fileState.
Defined.

(** X8, on an example, the scenario of two containers: the first
    writes 1024, then the second writes 2048, to a host that holds 512;
    the host ends with 2048. *)
Lemma writes_leave_the_maximum_witness :
  Go.Atoi (MaxInt.host string
             (fst (writeAll string fileReadLine fileWriteFile fileIntn false
                     Scenario.maxHandler Scenario.maxNode
                     [Scenario.writeReq "1024" (Some 0%nat);
                      Scenario.writeReq "2048" (Some 1%nat)]
                     (fileState "512" Scenario.emptyContainer))))
  = Some (fold_left Z.max [1024; 2048]%Z 512%Z)
  /\ hostBounds (fun w : string => w) Scenario.maxNode
       (fst (writeAll string fileReadLine fileWriteFile fileIntn false
               Scenario.maxHandler Scenario.maxNode
               [Scenario.writeReq "1024" (Some 0%nat);
                Scenario.writeReq "2048" (Some 1%nat)]
               (fileState "512" Scenario.emptyContainer))).
Proof.
  apply (writes_leave_the_maximum string fileReadLine fileWriteFile fileIntn
           (fun w => w) fileHost_ReadLine fileHost_WriteFile (fun w k => eq_refl)
           Scenario.maxHandler Scenario.maxNode
           [Scenario.writeReq "1024" (Some 0%nat); Scenario.writeReq "2048" (Some 1%nat)]
           [1024; 2048]%Z).
  - repeat constructor.
  - exists 512%Z. split; [reflexivity |]. intros r s Hd. vm_compute in Hd. discriminate Hd.
  - reflexivity.
  - repeat constructor.
Defined.

Example two_containers_keep_what_they_wrote :
  let st := fst (writeAll string fileReadLine fileWriteFile fileIntn false
                   Scenario.maxHandler Scenario.maxNode
                   [Scenario.writeReq "1024" (Some 0%nat);
                    Scenario.writeReq "2048" (Some 1%nat)]
                   (fileState "512" Scenario.emptyContainer)) in
  MaxInt.host string st = "2048"
  /\ Data (MaxInt.cntrs string st 0%nat) (Path Scenario.maxNode) (Name Scenario.maxNode)
     = Some "1024"
  /\ Data (MaxInt.cntrs string st 1%nat) (Path Scenario.maxNode) (Name Scenario.maxNode)
     = Some "2048".
Proof. repeat split; vm_compute; reflexivity. Qed.

End KeptHostFacts.

(** ** The max-integer handler: what the cache serves *)
Module MaxIntCacheFacts.
Import Domain MaxInt.

Section Cache.

Variable Host : Type.
Variable ReadLine : Host -> IOnode -> Host * (string * error).
Variable WriteFile : Host -> IOnode -> string -> Host * error.
Variable Intn : Host -> Z -> Host * Z.
Variable IgnoreErrors : bool.

Local Abbreviation State := (MaxInt.State Host).
Local Abbreviation Read := (MaxInt.Read Host ReadLine).
Local Abbreviation Write := (MaxInt.Write Host ReadLine WriteFile Intn IgnoreErrors).
Local Abbreviation cntrs := (MaxInt.cntrs Host).

(** A read by a container that has a value cached is served from the
    cache and leaves the state alone. *)
Lemma Read_cached (h : HandlerBase) (n : IOnode) (req : HandlerRequest) (st : State)
    (c : cref) (data : string) :
  Container req = Some c ->
  (Offset req <= 0)%Z ->
  Data (cntrs st c) (Path n) (Name n) = Some data ->
  Read h n req st = (st, (Some (data +:+ newline), None)).
Proof.
  intros Hc Hoff Hd. unfold MaxInt.Read.
  apply Z.ltb_ge in Hoff. rewrite Hoff, Hc, Hd. reflexivity.
Qed.

Lemma cached_after_set (st : State) (c : cref) (n : IOnode) (data : string) :
  Data (cntrs (MaxInt.setContainer Host st c (SetData (cntrs st c) (Path n) (Name n) data)) c)
    (Path n) (Name n) = Some data.
Proof.
  cbn [MaxInt.setContainer MaxInt.cntrs]. rewrite CommonFacts.update_same.
  apply CommonFacts.Data_SetData.
Qed.

(** X6.  Once a container has written a value, or has read one, the
    handler that holds the host's maximum serves that container's reads
    from its cache: a read that follows a successful write returns the
    text written, trimmed, and a read that follows a successful read
    returns the same line again; in both cases the second operation leaves
    the state as it found it, so it makes no access to the host and takes
    no lock. *)
Theorem reads_are_served_from_the_cache (h : HandlerBase) (n : IOnode)
    (req rreq : HandlerRequest) (st : State) (c : cref) :
  Container req = Some c ->
  Container rreq = Some c ->
  (Offset rreq <= 0)%Z ->
  (snd (snd (Write h n req st)) = None ->
   Read h n rreq (fst (Write h n req st))
   = (fst (Write h n req st),
      (Some (Go.TrimSpace (ReqData req) +:+ newline), None)))
  /\ (forall line : string,
         snd (Read h n req st) = (Some line, None) ->
         Read h n rreq (fst (Read h n req st))
         = (fst (Read h n req st), (Some line, None))).
Proof.
  intros Hc Hrc Hoff. split.
  - unfold MaxInt.Write. rewrite Hc.
    destruct (Go.Atoi (Go.TrimSpace (ReqData req))) as [v |]; [| discriminate].
    destruct (Data (cntrs st c) (Path n) (Name n)) as [curMax |].
    + destruct (Go.Atoi curMax) as [k |]; [| discriminate].
      destruct (v <=? k)%Z.
      * intros _. cbn [fst]. apply (Read_cached h n rreq _ c); auto using cached_after_set.
      * destruct (MaxInt.pushFile Host ReadLine WriteFile Intn IgnoreErrors n v st)
          as [st' [e |]]; [discriminate |].
        intros _. cbn [fst]. apply (Read_cached h n rreq _ c); auto using cached_after_set.
    + destruct (MaxInt.pushFile Host ReadLine WriteFile Intn IgnoreErrors n v st)
        as [st' [e |]]; [discriminate |].
      intros _. cbn [fst]. apply (Read_cached h n rreq _ c); auto using cached_after_set.
  - intros line. unfold MaxInt.Read at 1 3 4.
    destruct (0 <? Offset req)%Z; [discriminate |]. rewrite Hc.
    destruct (Data (cntrs st c) (Path n) (Name n)) as [data |] eqn:Hd.
    + cbn [fst snd]. intros [= <-]. apply (Read_cached h n rreq st c); assumption.
    + destruct (MaxInt.fetchFile Host ReadLine n st) as [st' [data err]].
      destruct (notEOF err); [discriminate |].
      cbn [fst snd]. intros [= <-].
      apply (Read_cached h n rreq _ c); auto using cached_after_set.
Qed.

End Cache.

(** X6, on an example: a container writes " 2048 " to a host that holds
    512 and reads the node back. *)
Lemma reads_are_served_from_the_cache_witness :
  MaxInt.Read string KeptHost.fileReadLine Scenario.maxHandler Scenario.maxNode
    (Scenario.writeReq "" (Some 0%nat))
    (fst (MaxInt.Write string KeptHost.fileReadLine KeptHost.fileWriteFile KeptHost.fileIntn
            false Scenario.maxHandler Scenario.maxNode
            (Scenario.writeReq " 2048 " (Some 0%nat))
            (KeptHost.fileState "512" Scenario.emptyContainer)))
  = (fst (MaxInt.Write string KeptHost.fileReadLine KeptHost.fileWriteFile KeptHost.fileIntn
            false Scenario.maxHandler Scenario.maxNode
            (Scenario.writeReq " 2048 " (Some 0%nat))
            (KeptHost.fileState "512" Scenario.emptyContainer)),
     (Some (Go.TrimSpace " 2048 " +:+ newline), None)).
Proof.
  apply (proj1 (reads_are_served_from_the_cache string KeptHost.fileReadLine
                  KeptHost.fileWriteFile KeptHost.fileIntn false
                  Scenario.maxHandler Scenario.maxNode
                  (Scenario.writeReq " 2048 " (Some 0%nat))
                  (Scenario.writeReq "" (Some 0%nat))
                  (KeptHost.fileState "512" Scenario.emptyContainer) 0%nat
                  eq_refl eq_refl ltac:(cbn; lia))).
  reflexivity.
Defined.

End MaxIntCacheFacts.

(** ** The pass-through handler of expire_quiescent_template *)
Module VsExpireFacts.
Import Domain.

Section PassThrough.

Variable Host : Type.
Variable ReadLine : Host -> IOnode -> Host * (string * error).
Variable WriteFile : Host -> IOnode -> string -> Host * error.

Local Abbreviation State := (MaxInt.State Host).
Local Abbreviation Write := (VsExpireQuiescentTemplate.Write Host WriteFile).
Local Abbreviation trace := (MaxInt.trace Host).
Local Abbreviation cntrs := (MaxInt.cntrs Host).

(** X7.  Every successful write to expire_quiescent_template reaches the
    host exactly once, whatever the host or the cache held, and as the
    canonical decimal form of the value: the text written may carry
    white space, a sign or leading zeros, the container's cache keeps it
    trimmed but otherwise as written, and the host is sent a string that
    reads back as the same integer.  A write that fails leaves every
    cache as it was. *)
Theorem Write_passes_the_value_through (h : HandlerBase) (n : IOnode)
    (req : HandlerRequest) (st : State) (c : cref) :
  Container req = Some c ->
  (forall k : Z,
      snd (Write h n req st) = (k, None) ->
      exists v : Z,
        Go.Atoi (Go.TrimSpace (ReqData req)) = Some v
        /\ k = Z.of_nat (String.length (ReqData req))
        /\ trace (fst (Write h n req st))
           = (trace st ++ [MaxInt.EvWriteFile (Go.Itoa v)])%list
        /\ Go.Atoi (Go.Itoa v) = Some v
        /\ Data (cntrs (fst (Write h n req st)) c) (Path n) (Name n)
           = Some (Go.TrimSpace (ReqData req)))
  /\ (snd (snd (Write h n req st)) <> None ->
      cntrs (fst (Write h n req st)) = cntrs st).
Proof.
  intros Hc. unfold VsExpireQuiescentTemplate.Write. rewrite Hc.
  destruct (Go.Atoi (Go.TrimSpace (ReqData req))) as [v |] eqn:Hv.
  - unfold VsExpireQuiescentTemplate.pushFile, MaxInt.writeFile.
    destruct (WriteFile (MaxInt.host Host st) n (Go.Itoa v)) as [w [e |]];
      cbn [fst snd MaxInt.trace MaxInt.emit MaxInt.setHost MaxInt.cntrs
           MaxInt.setContainer].
    + split; [intros k Hk; discriminate Hk | reflexivity].
    + split; [| intros Hx; contradiction].
      intros k [= <-]. exists v. repeat split.
      * apply NumFacts.Atoi_Itoa. exact (NumFacts.Atoi_range _ _ Hv).
      * rewrite CommonFacts.update_same. apply CommonFacts.Data_SetData.
  - cbn [fst snd]. split; [intros k Hk; discriminate Hk | reflexivity].
Qed.

End PassThrough.

(** X7, on an example: "+007" is written to a host that holds 1. *)
Lemma Write_passes_the_value_through_witness :
  exists v : Z,
    Go.Atoi (Go.TrimSpace " +007") = Some v
    /\ 5%Z = Z.of_nat (String.length " +007")
    /\ MaxInt.trace string
         (fst (VsExpireQuiescentTemplate.Write string KeptHost.fileWriteFile
                 Scenario.maxHandler Scenario.maxNode
                 (Scenario.writeReq " +007" (Some 0%nat))
                 (KeptHost.fileState "1" Scenario.emptyContainer)))
       = ([] ++ [MaxInt.EvWriteFile (Go.Itoa v)])%list
    /\ Go.Atoi (Go.Itoa v) = Some v
    /\ Data (MaxInt.cntrs string
               (fst (VsExpireQuiescentTemplate.Write string KeptHost.fileWriteFile
                       Scenario.maxHandler Scenario.maxNode
                       (Scenario.writeReq " +007" (Some 0%nat))
                       (KeptHost.fileState "1" Scenario.emptyContainer))) 0%nat)
         (Path Scenario.maxNode) (Name Scenario.maxNode)
       = Some (Go.TrimSpace " +007").
Proof.
  apply (proj1 (Write_passes_the_value_through string KeptHost.fileWriteFile
                  Scenario.maxHandler Scenario.maxNode
                  (Scenario.writeReq " +007" (Some 0%nat))
                  (KeptHost.fileState "1" Scenario.emptyContainer) 0%nat eq_refl) 5%Z).
  reflexivity.
Defined.

Example expire_quiescent_cache_and_host_differ_in_text :
  let st := fst (VsExpireQuiescentTemplate.Write string KeptHost.fileWriteFile
                   Scenario.maxHandler Scenario.maxNode
                   (Scenario.writeReq " +007" (Some 0%nat))
                   (KeptHost.fileState "1" Scenario.emptyContainer)) in
  MaxInt.host string st = "7"
  /\ Data (MaxInt.cntrs string st 0%nat) (Path Scenario.maxNode) (Name Scenario.maxNode)
     = Some "+007".
Proof. split; reflexivity. Qed.

End VsExpireFacts.

(** ** The table of container states *)
Module StateMapFacts.
Import Domain StateMap.

Section Registry.

Variable getPidNsInode : N -> option N.

Local Abbreviation register := (StateMap.register getPidNsInode).

(** X9.  Registration and unregistration are inverse to each other.  A
    container whose id is not in the table, as [NewContainerState]
    ensures, and that registers successfully is found under its id,
    carrying the inode of its pid namespace, and the inode leads to its id;
    unregistering the registered container then succeeds and leaves both
    tables exactly as they were before the registration. *)
Theorem register_then_unregister (c c' : ContainerState) (g g' : Globals) :
  ContainerStateMapGlobal g !! id c = None ->
  register c g = (c', g', None) ->
  lookup (ContainerStateMapGlobal g') (id c) = Some c'
  /\ getPidNsInode (initPid c) = Some (pidNsInode c')
  /\ pidNsGet (PidNsContainerMapGlobal g') (pidNsInode c') = Some (id c)
  /\ unregister c' g' = (g, None).
Proof.
  intros Hfresh. unfold StateMap.register.
  destruct (getPidNsInode (initPid c)) as [inode |]; [| discriminate].
  destruct (pidNsGet (PidNsContainerMapGlobal g) inode) eqn:Hino; [discriminate |].
  intros [= <- <-]. unfold pidNsGet in Hino.
  cbn [ContainerStateMapGlobal PidNsContainerMapGlobal setPidNsInode id pidNsInode].
  unfold lookup, get, set, pidNsGet, pidNsSet.
  unfold ContainerStateMap, PidNsContainerMap in *.
  rewrite !lookup_insert_eq. repeat split.
  unfold unregister, pidNsGet, get, delete, pidNsDelete.
  cbn [ContainerStateMapGlobal PidNsContainerMapGlobal setPidNsInode id pidNsInode].
  unfold ContainerStateMap, PidNsContainerMap in *.
  rewrite !lookup_insert_eq, String.eqb_refl. cbn [negb].
  rewrite !delete_insert_id by assumption. destruct g; reflexivity.
Qed.

(** X10.  The two tables stay in agreement: when they agree, registering
    a container whose id is not yet in the table leaves them in
    agreement, whether the registration succeeds or not, and so does
    unregistering any container. *)
Theorem registry_stays_consistent (c : ContainerState) (g : Globals) :
  consistent g ->
  (ContainerStateMapGlobal g !! id c = None -> consistent (snd (fst (register c g))))
  /\ consistent (fst (unregister c g)).
Proof.
  intros Hg. pose proof Hg as [Hid Hino].
  unfold ContainerStateMap, PidNsContainerMap in *. split.
  - intros Hfresh. unfold StateMap.register.
    destruct (getPidNsInode (initPid c)) as [inode |]; [| exact Hg].
    destruct (pidNsGet (PidNsContainerMapGlobal g) inode) eqn:Hnew; [exact Hg |].
    unfold pidNsGet in Hnew.
    cbn [fst snd setPidNsInode id]. unfold set, pidNsSet. split;
      cbn [ContainerStateMapGlobal PidNsContainerMapGlobal];
      unfold ContainerStateMap, PidNsContainerMap in *.
    + intros i c0 Hc0. destruct (decide (id c = i)) as [<- | Hne].
      * rewrite lookup_insert_eq in Hc0. injection Hc0 as <-.
        cbn [id pidNsInode]. rewrite lookup_insert_eq. split; reflexivity.
      * rewrite lookup_insert_ne in Hc0 by exact Hne.
        destruct (Hid i c0 Hc0) as [Hi Hp]. split; [exact Hi |].
        rewrite lookup_insert_ne; [exact Hp |]. intros Heq.
        rewrite Heq in Hnew. congruence.
    + intros ino i Hi. destruct (decide (inode = ino)) as [<- | Hne].
      * rewrite lookup_insert_eq in Hi. injection Hi as <-.
        eexists. rewrite lookup_insert_eq. split; reflexivity.
      * rewrite lookup_insert_ne in Hi by exact Hne.
        destruct (Hino ino i Hi) as (c0 & Hc0 & Hp). exists c0. split; [| exact Hp].
        rewrite lookup_insert_ne; [exact Hc0 |]. intros <-. congruence.
  - unfold unregister.
    destruct (pidNsGet (PidNsContainerMapGlobal g) (pidNsInode c)) as [cntrId |] eqn:Hp;
      [| exact Hg].
    destruct (String.eqb cntrId (id c)) eqn:He; cbn [negb]; [| exact Hg].
    apply String.eqb_eq in He. subst cntrId. unfold pidNsGet in Hp.
    destruct (get (ContainerStateMapGlobal g) (id c)) as [c0 |] eqn:Hc0; [| exact Hg].
    unfold get in Hc0. cbn [fst]. unfold delete, pidNsDelete. split;
      cbn [ContainerStateMapGlobal PidNsContainerMapGlobal];
      unfold ContainerStateMap, PidNsContainerMap in *.
    + intros i c1 Hc1. destruct (decide (id c = i)) as [<- | Hne].
      * rewrite lookup_delete_eq in Hc1. discriminate Hc1.
      * rewrite lookup_delete_ne in Hc1 by exact Hne.
        destruct (Hid i c1 Hc1) as [Hi Hq]. split; [exact Hi |].
        rewrite lookup_delete_ne; [exact Hq |]. intros Heq.
        rewrite <- Heq in Hq. congruence.
    + intros ino i Hi. destruct (decide (pidNsInode c = ino)) as [<- | Hne].
      * rewrite lookup_delete_eq in Hi. discriminate Hi.
      * rewrite lookup_delete_ne in Hi by exact Hne.
        destruct (Hino ino i Hi) as (c1 & Hc1 & Hq). exists c1. split; [| exact Hq].
        rewrite lookup_delete_ne; [exact Hc1 |]. intros <-.
        destruct (Hino _ _ Hp) as (c2 & Hc2 & Hq2). congruence.
Qed.

End Registry.

Lemma consistent_noGlobals : consistent noGlobals.
Proof.
  split; intros ? ? H; vm_compute in H; discriminate H.
Qed.

(** X9, on an example: container c1, whose init process is 1001. *)
Lemma register_then_unregister_witness :
  lookup (ContainerStateMapGlobal (snd (fst (StateMap.register inodeOf (newState "c1" 1001) noGlobals))))
    "c1"
  = Some (setPidNsInode (newState "c1" 1001) 4026532837)
  /\ unregister (setPidNsInode (newState "c1" 1001) 4026532837)
       (snd (fst (StateMap.register inodeOf (newState "c1" 1001) noGlobals)))
     = (noGlobals, None).
Proof.
  destruct (register_then_unregister inodeOf (newState "c1" 1001)
              (setPidNsInode (newState "c1" 1001) 4026532837)
              noGlobals
              (snd (fst (StateMap.register inodeOf (newState "c1" 1001) noGlobals)))
              eq_refl eq_refl) as (H1 & _ & _ & H4).
  split; [exact H1 | exact H4].
Defined.

(** X10, on an example: the registration of c1 in the empty tables. *)
Lemma registry_stays_consistent_witness :
  consistent (snd (fst (StateMap.register inodeOf (newState "c1" 1001) noGlobals))).
Proof.
  apply (proj1 (registry_stays_consistent inodeOf (newState "c1" 1001) noGlobals
                  consistent_noGlobals)).
  reflexivity.
Defined.

(** [register] itself does not look the id up: registering a second
    container under an id that is taken replaces the first one and leaves
    the inode of the first one pointing to the id. *)
Example register_does_not_check_the_id :
  let g1 := snd (fst (StateMap.register inodeOf (newState "c1" 1001) noGlobals)) in
  let g2 := snd (fst (StateMap.register inodeOf (newState "c1" 2002) g1)) in
  snd (StateMap.register inodeOf (newState "c1" 2002) g1) = None
  /\ PidNsContainerMapGlobal g2 !! 4026532837%N = Some "c1"
  /\ option_map pidNsInode (ContainerStateMapGlobal g2 !! "c1") = Some 4026533838%N.
Proof. repeat split; vm_compute; reflexivity. Qed.

End StateMapFacts.

(** ** The FUSE directory node *)
Module FuseDirFacts.
Import Domain FuseDir.

Section Service.

Variable World : Type.
Variable Handler : Type.
Variable NewIOnode : string -> string -> N -> IOnode.
Variable statToAttr : Process.Stat_t -> Attr.
Variable LookupHandler : IOnode -> option Handler.
Variable handlerLookup :
  Handler -> IOnode -> HandlerRequest -> World -> World * (option OsFileInfo * error).
Variable handlerReadDirAll :
  Handler -> IOnode -> HandlerRequest -> World -> World * (list OsFileInfo * error).

Local Abbreviation Service := (FuseService World).
Local Abbreviation Lookup :=
  (FuseDir.Lookup World Handler NewIOnode statToAttr LookupHandler handlerLookup).
Local Abbreviation ReadDirAll :=
  (FuseDir.ReadDirAll World Handler LookupHandler handlerReadDirAll).
Local Abbreviation nodeDB := (FuseDir.nodeDB World).

(** X11.  The service hands out one node per path.  A lookup never
    removes or replaces a node of the node table; and once a lookup of a
    name in a directory has returned a node, every later lookup of that
    name in that directory, by any process, returns the same node and
    leaves the service as it is: no handler is asked again. *)
Theorem Lookup_hands_out_one_node_per_path (d : Node) (hdr : Header) (reqName : string)
    (s : Service) :
  (forall (q : string) (node : Node),
      nodeDB s !! q = Some node ->
      nodeDB (fst (Lookup d hdr reqName s)) !! q = Some node)
  /\ (forall (node : Node) (entryValid : option Z) (hdr' : Header),
         snd (Lookup d hdr reqName s) = Ret (Some node, entryValid, None) ->
         Lookup d hdr' reqName (fst (Lookup d hdr reqName s))
         = (fst (Lookup d hdr reqName s), Ret (Some node, None, None))).
Proof.
  unfold FuseDir.Lookup.
  destruct (nodeDB s !! Go.Join [path d; reqName]) as [found |] eqn:Hdb.
  - cbn [fst snd]. split; [auto |].
    intros node entryValid hdr' [= <- <-]. rewrite Hdb. reflexivity.
  - destruct (LookupHandler (NewIOnode reqName (Go.Join [path d; reqName]) 0))
      as [handler |]; [| cbn [fst snd]; split; [auto | discriminate]].
    destruct (handlerLookup handler _ (request hdr) (FuseDir.world World s))
      as [w [[info |] [e |]]]; cbn [fst snd FuseDir.nodeDB];
      try (split; [auto | discriminate]).
    destruct (fi_Sys info) as [stat |]; cbn [fst snd FuseDir.nodeDB];
      [| split; [auto | discriminate]].
    split.
    + intros q node Hq. destruct (decide (Go.Join [path d; reqName] = q)) as [<- | Hne].
      * rewrite Hdb in Hq. discriminate Hq.
      * rewrite lookup_insert_ne by exact Hne. exact Hq.
    + intros node entryValid hdr' [= <- <-]. rewrite lookup_insert_eq. reflexivity.
Qed.

Lemma addChild_names (d : Node) (files : list OsFileInfo) :
  forall children : list Dirent,
    map d_Name (fold_left (addChild d) files children)
    = (map d_Name children
       ++ (if String.eqb (path d) "/"
           then List.filter rootVisible (map fi_Name files)
           else map fi_Name files))%list.
Proof.
  induction files as [| f files IH]; intros children; cbn [fold_left map List.filter].
  - destruct (String.eqb (path d) "/"); rewrite app_nil_r; reflexivity.
  - rewrite IH. unfold addChild, rootVisible.
    destruct (String.eqb (path d) "/"); cbn [andb].
    + destruct (String.eqb (fi_Name f) "sys"); cbn [negb andb orb];
        [rewrite map_app, <- app_assoc; reflexivity |].
      destruct (String.eqb (fi_Name f) "proc"); cbn [negb andb orb];
        [rewrite map_app, <- app_assoc; reflexivity |].
      destruct (String.eqb (fi_Name f) "testing"); cbn [negb andb orb];
        [rewrite map_app, <- app_assoc; reflexivity | reflexivity].
    + rewrite map_app, <- app_assoc. reflexivity.
Qed.

(** X12.  [ReadDirAll] lists what the handler of the directory returns,
    in the handler's order: for the root directory "/" only the entries
    named sys, proc and testing, for every other directory all of
    them. *)
Theorem ReadDirAll_lists_the_handler_entries (d : Node) (hdr : Header) (s : Service)
    (handler : Handler) (w : World) (files : list OsFileInfo) :
  LookupHandler (ionode d) = Some handler ->
  handlerReadDirAll handler (ionode d) (request hdr) (FuseDir.world World s)
  = (w, (files, None)) ->
  snd (snd (ReadDirAll d hdr s)) = None
  /\ map d_Name (fst (snd (ReadDirAll d hdr s)))
     = (if String.eqb (path d) "/"
        then List.filter rootVisible (map fi_Name files)
        else map fi_Name files).
Proof.
  intros Hh Hr. unfold FuseDir.ReadDirAll. rewrite Hh, Hr. cbn [fst snd].
  split; [reflexivity |]. rewrite addChild_names. reflexivity.
Qed.

End Service.

(** X11, on an example: /proc/sys/kernel is looked up twice; the
    handler is asked once. *)
Lemma Lookup_hands_out_one_node_per_path_witness :
  FuseDir.world _
    (fst (FuseDir.Lookup _ _ simNewIOnode simStatToAttr simLookupHandler
            simHandlerLookup procSys someone "kernel" emptyService))
  = ["/proc/sys/kernel"]
  /\ fst (FuseDir.Lookup _ _ simNewIOnode simStatToAttr simLookupHandler
            simHandlerLookup procSys someone "kernel"
            (fst (FuseDir.Lookup _ _ simNewIOnode simStatToAttr simLookupHandler
                    simHandlerLookup procSys someone "kernel" emptyService)))
     = fst (FuseDir.Lookup _ _ simNewIOnode simStatToAttr simLookupHandler
              simHandlerLookup procSys someone "kernel" emptyService).
Proof.
  split; [reflexivity |].
  rewrite (proj2 (Lookup_hands_out_one_node_per_path _ _ simNewIOnode simStatToAttr
                    simLookupHandler simHandlerLookup procSys someone "kernel"
                    emptyService) _ _ someone eq_refl).
  reflexivity.
Defined.

(** X12, on an example: the root directory. *)
Lemma ReadDirAll_lists_the_handler_entries_witness :
  snd (snd (FuseDir.ReadDirAll _ _ simLookupHandler simHandlerReadDirAll
              rootDir someone emptyService)) = None
  /\ map d_Name (fst (snd (FuseDir.ReadDirAll _ _ simLookupHandler simHandlerReadDirAll
                             rootDir someone emptyService)))
     = ["proc"; "sys"].
Proof.
  apply (ReadDirAll_lists_the_handler_entries _ _ simLookupHandler simHandlerReadDirAll
           rootDir someone emptyService tt []
           [simInfo "bin" true; simInfo "proc" true; simInfo "etc" true;
            simInfo "sys" true; simInfo "swapfile" false]); reflexivity.
Defined.

End FuseDirFacts.

(** ** The /proc/uptime handler *)
Module UptimeFacts.
Import Domain ProcUptime.

Lemma copyBytes_length (n : nat) :
  forall dst src : string, String.length (copyBytes n dst src) = String.length dst.
Proof.
  induction n as [| n IH]; intros dst src; [reflexivity |].
  destruct dst as [| a dst]; [reflexivity |].
  destruct src as [| c src]; [reflexivity |].
  cbn [copyBytes String.length]. rewrite IH. reflexivity.
Qed.

Lemma copyBytes_get (n : nat) :
  forall (dst src : string) (i : nat),
    String.get i (copyBytes n dst src)
    = if (i <? Nat.min n (Nat.min (String.length dst) (String.length src)))%nat
      then String.get i src else String.get i dst.
Proof.
  induction n as [| n IH]; intros dst src i; [reflexivity |].
  destruct dst as [| a dst]; [reflexivity |].
  destruct src as [| c src]; [reflexivity |].
  cbn [copyBytes String.length Nat.min].
  destruct i as [| i]; [reflexivity |].
  cbn [String.get]. rewrite IH. reflexivity.
Qed.

Section Handler.

Variable Container : Type.
Variable NewIOnode : string -> string -> N -> IOnode.
Variable PidNsInode : IOnode -> N * error.
Variable ContainerLookupByPid : N -> option Container.
Variable Ctime : Container -> Z.
Variable Now : Z.

Local Abbreviation Read :=
  (ProcUptime.Read Container NewIOnode PidNsInode ContainerLookupByPid Ctime Now).
Local Abbreviation uptimeLine := (ProcUptime.uptimeLine Container Ctime Now).

(** X13.  A read of /proc/uptime at the start of the file, by a process
    of a known container, reports the length of the whole line,
    "<seconds> <seconds>\n", whatever the length of the buffer.  The
    bytes copied are as many as the buffer is long: a buffer shorter than
    the line receives the start of the line and is told of more bytes
    than it holds.  When the line exceeds even the capacity of the
    buffer, the handler panics. *)
Theorem Read_reports_the_length_of_the_line (n : IOnode) (pid : N) (buf : Slice)
    (off : Z) (pidInode : N) (cntr : Container) :
  (off <= 0)%Z ->
  (len buf <= cap buf)%nat ->
  PidNsInode (NewIOnode "" (Go.Itoa (Z.of_N pid)) 0) = (pidInode, None) ->
  ContainerLookupByPid pidInode = Some cntr ->
  ((cap buf < String.length (uptimeLine cntr))%nat -> Read n pid buf off = Panic)
  /\ ((String.length (uptimeLine cntr) <= cap buf)%nat ->
      exists buf' : Slice,
        Read n pid buf off
        = Ret (buf', (Z.of_nat (String.length (uptimeLine cntr)), None))
        /\ len buf' = len buf
        /\ cap buf' = cap buf
        /\ forall i : nat,
             String.get i (backing buf')
             = if (i <? Nat.min (len buf) (String.length (uptimeLine cntr)))%nat
               then String.get i (uptimeLine cntr)
               else String.get i (backing buf)).
Proof.
  intros Hoff Hlen Hino Hcntr. unfold ProcUptime.Read.
  apply Z.ltb_ge in Hoff. rewrite Hoff, Hino, Hcntr. cbv zeta. split.
  - intros Hcap. apply Nat.ltb_lt in Hcap. rewrite Hcap. reflexivity.
  - intros Hcap. pose proof Hcap as Hc. apply Nat.ltb_ge in Hc. rewrite Hc.
    eexists. split; [reflexivity |].
    unfold copy, cap in *. cbn [len backing].
    split; [reflexivity |]. split; [apply copyBytes_length |].
    intros i. rewrite copyBytes_get.
    replace (Nat.min (len buf)
               (Nat.min (String.length (backing buf)) (String.length (uptimeLine cntr))))
      with (Nat.min (len buf) (String.length (uptimeLine cntr))) by lia.
    reflexivity.
Qed.

End Handler.

(** X13, on an example: a container created at second 1000 is read at
    second 1123 into a buffer of 4 bytes with room for 16. *)
Lemma Read_reports_the_length_of_the_line_witness :
  exists buf' : Slice,
    ProcUptime.Read Z FuseDir.simNewIOnode simPidNsInode simContainers (fun t => t) 1123
      uptimeNode 1001 (zeroed 4 16) 0
    = Ret (buf', (Z.of_nat (String.length ("123 123" +:+ newline)), None))
    /\ len buf' = 4%nat
    /\ cap buf' = 16%nat
    /\ forall i : nat,
         String.get i (backing buf')
         = if (i <? Nat.min 4 (String.length ("123 123" +:+ newline)))%nat
           then String.get i ("123 123" +:+ newline)
           else String.get i (backing (zeroed 4 16)).
Proof.
  apply (proj2 (Read_reports_the_length_of_the_line Z FuseDir.simNewIOnode simPidNsInode
                  simContainers (fun t => t) 1123 uptimeNode 1001 (zeroed 4 16) 0
                  4026531836%N 1000%Z ltac:(lia) ltac:(vm_compute; lia) eq_refl eq_refl)).
  vm_compute. lia.
Defined.

Example uptime_short_buffer_and_no_room :
  ProcUptime.Read Z FuseDir.simNewIOnode simPidNsInode simContainers (fun t => t) 1123
    uptimeNode 1001 (zeroed 4 16) 0
  = Ret ({| backing := "123 " +:+ Scenario.buffer 12; len := 4 |}, (8%Z, None))
  /\ ProcUptime.Read Z FuseDir.simNewIOnode simPidNsInode simContainers (fun t => t) 1123
       uptimeNode 1001 (zeroed 4 4) 0
     = Panic.
Proof. split; vm_compute; reflexivity. Qed.

End UptimeFacts.

(** ** The namespace-enter events *)
Module NSenterFacts.
Import Domain NSenter Go PathShape GoFacts.

Lemma Itoa_of_N (n : N) : Itoa (Z.of_N n) = FormatUint n.
Proof. destruct n; reflexivity. Qed.

Lemma Itoa_of_N_name (n : N) : isName (Itoa (Z.of_N n)) = true.
Proof.
  rewrite Itoa_of_N. apply ConfineFacts.digits_isName.
  - apply ConfineFacts.FormatUint_digits.
  - unfold FormatUint. destruct (N.to_uint n); discriminate.
Qed.

Lemma name_not_abs (c t : string) : isName c = true -> IsAbs (c +:+ t) = false.
Proof.
  intros H. pose proof (isName_noSlash c H) as Hs.
  destruct c as [| x c]; [discriminate H |]. rewrite append_cons.
  cbn [hasSlash] in Hs. apply orb_false_iff in Hs. destruct Hs as [Hx _].
  unfold IsAbs, HasPrefix. cbn [String.prefix].
  unfold isSlash in Hx. rewrite Ascii.eqb_sym in Hx.
  destruct (ascii_dec "/" x) as [<- | Hne]; [discriminate Hx | reflexivity].
Qed.

Lemma name_nonempty (c : string) : isName c = true -> String.eqb c "" = false.
Proof. destruct c; [discriminate | reflexivity]. Qed.

Ltac normalize_append :=
  repeat first [ rewrite append_cons
               | rewrite append_assoc
               | progress change (EmptyString +:+ ?b) with b ].

(** The path [namespacePaths] builds for one namespace type. *)
Lemma namespacePath_Join (ns pid : string) :
  isName ns = true -> isName pid = true ->
  Join [ns; ":/proc/"; pid; "/ns/"; ns] = ns +:+ "/:/proc/" +:+ pid +:+ "/ns/" +:+ ns.
Proof.
  intros Hns Hpid. cbn [Join]. rewrite (name_nonempty ns Hns).
  assert (Hraw : String.concat "/" [ns; ":/proc/"; pid; "/ns/"; ns]
                 = String.concat "/" [ns; ":"; "proc"; ""; pid; ""; "ns"; ""; ns]).
  { cbn [String.concat]. normalize_append. reflexivity. }
  rewrite Hraw. clear Hraw.
  assert (Hall : Forall (fun c => hasSlash c = false)
                   [ns; ":"; "proc"; ""; pid; ""; "ns"; ""; ns]).
  { pose proof (isName_noSlash ns Hns). pose proof (isName_noSlash pid Hpid).
    repeat constructor; assumption. }
  assert (Hnd : forallb (fun c => negb (String.eqb c ".."))
                  [ns; ":"; "proc"; ""; pid; ""; "ns"; ""; ns] = true).
  { pose proof (names_noDotDot [ns; pid] ltac:(repeat constructor; assumption)) as H.
    cbn [forallb] in *. apply andb_true_iff in H. destruct H as [H1 H2].
    apply andb_true_iff in H2. destruct H2 as [H2 _]. rewrite H1, H2. reflexivity. }
  unfold Clean.
  assert (Hne : String.eqb (String.concat "/" [ns; ":"; "proc"; ""; pid; ""; "ns"; ""; ns]) ""
                = false).
  { cbn [String.concat]. destruct ns; [discriminate Hns | reflexivity]. }
  assert (Habs : IsAbs (String.concat "/" [ns; ":"; "proc"; ""; pid; ""; "ns"; ""; ns])
                 = false).
  { cbn [String.concat]. apply name_not_abs. exact Hns. }
  rewrite Hne, Habs, (Split_concat _ Hall) by discriminate.
  destruct (fold_cleanStep false _ [] Hall Hnd) as [-> _].
  rewrite app_nil_r, rev_involutive.
  assert (Hk : List.filter kept [ns; ":"; "proc"; ""; pid; ""; "ns"; ""; ns]
               = [ns; ":"; "proc"; pid; "ns"; ns]).
  { pose proof (filter_kept_names [ns] ltac:(repeat constructor; assumption)) as H1.
    pose proof (filter_kept_names [pid] ltac:(repeat constructor; assumption)) as H2.
    cbn [List.filter] in *.
    destruct (kept ns); [| discriminate H1]. destruct (kept pid); [| discriminate H2].
    reflexivity. }
  rewrite Hk. cbn [String.concat]. normalize_append. reflexivity.
Qed.

Lemma namespacePaths_fold (pid : N) (nss : list NStype) :
  forall acc : list string,
    Forall (fun ns => isName ns = true) nss ->
    fold_left
      (fun paths nstype =>
         (paths ++ [Join [nstype; ":/proc/"; Itoa (Z.of_N pid); "/ns/"; nstype]])%list)
      nss acc
    = (acc ++ map (fun ns => ns +:+ "/:/proc/" +:+ Itoa (Z.of_N pid) +:+ "/ns/" +:+ ns) nss)%list.
Proof.
  induction nss as [| ns nss IH]; intros acc Hall; cbn [fold_left map].
  - rewrite app_nil_r. reflexivity.
  - inversion Hall as [| ? ? Hns Hnss]; subst.
    rewrite (IH _ Hnss), (namespacePath_Join ns _ Hns (Itoa_of_N_name pid)).
    rewrite <- app_assoc. reflexivity.
Qed.

(** X14.  For namespace types that are plain names, [namespacePaths]
    yields, for each type, the string "<type>/:/proc/<pid>/ns/<type>":
    [filepath.Join] puts a separator after the type and removes the
    doubled ones, so that the result is not the "<type>:/proc/<pid>/ns/<type>"
    its comment announces. *)
Theorem namespacePaths_format (e : NSenterEvent) :
  Forall (fun ns => isName ns = true) (Namespace e) ->
  namespacePaths e
  = map (fun ns => ns +:+ "/:/proc/" +:+ Itoa (Z.of_N (Pid e)) +:+ "/ns/" +:+ ns)
      (Namespace e).
Proof. intros Hall. unfold namespacePaths. apply namespacePaths_fold. exact Hall. Qed.

Lemma namespacePaths_format_witness :
  namespacePaths (readRequest "/proc/sys/net/ipv4/ip_forward")
  = map (fun ns => ns +:+ "/:/proc/" +:+ Itoa (Z.of_N 1001) +:+ "/ns/" +:+ ns) ["net"].
Proof.
  apply (namespacePaths_format (readRequest "/proc/sys/net/ipv4/ip_forward")).
  repeat constructor.
Defined.

Example namespacePaths_net :
  namespacePaths (readRequest "/proc/sys/net/ipv4/ip_forward") = ["net/:/proc/1001/ns/net"].
Proof. reflexivity. Qed.

Section InContainer.

Variable FS : Type.
Variable os_Stat : FS -> string -> Info + GoError.
Variable os_OpenFile : FS -> string -> Z -> N -> FS * error.
Variable ioutil_ReadFile : FS -> string -> string + GoError.
Variable ioutil_WriteFile : FS -> string -> string -> N -> FS * error.
Variable ioutil_ReadDir : FS -> string -> list Info + GoError.
Variable json_Marshal : NSenterMessage -> string + GoError.
Variable Error : GoError -> string.

Hypothesis Marshal_total : forall msg : NSenterMessage, exists data, json_Marshal msg = inl data.

Local Abbreviation Init :=
  (NSenter.Init FS os_Stat os_OpenFile ioutil_ReadFile ioutil_WriteFile ioutil_ReadDir
     json_Marshal Error).

(** X15.  The helper that runs inside the container answers a request
    it can decode, with a pipe it can find and messages it can encode, in
    all cases but two: [Init] returns an error and writes nothing to the
    pipe exactly when the request was to read a file or a directory and
    the read failed, although an error response had been prepared for the
    caller.  The failures of a lookup, an open or a write do reach the
    caller, as an ErrorResponse; and the content of a file that was read
    is sent trimmed. *)
Theorem Init_leaves_failed_reads_unanswered (envInitPipe : string) (pipefd : Z)
    (e : NSenterEvent) (req : NSenterMessage) (fs : FS) :
  Atoi envInitPipe = Some pipefd ->
  ReqMsg e = Some req ->
  (forall err : GoError,
      snd (Init envInitPipe (DecodedEvent e) fs) = Failed err
      <-> (Type_ req = ReadFileRequest /\ ioutil_ReadFile fs (Resource e) = inr err)
          \/ (Type_ req = ReadDirRequest /\ ioutil_ReadDir fs (Resource e) = inr err))
  /\ (forall err : GoError,
         (Type_ req = LookupRequest /\ os_Stat fs (Resource e) = inr err)
         \/ (exists (s : string) (flags : Z),
                Type_ req = OpenFileRequest /\ Payload_ req = PStr s /\ Atoi s = Some flags
                /\ snd (os_OpenFile fs (Resource e) flags 0) = Some err)
         \/ (exists content : string,
                Type_ req = WriteFileRequest /\ Payload_ req = PStr content
                /\ snd (ioutil_WriteFile fs (Resource e) content 420) = Some err) ->
         exists data,
           snd (Init envInitPipe (DecodedEvent e) fs) = Responded (errorResponse err) data)
  /\ (forall content : string,
         Type_ req = ReadFileRequest ->
         ioutil_ReadFile fs (Resource e) = inl content ->
         exists data,
           snd (Init envInitPipe (DecodedEvent e) fs)
           = Responded {| Type_ := ReadFileResponse; Payload_ := PStr (TrimSpace content) |}
               data).
Proof.
  intros Henv Hreq. unfold NSenter.Init, processRequest. rewrite Henv, Hreq.
  split; [| split].
  - intros err. split.
    + destruct (Type_ req) eqn:Ht;
        unfold processLookupRequest, processOpenFileRequest, processFileReadRequest,
          processFileWriteRequest, processDirReadRequest.
      all: repeat first
             [ match goal with
               | |- context [match os_Stat ?a ?b with _ => _ end] => destruct (os_Stat a b)
               | |- context [match i_Sys ?a with _ => _ end] => destruct (i_Sys a)
               | |- context [match Payload_ ?a with _ => _ end] => destruct (Payload_ a)
               | |- context [match Atoi ?a with _ => _ end] => destruct (Atoi a)
               | |- context [match os_OpenFile ?a ?b ?c ?d with _ => _ end] =>
                   destruct (os_OpenFile a b c d) as [? [?|]]
               | |- context [match ioutil_WriteFile ?a ?b ?c ?d with _ => _ end] =>
                   destruct (ioutil_WriteFile a b c d) as [? [?|]]
               | |- context [match ioutil_ReadFile ?a ?b with _ => _ end] =>
                   destruct (ioutil_ReadFile a b) eqn:?
               | |- context [match ioutil_ReadDir ?a ?b with _ => _ end] =>
                   destruct (ioutil_ReadDir a b) eqn:?
               | |- context [match dirContentList ?a with _ => _ end] =>
                   destruct (dirContentList a)
               | |- context [match ResMsg ?a with _ => _ end] => destruct (ResMsg a)
               | |- context [json_Marshal ?m] =>
                   let d := fresh "data" in destruct (Marshal_total m) as [d ->]
               end
             | progress cbn [fst snd ResMsg setResMsg] ].
      all: try (intros Hx; discriminate Hx).
      all: intros [= <-]; auto.
    + intros [[Ht Hr] | [Ht Hr]]; rewrite Ht.
      * unfold processFileReadRequest. rewrite Hr. reflexivity.
      * unfold processDirReadRequest. rewrite Hr. reflexivity.
  - intros err [[Ht Hr] | [(s & flags & Ht & Hp & Hs & Hr) | (content & Ht & Hp & Hr)]];
      rewrite Ht.
    + unfold processLookupRequest. rewrite Hr. cbn [ResMsg setResMsg].
      destruct (Marshal_total (errorResponse err)) as [data ->]. eauto.
    + unfold processOpenFileRequest. rewrite Hp, Hs.
      destruct (os_OpenFile fs (Resource e) flags 0) as [fs' oerr]. cbn [snd] in Hr.
      subst oerr. cbn [ResMsg setResMsg].
      destruct (Marshal_total (errorResponse err)) as [data ->]. eauto.
    + unfold processFileWriteRequest. rewrite Hp.
      destruct (ioutil_WriteFile fs (Resource e) content 420) as [fs' werr]. cbn [snd] in Hr.
      subst werr. cbn [ResMsg setResMsg].
      destruct (Marshal_total (errorResponse err)) as [data ->]. eauto.
  - intros content Ht Hr. rewrite Ht. unfold processFileReadRequest. rewrite Hr.
    cbn [ResMsg setResMsg].
    match goal with
    | |- context [json_Marshal ?m] => destruct (Marshal_total m) as [data ->]
    end. eauto.
Qed.

End InContainer.

(** X15, on an example: a file that does not exist is read, and a file
    that does not exist is looked up. *)
Lemma Init_leaves_failed_reads_unanswered_witness :
  snd (NSenter.Init unit simStat simOpenFile simReadFile simWrite simReadDir simMarshal
         simError "3" (DecodedEvent (readRequest "/proc/sys/net/ipv4/missing")) tt)
  = Failed (ErrErrno Process.ENOENT).
Proof.
  apply (proj1 (Init_leaves_failed_reads_unanswered unit simStat simOpenFile simReadFile
                  simWrite simReadDir simMarshal simError
                  (fun msg => ex_intro _ "{}" eq_refl)
                  "3" 3 (readRequest "/proc/sys/net/ipv4/missing")
                  {| Type_ := ReadFileRequest;
                     Payload_ := PStr "/proc/sys/net/ipv4/missing" |} tt
                  eq_refl eq_refl)).
  left. split; reflexivity.
Defined.

End NSenterFacts.

(** ** Reading /proc/[pid]/status *)
Module StatusFacts.
Import Domain Go ProcInfo PathShape GoFacts.

(** *** Digits *)

Lemma digit_cases (c : ascii) :
  digitVal c <> None ->
  In c ["0"; "1"; "2"; "3"; "4"; "5"; "6"; "7"; "8"; "9"]%char.
Proof.
  destruct c as [[] [] [] [] [] [] [] []]; intros H;
    try (exfalso; apply H; reflexivity); cbn; tauto.
Qed.

Ltac by_digit c H :=
  let Hc := fresh in
  pose proof (digit_cases c H) as Hc; cbn [In] in Hc;
  repeat (destruct Hc as [Hc | Hc]; [subst c |]); [.. | contradiction].

Lemma allDigits_head (c : ascii) (s : string) :
  allDigits (String c s) = true -> digitVal c <> None /\ allDigits s = true.
Proof.
  cbn [allDigits]. intros H. apply andb_true_iff in H. destruct H as [Hc Hs].
  split; [| exact Hs]. destruct (digitVal c); [discriminate | discriminate Hc].
Qed.

Lemma digit_not_reSpace (c : ascii) : digitVal c <> None -> reSpace c = false.
Proof. intros H. by_digit c H; reflexivity. Qed.

Lemma digit_not_blank (c : ascii) : digitVal c <> None -> Ascii.eqb c " " = false.
Proof. intros H. by_digit c H; reflexivity. Qed.

(** A number starts with a digit and ends with one. *)
Lemma number_head (s : string) :
  isNumber s = true -> exists c r, s = String c r /\ digitVal c <> None.
Proof.
  unfold isNumber. intros H. apply andb_true_iff in H. destruct H as [Hd Hne].
  destruct s as [| c r]; [discriminate Hne |].
  exists c, r. split; [reflexivity | apply (allDigits_head c r Hd)].
Qed.

Lemma digits_last (s : string) :
  allDigits s = true -> s <> "" ->
  exists s0 d, s = s0 +:+ String d "" /\ digitVal d <> None.
Proof.
  induction s as [| c s IH]; intros Hd Hne; [congruence |].
  destruct (allDigits_head c s Hd) as [Hc Hs].
  destruct s as [| c' s'].
  - exists "", c. split; [reflexivity | exact Hc].
  - destruct (IH Hs ltac:(discriminate)) as (s0 & d & Heq & Hdd).
    exists (String c s0), d. rewrite append_cons, <- Heq. split; [reflexivity | exact Hdd].
Qed.

Lemma number_last (s : string) :
  isNumber s = true -> exists s0 d, s = s0 +:+ String d "" /\ digitVal d <> None.
Proof.
  unfold isNumber. intros H. apply andb_true_iff in H. destruct H as [Hd Hne].
  apply digits_last; [exact Hd |]. intros ->. discriminate Hne.
Qed.

(** *** [strings.TrimSpace] around numbers *)

Lemma trimLeft_digit (spaces : list string) (fuel : nat) (c : ascii) (r : string) :
  digitVal c <> None ->
  (spaces = unicodeSpaces \/ spaces = map strRev unicodeSpaces) ->
  trimLeftWith spaces fuel (String c r) = String c r.
Proof.
  intros Hc Hsp. destruct fuel as [| fuel]; [reflexivity |].
  destruct Hsp as [-> | ->]; by_digit c Hc; reflexivity.
Qed.

Lemma trimLeft_blank (spaces : list string) (fuel : nat) (r : string) :
  trimLeftWith spaces (S fuel) (String " " r) = trimLeftWith spaces fuel r.
Proof. reflexivity. Qed.

Lemma list_ascii_app (a b : string) :
  list_ascii_of_string (a +:+ b) = (list_ascii_of_string a ++ list_ascii_of_string b)%list.
Proof.
  induction a as [| x a IH]; [reflexivity |].
  rewrite append_cons. cbn [list_ascii_of_string app]. rewrite IH. reflexivity.
Qed.

Lemma strRev_snoc (s : string) (d : ascii) :
  strRev (s +:+ String d "") = String d (strRev s).
Proof.
  unfold strRev. rewrite list_ascii_app. cbn [list_ascii_of_string].
  rewrite rev_app_distr. reflexivity.
Qed.

Lemma strRev_involutive (s : string) : strRev (strRev s) = s.
Proof.
  unfold strRev. rewrite list_ascii_of_string_of_list_ascii, rev_involutive.
  apply string_of_list_ascii_of_string.
Qed.

Lemma length_snoc (s : string) (d : ascii) :
  String.length (s +:+ String d "") = S (String.length s).
Proof. rewrite length_append. cbn [String.length]. lia. Qed.

(** A string that starts with a digit and ends with a digit, alone,
    after a space, or between two spaces, is trimmed to itself. *)
Lemma TrimSpace_around (c d : ascii) (r s0 : string) :
  digitVal c <> None -> digitVal d <> None ->
  String c r = s0 +:+ String d "" ->
  TrimSpace (String c r) = String c r
  /\ TrimSpace (String " " (String c r)) = String c r
  /\ TrimSpace (String " " (String c r +:+ " ")) = String c r.
Proof.
  intros Hc Hd Heq.
  assert (Hback : forall fuel,
             strRev (trimLeftWith (map strRev unicodeSpaces) fuel (strRev (String c r)))
             = String c r).
  { intros fuel. rewrite Heq, strRev_snoc.
    rewrite (trimLeft_digit _ fuel d (strRev s0) Hd (or_intror eq_refl)).
    rewrite <- strRev_snoc. apply strRev_involutive. }
  unfold TrimSpace. repeat split.
  - cbn [String.length].
    rewrite (trimLeft_digit _ _ c r Hc (or_introl eq_refl)). apply Hback.
  - cbn [String.length]. rewrite trimLeft_blank.
    rewrite (trimLeft_digit _ _ c r Hc (or_introl eq_refl)). apply Hback.
  - cbn [String.length]. rewrite trimLeft_blank, append_cons.
    rewrite (trimLeft_digit _ _ c (r +:+ " ") Hc (or_introl eq_refl)).
    rewrite <- append_cons, strRev_snoc, length_snoc, trimLeft_blank.
    apply Hback.
Qed.

(** *** Collapsing white space *)

Lemma replaceRuns_digits (v : string) :
  allDigits v = true ->
  forall (b : bool) (rest : string),
    replaceRuns b (v +:+ rest)
    = match v with
      | EmptyString => replaceRuns b rest
      | _ => v +:+ replaceRuns false rest
      end.
Proof.
  induction v as [| c v IH]; intros Hd b rest; [reflexivity |].
  destruct (allDigits_head c v Hd) as [Hc Hv].
  rewrite !append_cons. cbn [replaceRuns]. rewrite (digit_not_reSpace c Hc).
  rewrite (IH Hv). destruct v; [| rewrite append_cons]; reflexivity.
Qed.

Lemma replaceRuns_number (v : string) (b : bool) (rest : string) :
  isNumber v = true -> replaceRuns b (v +:+ rest) = v +:+ replaceRuns false rest.
Proof.
  unfold isNumber. intros H. apply andb_true_iff in H. destruct H as [Hd Hne].
  rewrite (replaceRuns_digits v Hd). destruct v; [discriminate Hne | reflexivity].
Qed.

Lemma replace_tabbed (values : list string) :
  Forall (fun v => isNumber v = true) values ->
  replaceRuns false (tabbed values) = String.concat "" (map (fun v => " " +:+ v) values).
Proof.
  unfold tabbed. induction 1 as [| v vs Hv _ IH]; [reflexivity |].
  cbn [map]. destruct vs as [| v' vs'].
  - cbn [map String.concat]. unfold tab. rewrite append_cons. cbn [replaceRuns].
    change (reSpace (ascii_of_nat 9)) with true. cbv iota.
    change ("" +:+ v) with v. rewrite <- (append_nil_r v) at 1.
    rewrite (replaceRuns_number v true "" Hv). cbn [replaceRuns].
    rewrite append_nil_r. reflexivity.
  - change (String.concat "" (?a :: map ?f (v' :: vs')))
      with (a +:+ "" +:+ String.concat "" (map f (v' :: vs'))).
    change ("" +:+ ?x) with x. unfold tab at 1. rewrite !append_cons.
    cbn [replaceRuns]. change (reSpace (ascii_of_nat 9)) with true. cbv iota.
    change ("" +:+ v) with v.
    rewrite (replaceRuns_number v true _ Hv), IH. reflexivity.
Qed.

Lemma replace_spaced_tail (values : list string) :
  Forall (fun v => isNumber v = true) values ->
  replaceRuns true (String.concat "" (map (fun v => v +:+ " ") values))
  = String.concat "" (map (fun v => v +:+ " ") values).
Proof.
  induction 1 as [| v vs Hv _ IH]; [reflexivity |].
  cbn [map]. destruct vs as [| v' vs'].
  - cbn [map String.concat]. rewrite (replaceRuns_number v true " " Hv). reflexivity.
  - change (String.concat "" (?a :: map ?f (v' :: vs')))
      with (a +:+ "" +:+ String.concat "" (map f (v' :: vs'))).
    change ("" +:+ ?x) with x. rewrite !append_assoc.
    rewrite (replaceRuns_number v true _ Hv). rewrite !append_cons.
    cbn [replaceRuns]. change (reSpace " ") with true. cbv iota.
    change ("" +:+ ?x) with x. rewrite IH. reflexivity.
Qed.

(** *** Splitting at spaces *)

Lemma SplitOn_nonempty (sep : ascii) (s : string) : SplitOn sep s <> [].
Proof.
  destruct s as [| c s]; cbn [SplitOn]; [discriminate |].
  destruct (Ascii.eqb c sep); [discriminate |]. destruct (SplitOn sep s); discriminate.
Qed.

Lemma SplitOn_app (sep : ascii) (a b : string) :
  SplitOn sep (a +:+ String sep b) = (SplitOn sep a ++ SplitOn sep b)%list.
Proof.
  induction a as [| c a IH].
  - change ("" +:+ ?x) with x. cbn [SplitOn]. rewrite Ascii.eqb_refl. reflexivity.
  - rewrite append_cons. cbn [SplitOn]. rewrite IH.
    destruct (Ascii.eqb c sep); [reflexivity |].
    destruct (SplitOn sep a) as [| seg segs] eqn:Ha;
      [exfalso; exact (SplitOn_nonempty sep a Ha) | reflexivity].
Qed.

Lemma SplitOn_digits (v : string) : allDigits v = true -> SplitOn " " v = [v].
Proof.
  induction v as [| c v IH]; intros Hd; [reflexivity |].
  destruct (allDigits_head c v Hd) as [Hc Hv].
  cbn [SplitOn]. rewrite (digit_not_blank c Hc), (IH Hv). reflexivity.
Qed.

Lemma isNumber_digits (v : string) : isNumber v = true -> allDigits v = true.
Proof. unfold isNumber. intros H. apply andb_true_iff in H. tauto. Qed.

Lemma SplitOn_numbers (values : list string) :
  Forall (fun v => isNumber v = true) values -> values <> [] ->
  SplitOn " " (String.concat " " values) = values.
Proof.
  induction 1 as [| v vs Hv Hvs IH]; [congruence |]. intros _.
  destruct vs as [| v' vs'].
  - cbn [String.concat]. apply SplitOn_digits, isNumber_digits, Hv.
  - change (String.concat " " (v :: v' :: vs'))
      with (v +:+ String " " (String.concat " " (v' :: vs'))).
    rewrite SplitOn_app, (SplitOn_digits v (isNumber_digits v Hv)), IH by discriminate.
    reflexivity.
Qed.

(** The values joined by single spaces start with a digit and end with
    one. *)
Lemma joined_shape (values : list string) :
  Forall (fun v => isNumber v = true) values -> values <> [] ->
  exists c r s0 d,
    String.concat " " values = String c r
    /\ String c r = s0 +:+ String d ""
    /\ digitVal c <> None /\ digitVal d <> None.
Proof.
  induction 1 as [| v vs Hv Hvs IH]; [congruence |]. intros _.
  destruct (number_head v Hv) as (c & r & -> & Hc).
  destruct vs as [| v' vs'].
  - destruct (number_last _ Hv) as (s0 & d & Heq & Hd).
    exists c, r, s0, d. cbn [String.concat]. auto.
  - destruct (IH ltac:(discriminate)) as (c' & r' & s0 & d & Heq1 & Heq2 & _ & Hd).
    change (String.concat " " (String c r :: v' :: vs'))
      with (String c r +:+ String " " (String.concat " " (v' :: vs'))).
    rewrite Heq1, Heq2.
    exists c, (r +:+ String " " (s0 +:+ String d "")), (String c r +:+ String " " s0), d.
    repeat split; auto.
    rewrite append_assoc, !append_cons. reflexivity.
Qed.

Lemma concat_blank_before (values : list string) :
  values <> [] ->
  String.concat "" (map (fun v => " " +:+ v) values)
  = String " " (String.concat " " values).
Proof.
  induction values as [| v vs IH]; [congruence |]. intros _.
  destruct vs as [| v' vs']; [reflexivity |].
  change (String.concat "" (map (fun v => " " +:+ v) (v :: v' :: vs')))
    with ((" " +:+ v) +:+ "" +:+ String.concat "" (map (fun v => " " +:+ v) (v' :: vs'))).
  rewrite IH by discriminate.
  change (String.concat " " (v :: v' :: vs'))
    with (v +:+ String " " (String.concat " " (v' :: vs'))).
  change ("" +:+ ?x) with x. rewrite append_assoc. reflexivity.
Qed.

Lemma concat_blank_after (values : list string) :
  values <> [] ->
  String.concat "" (map (fun v => v +:+ " ") values)
  = String.concat " " values +:+ " ".
Proof.
  induction values as [| v vs IH]; [congruence |]. intros _.
  destruct vs as [| v' vs']; [reflexivity |].
  change (String.concat "" (map (fun v => v +:+ " ") (v :: v' :: vs')))
    with ((v +:+ " ") +:+ "" +:+ String.concat "" (map (fun v => v +:+ " ") (v' :: vs'))).
  rewrite IH by discriminate.
  change (String.concat " " (v :: v' :: vs'))
    with (v +:+ String " " (String.concat " " (v' :: vs'))).
  change ("" +:+ ?x) with x. rewrite !append_assoc. reflexivity.
Qed.

(** The fields of a line of tab-separated numbers are the numbers. *)
Lemma fieldsOf_tabbed (values : list string) :
  Forall (fun v => isNumber v = true) values -> values <> [] ->
  fieldsOf (tabbed values) = values.
Proof.
  intros Hall Hne. unfold fieldsOf, ReplaceAllSpace.
  rewrite (replace_tabbed values Hall), (concat_blank_before values Hne).
  destruct (joined_shape values Hall Hne) as (c & r & s0 & d & Heq1 & Heq2 & Hc & Hd).
  rewrite Heq1.
  rewrite (proj1 (proj2 (TrimSpace_around c d r s0 Hc Hd Heq2))), <- Heq1.
  apply SplitOn_numbers; assumption.
Qed.

(** The fields of the Groups line: the groups, or one empty field when
    there is no group. *)
Lemma fieldsOf_spaced (values : list string) :
  Forall (fun v => isNumber v = true) values ->
  fieldsOf (spaced values) = match values with [] => [""] | _ => values end.
Proof.
  intros Hall. destruct values as [| v vs]; [reflexivity |].
  unfold fieldsOf, ReplaceAllSpace, spaced, tab. rewrite append_cons.
  cbn [replaceRuns]. change (reSpace (ascii_of_nat 9)) with true. cbv iota.
  change ("" +:+ ?x) with x.
  rewrite (replace_spaced_tail _ Hall), (concat_blank_after (v :: vs)) by discriminate.
  destruct (joined_shape (v :: vs) Hall ltac:(discriminate))
    as (c & r & s0 & d & Heq1 & Heq2 & Hc & Hd).
  rewrite Heq1.
  rewrite (proj2 (proj2 (TrimSpace_around c d r s0 Hc Hd Heq2))), <- Heq1.
  apply SplitOn_numbers; [assumption | discriminate].
Qed.

(** *** [getStatus] *)

Lemma SplitOn_none (sep : ascii) (c : string) :
  (forall x r, c = String x r -> True) ->
  forallb (fun x => negb (Ascii.eqb x sep)) (list_ascii_of_string c) = true ->
  SplitOn sep c = [c].
Proof.
  intros _. induction c as [| x c IH]; [reflexivity |].
  cbn [list_ascii_of_string forallb SplitOn]. intros H.
  apply andb_true_iff in H. destruct H as [Hx Hc]. apply negb_true_iff in Hx.
  rewrite Hx, (IH Hc). reflexivity.
Qed.

Lemma SplitOn_noColon (c : string) : hasColon c = false -> SplitOn ":" c = [c].
Proof.
  induction c as [| x c IH]; [reflexivity |]. cbn [hasColon SplitOn].
  intros H. apply orb_false_iff in H. destruct H as [Hx Hc].
  rewrite Hx, (IH Hc). reflexivity.
Qed.

Lemma SplitOn_key_value (key value : string) :
  hasColon key = false -> hasColon value = false ->
  SplitOn ":" (key +:+ ":" +:+ value) = [key; value].
Proof.
  intros Hk Hv. change (":" +:+ value) with (String ":" value).
  rewrite SplitOn_app, (SplitOn_noColon key Hk), (SplitOn_noColon value Hv). reflexivity.
Qed.

(** Scanning a line changes the fields named by the key of the line
    only. *)
Lemma setFields_other (key key' value : string) (fields : list string) :
  key' <> key ->
  forall st : gmap string string,
    fold_left
      (fun status f => if String.eqb key' f then <[f := value]> status else status)
      fields st !! key
    = st !! key.
Proof.
  intros Hne. induction fields as [| f fields IH]; intros st; [reflexivity |].
  cbn [fold_left]. rewrite IH. destruct (String.eqb key' f) eqn:He; [| reflexivity].
  apply String.eqb_eq in He. subst f. apply lookup_insert_ne. exact Hne.
Qed.

Lemma setFields_key (key value : string) (fields : list string) :
  In key fields ->
  forall st : gmap string string,
    fold_left
      (fun status f => if String.eqb key f then <[f := value]> status else status)
      fields st !! key
    = Some value.
Proof.
  induction fields as [| f fields IH]; intros Hin st; [contradiction |].
  cbn [fold_left]. destruct (string_dec key f) as [<- | Hne].
  - rewrite String.eqb_refl. destruct (in_dec string_dec key fields) as [Hin' | Hout].
    + apply IH. exact Hin'.
    + clear IH Hin. revert st. induction fields as [| g fields IH]; intros st.
      * apply lookup_insert_eq.
      * cbn [fold_left]. destruct (String.eqb key g) eqn:He.
        -- apply String.eqb_eq in He. subst g. exfalso. apply Hout. left. reflexivity.
        -- apply IH. intros Hx. apply Hout. right. exact Hx.
  - apply String.eqb_neq in Hne. rewrite Hne. apply IH.
    destruct Hin as [Heq | Hin]; [| exact Hin].
    apply String.eqb_neq in Hne. congruence.
Qed.

Lemma scanLine_other (fields : list string) (st : gmap string string) (text key : string) :
  keyOf text <> key -> scanLine fields st text !! key = st !! key.
Proof.
  unfold scanLine, keyOf. destruct (SplitOn ":" text) as [| k rest]; [reflexivity |].
  cbn [hd]. intros Hne. apply setFields_other. exact Hne.
Qed.

Lemma scanLines_other (fields : list string) (key : string) (lines : list string) :
  Forall (fun text => keyOf text <> key) lines ->
  forall st : gmap string string,
    fold_left (scanLine fields) lines st !! key = st !! key.
Proof.
  induction 1 as [| text lines Ht _ IH]; intros st; [reflexivity |].
  cbn [fold_left]. rewrite IH. apply scanLine_other. exact Ht.
Qed.

Section Host.

Variable readStatus : string -> (list string * error) + GoError.
Variable loadCap : N -> (Process.CapType -> Process.Cap -> bool) + GoError.

Local Abbreviation getStatus := (ProcInfo.getStatus readStatus).
Local Abbreviation getInfo := (ProcInfo.getInfo readStatus loadCap).
Local Abbreviation PathAccess := (ProcInfo.PathAccess readStatus loadCap).

(** X16.  [getStatus] keeps, for a requested field, the value of the
    last line of the status file whose key is the field, and nothing for
    a field that no line carries; the lines of other keys, before or
    after, make no difference. *)
Theorem getStatus_keeps_the_last_line (p : process) (fields lines : list string)
    (key : string) :
  readStatus ("/proc/" +:+ FormatUint (pid p) +:+ "/status") = inl (lines, None) ->
  (Forall (fun text => keyOf text <> key) lines ->
   status (fst (getStatus p fields)) !! key = None)
  /\ (forall (before after : list string) (value : string),
         lines = (before ++ (key +:+ ":" +:+ value) :: after)%list ->
         In key fields ->
         hasColon key = false ->
         hasColon value = false ->
         Forall (fun text => keyOf text <> key) after ->
         status (fst (getStatus p fields)) !! key = Some value).
Proof.
  intros Hread. unfold ProcInfo.getStatus. rewrite Hread. cbn [fst status setStatus]. split.
  - intros Hall. rewrite (scanLines_other fields key lines Hall). apply lookup_empty.
  - intros before after value -> Hin Hk Hv Hafter.
    rewrite fold_left_app. cbn [fold_left].
    rewrite (scanLines_other fields key after Hafter).
    unfold scanLine. rewrite (SplitOn_key_value key value Hk Hv).
    apply setFields_key. exact Hin.
Qed.

Lemma getStatus_frame (p p1 : process) (fields : list string) :
  getStatus p fields = (p1, None) -> pid p1 = pid p /\ cap p1 = cap p.
Proof.
  unfold ProcInfo.getStatus.
  destruct (readStatus _) as [[lines [e |]] | e]; try discriminate.
  intros [= <-]. split; reflexivity.
Qed.

Lemma parseGroups_numbers (groups : list string) (vals : list Z) :
  Forall2 (fun g v => Atoi g = Some v) groups vals ->
  forall sgid : list Z, parseGroups groups sgid = ((sgid ++ vals)%list, None).
Proof.
  induction 1 as [| g v groups vals Hg _ IH]; intros sgid; cbn [parseGroups].
  - rewrite app_nil_r. reflexivity.
  - destruct (String.eqb g "") eqn:He.
    + apply String.eqb_eq in He. subst g. discriminate Hg.
    + rewrite Hg, IH, <- app_assoc. reflexivity.
Qed.

(** X17.  [getInfo] takes the identity of the process from its status
    file, not from the values the process was created with: for a status
    whose Uid and Gid lines hold four numbers each, as the kernel prints
    them, it stores the second number of each line, the effective id,
    converted to 32 bits, the numbers of the Groups line as the
    supplementary groups, and /proc/<pid>/root and /proc/<pid>/cwd as root
    and working directory; the capabilities are loaded unless they were
    loaded before. *)
Theorem getInfo_reads_the_effective_ids (p p1 : process) (uids gids groups : list string)
    (euid egid : Z) (vals : list Z) (c : Process.CapType -> Process.Cap -> bool) :
  getStatus p ["Uid"; "Gid"; "Groups"] = (p1, None) ->
  status p1 !! "Uid" = Some (tabbed uids) ->
  status p1 !! "Gid" = Some (tabbed gids) ->
  status p1 !! "Groups" = Some (spaced groups) ->
  length uids = 4%nat ->
  length gids = 4%nat ->
  Forall (fun v => isNumber v = true) uids ->
  Forall (fun v => isNumber v = true) gids ->
  Forall (fun v => isNumber v = true) groups ->
  Atoi (nth 1 uids "") = Some euid ->
  Atoi (nth 1 gids "") = Some egid ->
  Forall2 (fun g v => Atoi g = Some v) groups vals ->
  cap p = Some c \/ (cap p = None /\ loadCap (pid p) = inl c) ->
  getInfo p
  = ({| pid := pid p; root := Process.procRoot (pid p); cwd := Process.procCwd (pid p);
        uid := uint32 euid; gid := uint32 egid; sgid := vals;
        cap := Some c; status := status p1 |}, None).
Proof.
  intros Hgs Hu Hg Hgr Hlu Hlg Hnu Hng Hngr Heu Heg Hvals Hcap.
  destruct (getStatus_frame p p1 _ Hgs) as [Hpid Hcp].
  unfold ProcInfo.getInfo. rewrite Hgs. unfold statusOf. rewrite Hu, Hg, Hgr.
  cbn [default from_option id].
  rewrite (fieldsOf_tabbed uids Hnu) by (intros ->; discriminate Hlu).
  rewrite (fieldsOf_tabbed gids Hng) by (intros ->; discriminate Hlg).
  rewrite Hlu, Hlg, Heu, Heg. cbn [Nat.eqb negb].
  rewrite (fieldsOf_spaced groups Hngr).
  assert (Hpg : parseGroups (match groups with [] => [""] | _ => groups end) []
                = (vals, None)).
  { destruct groups as [| g groups'].
    - inversion Hvals; subst. reflexivity.
    - apply (parseGroups_numbers _ _ Hvals []). }
  rewrite Hpg, Hpid, Hcp.
  destruct Hcap as [-> | [-> ->]]; reflexivity.
Qed.

(** X18.  [PathAccess], the entry point of the path resolution, stays
    below /proc/<pid>/root for every process, whatever root the process
    record held before: when [getInfo] succeeds, the path is absolute and
    no link target of the file system holds a ".." element, the
    resolution returns and every path it hands to the file system has
    /proc/<pid>/root as a prefix; when [getInfo] fails, its error is
    returned and the file system is not looked at. *)
Theorem PathAccess_stays_below_the_root (fs : Process.FileSys) (p : process)
    (path : string) (aMode : Process.AccessMode) :
  IsAbs path = true ->
  (forall (q link : string),
      Process.os_Readlink fs q = Some link -> noDotDot link = true) ->
  (exists err, snd (getInfo p) = Some err /\ snd (PathAccess fs p path aMode) = inl err)
  \/ (snd (getInfo p) = None
      /\ exists tr r,
           snd (PathAccess fs p path aMode) = inr (Some (tr, r))
           /\ Forall (fun op => HasPrefix (Process.opPath op) (Process.procRoot (pid p))
                                = true) tr).
Proof.
  intros Habs Hlinks. unfold ProcInfo.PathAccess.
  destruct (getInfo p) as [p' [err |]] eqn:Hinfo; cbn [snd]; [left; eauto | right].
  split; [reflexivity |].
  assert (Hroot : Process.root (view p') = Process.procRoot (pid p)).
  { revert Hinfo. unfold ProcInfo.getInfo.
    destruct (ProcInfo.getStatus readStatus p _) as [p1 [e |]] eqn:Hgs; [discriminate |].
    destruct (getStatus_frame p p1 _ Hgs) as [Hpid _].
    repeat match goal with
           | |- context [if ?b then _ else _] => destruct b; [discriminate |]
           | |- context [match Atoi ?s with _ => _ end] => destruct (Atoi s); [| discriminate]
           | |- context [match parseGroups ?a ?b with _ => _ end] =>
               destruct (parseGroups a b) as [? [?|]]; [discriminate |]
           | |- context [match cap ?a with _ => _ end] => destruct (cap a)
           | |- context [match loadCap ?a with _ => _ end] =>
               destruct (loadCap a); [| discriminate]
           end; intros [= <-]; cbn [view Process.root root]; rewrite Hpid; reflexivity. }
  destruct (ConfineFacts.procRoot_shape (pid p)) as [Hshape Hnames].
  set (rcs := ["proc"; FormatUint (pid p); "root"]) in *.
  assert (Hne : rcs <> []) by discriminate.
  destruct (PathFacts.pathAccess_total fs (view p') path aMode) as (tr & r & Hrun).
  exists tr, r. split; [rewrite Hrun; reflexivity |].
  assert (Hvisited : Forall (fun op => under rcs (Process.opPath op)) tr).
  { unfold Process.pathAccess in Hrun.
    destruct (String.eqb path ""); [injection Hrun as <- _; constructor |].
    destruct (Process.PathMax <? String.length path + 1)%nat;
      [injection Hrun as <- _; constructor |].
    rewrite Habs in Hrun.
    assert (Hrs : Process.root (view p') = absPath rcs) by (rewrite Hroot; exact Hshape).
    rewrite Hroot in Hrun.
    refine (ConfineFacts.walk_under fs (view p') rcs Hne Hnames Hrs Hlinks aMode
              (Split path) (Process.procRoot (pid p)) 0 tr r (Split_noSlash path) _ Hrun).
    rewrite <- Hroot. exact (ConfineFacts.under_root (view p') rcs Hrs). }
  rewrite Hshape. eapply Forall_impl; [exact Hvisited |].
  intros op Hop. exact (under_HasPrefix rcs _ Hne Hop).
Qed.

End Host.

(** X16, on an example: the Uid line of the status file of process 42. *)
Lemma getStatus_keeps_the_last_line_witness :
  status (fst (ProcInfo.getStatus simReadStatus (ProcessCreate 42 0 0)
                 ["Uid"; "Gid"; "Groups"])) !! "Uid"
  = Some (tabbed ["1000"; "1001"; "1000"; "1000"]).
Proof.
  apply (proj2 (getStatus_keeps_the_last_line simReadStatus (ProcessCreate 42 0 0)
                  ["Uid"; "Gid"; "Groups"] status42 "Uid" eq_refl)
           ["Name:" +:+ tab +:+ "bash"]
           ["Gid:" +:+ tabbed ["100"; "100"; "100"; "100"];
            "FDSize:" +:+ tab +:+ "256";
            "Groups:" +:+ spaced ["4"; "24"; "100"]]
           (tabbed ["1000"; "1001"; "1000"; "1000"])).
  - reflexivity.
  - left. reflexivity.
  - reflexivity.
  - reflexivity.
  - repeat constructor; vm_compute; discriminate.
Defined.

(** X17, on an example: process 42, created with the ids 0 and 0, has
    the effective ids 1001 and 100. *)
Lemma getInfo_reads_the_effective_ids_witness :
  ProcInfo.getInfo simReadStatus simLoadCap (ProcessCreate 42 0 0)
  = ({| pid := 42; root := Process.procRoot 42; cwd := Process.procCwd 42;
        uid := uint32 1001; gid := uint32 100; sgid := [4; 24; 100]%Z;
        cap := Some (fun _ _ => false);
        status := status (fst (ProcInfo.getStatus simReadStatus (ProcessCreate 42 0 0)
                                 ["Uid"; "Gid"; "Groups"])) |}, None).
Proof.
  apply (getInfo_reads_the_effective_ids simReadStatus simLoadCap (ProcessCreate 42 0 0)
           (fst (ProcInfo.getStatus simReadStatus (ProcessCreate 42 0 0)
                   ["Uid"; "Gid"; "Groups"]))
           ["1000"; "1001"; "1000"; "1000"] ["100"; "100"; "100"; "100"]
           ["4"; "24"; "100"] 1001 100 [4; 24; 100]%Z (fun _ _ => false)).
  - reflexivity.
  - reflexivity.
  - reflexivity.
  - reflexivity.
  - reflexivity.
  - reflexivity.
  - repeat constructor.
  - repeat constructor.
  - repeat constructor.
  - reflexivity.
  - reflexivity.
  - repeat constructor.
  - right. split; reflexivity.
Defined.

(** X18, on an example: the path of the specification's scenario, for
    process 42 as [ProcessCreate] builds it. *)
Lemma PathAccess_stays_below_the_root_witness :
  (exists err,
      snd (ProcInfo.getInfo simReadStatus simLoadCap (ProcessCreate 42 0 0)) = Some err
      /\ snd (ProcInfo.PathAccess simReadStatus simLoadCap Scenario.fs42
                (ProcessCreate 42 0 0) "/a/../../../etc/passwd" Process.R_OK) = inl err)
  \/ (snd (ProcInfo.getInfo simReadStatus simLoadCap (ProcessCreate 42 0 0)) = None
      /\ exists tr r,
           snd (ProcInfo.PathAccess simReadStatus simLoadCap Scenario.fs42
                  (ProcessCreate 42 0 0) "/a/../../../etc/passwd" Process.R_OK)
           = inr (Some (tr, r))
           /\ Forall (fun op => HasPrefix (Process.opPath op)
                                  (Process.procRoot (pid (ProcessCreate 42 0 0))) = true) tr).
Proof.
  apply (PathAccess_stays_below_the_root simReadStatus simLoadCap Scenario.fs42
           (ProcessCreate 42 0 0) "/a/../../../etc/passwd" Process.R_OK).
  - reflexivity.
  - apply ConfineFacts.mkFs_links. repeat (constructor; [exact I || reflexivity |]).
    constructor.
Defined.

End StatusFacts.

(** ** The common handler: what it leaves alone *)
Module CommonFrameFacts.
Import Domain ProcSysCommon.

Section Common.

Variable World : Type.
Variable SendRequestEvent : World -> NSenterEvent -> World * error.
Variable ReceiveResponseEvent : World -> NSenterEvent -> NSenterMessage.
Variable ProcessNsMatch : World -> ProcessDesc -> ProcessDesc -> bool.
Variable copyResultBuffer : string -> string -> string * (Z * error).
Variable emulatedFilesInfo : IOnode -> HandlerRequest -> list DFileInfo * error.

Local Abbreviation State := (ProcSysCommon.State World).
Local Abbreviation Lookup := (ProcSysCommon.Lookup World SendRequestEvent ReceiveResponseEvent).
Local Abbreviation Getattr := (ProcSysCommon.Getattr World).
Local Abbreviation Open := (ProcSysCommon.Open World SendRequestEvent ReceiveResponseEvent).
Local Abbreviation Read :=
  (ProcSysCommon.Read World SendRequestEvent ReceiveResponseEvent ProcessNsMatch
     copyResultBuffer).
Local Abbreviation Write :=
  (ProcSysCommon.Write World SendRequestEvent ReceiveResponseEvent ProcessNsMatch).
Local Abbreviation ReadDirAll :=
  (ProcSysCommon.ReadDirAll World SendRequestEvent ReceiveResponseEvent emulatedFilesInfo).
Local Abbreviation Setattr := (ProcSysCommon.Setattr World SendRequestEvent ReceiveResponseEvent).
Local Abbreviation world := (ProcSysCommon.world World).
Local Abbreviation sent := (ProcSysCommon.sent World).
Local Abbreviation cntrs := (ProcSysCommon.cntrs World).

(** What an operation may do to the state: send at most one request to
    the namespace-enter service, and leave the containers alone. *)
Local Abbreviation quiet := (fun st st' : State =>
  cntrs st' = cntrs st
  /\ (sent st' = sent st \/ exists ev, sent st' = (sent st ++ [ev])%list)).

Lemma quiet_refl (st : State) : quiet st st.
Proof. split; [reflexivity | left; reflexivity]. Qed.

Lemma sendRequest_quiet (st : State) (ev : NSenterEvent) :
  quiet st (fst (sendRequest World SendRequestEvent st ev)).
Proof.
  unfold sendRequest. destruct (SendRequestEvent (world st) ev) as [w err].
  cbn [fst ProcSysCommon.cntrs ProcSysCommon.sent]. split; [reflexivity | right; eauto].
Qed.

Ltac one_request :=
  match goal with
  | |- context [sendRequest World SendRequestEvent ?st ?ev] =>
      let H := fresh "Hq" in
      pose proof (sendRequest_quiet st ev) as H;
      destruct (sendRequest World SendRequestEvent st ev) as [? [?|]];
      cbn [fst] in H
  end.

Ltac branches :=
  repeat first
    [ exact (quiet_refl _)
    | assumption
    | progress cbn [fst snd]
    | progress unfold asError
    | match goal with
      | |- context [if ?b then _ else _] => destruct b
      | |- context [match Payload_ ?m with _ => _ end] => destruct (Payload_ m)
      | |- context [match emulatedFilesInfo ?a ?b with _ => _ end] =>
          destruct (emulatedFilesInfo a b) as [? [?|]]
      end ].

Lemma Lookup_quiet (h : HandlerBase) (n : IOnode) (req : HandlerRequest) (st : State) :
  quiet st (fst (Lookup h n req st)).
Proof.
  unfold ProcSysCommon.Lookup. destruct (Container req); [| exact (quiet_refl st)].
  one_request; branches; apply Hq.
Qed.

Lemma openRequest_quiet (n : IOnode) (req : HandlerRequest) (st : State) :
  quiet st (fst (openRequest World SendRequestEvent ReceiveResponseEvent n req st)).
Proof. unfold openRequest. one_request; branches; apply Hq. Qed.

Lemma ReadDirAll_quiet (h : HandlerBase) (n : IOnode) (req : HandlerRequest) (st : State) :
  quiet st (fst (ReadDirAll h n req st)).
Proof.
  unfold ProcSysCommon.ReadDirAll. destruct (Container req); [| exact (quiet_refl st)].
  one_request; branches; apply Hq.
Qed.

Lemma fetchFile_quiet (n : IOnode) (process : ProcessDesc) (st : State) :
  quiet st (fst (fetchFile World SendRequestEvent ReceiveResponseEvent n process st)).
Proof. unfold fetchFile. one_request; branches; apply Hq. Qed.

Lemma pushFile_quiet (n : IOnode) (process : ProcessDesc) (s : string) (st : State) :
  quiet st (fst (pushFile World SendRequestEvent ReceiveResponseEvent n process s st)).
Proof. unfold pushFile. one_request; branches; apply Hq. Qed.

Lemma Read_sent (h : HandlerBase) (n : IOnode) (req : HandlerRequest) (st : State) :
  sent (fst (Read h n req st)) = sent st
  \/ exists ev, sent (fst (Read h n req st)) = (sent st ++ [ev])%list.
Proof.
  unfold ProcSysCommon.Read. destruct (0 <? Offset req)%Z; [left; reflexivity |].
  destruct (Container req) as [c |]; [| left; reflexivity].
  set (process := ProcessCreate (Pid req) (Uid req) (Gid req)).
  pose proof (fetchFile_quiet n process st) as [_ Hq].
  destruct (Cacheable h && _)%bool.
  - destruct (Data _ _ _); [left; reflexivity |].
    destruct (fetchFile World SendRequestEvent ReceiveResponseEvent n process st)
      as [st' [[data [e |]] |]]; exact Hq.
  - destruct (fetchFile World SendRequestEvent ReceiveResponseEvent n process st)
      as [st' [[data [e |]] |]]; exact Hq.
Qed.

Lemma Write_sent (h : HandlerBase) (n : IOnode) (req : HandlerRequest) (st : State) :
  sent (fst (Write h n req st)) = sent st
  \/ exists ev, sent (fst (Write h n req st)) = (sent st ++ [ev])%list.
Proof.
  unfold ProcSysCommon.Write.
  destruct (Container req) as [c |]; [| left; reflexivity].
  set (process := ProcessCreate (Pid req) (Uid req) (Gid req)).
  pose proof (pushFile_quiet n process (Go.TrimSpace (ReqData req)) st) as [_ Hq].
  destruct (Cacheable h && _)%bool;
    destruct (pushFile World SendRequestEvent ReceiveResponseEvent n process _ st)
      as [st' [[e |] |]]; exact Hq.
Qed.

(** X19.  The common handler touches the state of the containers in one
    way only, by filling the cache of a cacheable handler for a process
    that lives in the container's namespaces.  [Lookup], [Getattr],
    [Open], [Setattr] and [ReadDirAll] leave every container as it is; so
    do [Read] and [Write] when the handler is not cacheable or the
    namespaces of the process do not match.  And no operation sends more
    than one request to the namespace-enter service. *)
Theorem containers_change_only_through_the_cache (h : HandlerBase) (n : IOnode)
    (req : HandlerRequest) (st : State) :
  quiet st (fst (Lookup h n req st))
  /\ quiet st (fst (Getattr h n req st))
  /\ quiet st (fst (Open h n req st))
  /\ quiet st (fst (Setattr h n req st))
  /\ quiet st (fst (ReadDirAll h n req st))
  /\ (forall c : cref,
         Container req = Some c ->
         (Cacheable h
          && ProcessNsMatch (world st) (ProcessCreate (Pid req) (Uid req) (Gid req))
               (c_InitProc (cntrs st c)))%bool = false ->
         quiet st (fst (Read h n req st)) /\ quiet st (fst (Write h n req st)))
  /\ (sent (fst (Read h n req st)) = sent st
      \/ exists ev, sent (fst (Read h n req st)) = (sent st ++ [ev])%list)
  /\ (sent (fst (Write h n req st)) = sent st
      \/ exists ev, sent (fst (Write h n req st)) = (sent st ++ [ev])%list).
Proof.
  split; [apply Lookup_quiet |].
  split; [unfold ProcSysCommon.Getattr; destruct (Container req); exact (quiet_refl st) |].
  split; [unfold ProcSysCommon.Open; destruct (Container req);
          [apply openRequest_quiet | exact (quiet_refl st)] |].
  split; [unfold ProcSysCommon.Setattr; destruct (Container req);
          [apply openRequest_quiet | exact (quiet_refl st)] |].
  split; [apply ReadDirAll_quiet |].
  split; [| split; [apply Read_sent | apply Write_sent]].
  intros c Hc Hoff. split.
  - unfold ProcSysCommon.Read. destruct (0 <? Offset req)%Z; [exact (quiet_refl st) |].
    rewrite Hc, Hoff.
    pose proof (fetchFile_quiet n (ProcessCreate (Pid req) (Uid req) (Gid req)) st) as Hq.
    destruct (fetchFile World SendRequestEvent ReceiveResponseEvent n _ st)
      as [st' [[data [e |]] |]]; exact Hq.
  - unfold ProcSysCommon.Write. rewrite Hc, Hoff.
    pose proof (pushFile_quiet n (ProcessCreate (Pid req) (Uid req) (Gid req))
                  (Go.TrimSpace (ReqData req)) st) as Hq.
    destruct (pushFile World SendRequestEvent ReceiveResponseEvent n _ _ st)
      as [st' [[e |] |]]; exact Hq.
Qed.

End Common.

(** X19, on an example: a handler that is not cacheable, and a write by
    process 1001 of container 0; the data stores of the containers are
    what they were. *)
Lemma containers_change_only_through_the_cache_witness :
  ProcSysCommon.cntrs _
    (fst (ProcSysCommon.Write _ Scenario.sysctlSend Scenario.sysctlReceive Scenario.simNsMatch
            (Scenario.commonHandler false) Scenario.portRange
            (Scenario.request 0 Scenario.ports (Some 0%nat))
            (Scenario.commonState "32768 60999")))
  = ProcSysCommon.cntrs _ (Scenario.commonState "32768 60999").
Proof.
  destruct (containers_change_only_through_the_cache _ Scenario.sysctlSend
              Scenario.sysctlReceive Scenario.simNsMatch Scenario.simCopyResultBuffer
              Scenario.noEmulatedFiles (Scenario.commonHandler false) Scenario.portRange
              (Scenario.request 0 Scenario.ports (Some 0%nat))
              (Scenario.commonState "32768 60999"))
    as (_ & _ & _ & _ & _ & H & _).
  exact (proj1 (proj2 (H 0%nat eq_refl eq_refl))).
Defined.

End CommonFrameFacts.

(** ** The inodes of the namespaces of a process *)
Module NsInodesFacts.
Import Domain NsInodes.

Section Host.

Variable AllNSs : list string.
Variable afero_ReadFile : string -> string + GoError.
Variable os_Stat : string -> option Inode + GoError.

Local Abbreviation collect := (NsInodes.collect false afero_ReadFile os_Stat).
Local Abbreviation NsInodes := (NsInodes.NsInodes AllNSs false afero_ReadFile os_Stat).
Local Abbreviation UserNsInode := (NsInodes.UserNsInode AllNSs false afero_ReadFile os_Stat).

(** When one namespace file cannot be examined, the loop ends with an
    error, whatever it had collected. *)
Lemma collect_fails (pid : N) (nss : list string) :
  Forall (fun ns => os_Stat (nsPath pid ns) <> inl None) nss ->
  Exists (fun ns => exists err, os_Stat (nsPath pid ns) = inr err) nss ->
  forall m : gmap string Inode, exists err, collect pid nss m = Ret (inr err).
Proof.
  induction nss as [| ns nss IH]; intros Hok Hex m; [inversion Hex |].
  inversion Hok as [| ? ? Hns Hnss]; subst. cbn [NsInodes.collect].
  destruct (os_Stat (nsPath pid ns)) as [[ino |] | err] eqn:Hs.
  - apply IH; [exact Hnss |].
    inversion Hex as [? ? [err Herr] | ? ? Hrest]; subst; [congruence | exact Hrest].
  - contradiction.
  - eauto.
Qed.

(** When every namespace file can be examined, the loop collects the
    inode of each. *)
Lemma collect_succeeds (pid : N) (nss : list string) :
  Forall (fun ns => exists ino, os_Stat (nsPath pid ns) = inl (Some ino)) nss ->
  forall m : gmap string Inode,
    exists m' : gmap string Inode,
      collect pid nss m = Ret (inl m')
      /\ forall (ns : string) (ino : Inode),
           os_Stat (nsPath pid ns) = inl (Some ino) ->
           (In ns nss \/ m !! ns = Some ino) -> m' !! ns = Some ino.
Proof.
  induction 1 as [| ns nss [ino Hns] _ IH]; intros m; cbn [NsInodes.collect].
  - exists m. split; [reflexivity |]. intros ns ino _ [[] | H]. exact H.
  - rewrite Hns. destruct (IH (<[ns := ino]> m)) as (m' & -> & Hm').
    exists m'. split; [reflexivity |].
    intros ns' ino' Hs [[<- | Hin] | Hm].
    + apply Hm'; [exact Hs |]. right. rewrite lookup_insert_eq. congruence.
    + apply Hm'; [exact Hs |]. left. exact Hin.
    + apply Hm'; [exact Hs |]. right. destruct (decide (ns = ns')) as [<- | Hne].
      * rewrite lookup_insert_eq. congruence.
      * rewrite lookup_insert_ne by exact Hne. exact Hm.
Qed.

(** X20.  [UserNsInode] is all or nothing.  For a process whose
    namespace inodes are not yet known, it answers with the inode of
    /proc/<pid>/ns/user, and stores the inodes in the process, when the
    file of every namespace can be examined; when the file of a single
    namespace, be it another one than the user namespace, cannot, it
    answers 0 and stores nothing.  Once the inodes are stored, it answers
    from them and the files are not examined again. *)
Theorem UserNsInode_all_or_nothing (p : process) :
  (nsInodes p = None ->
   Forall (fun ns => os_Stat (nsPath (pid p) ns) <> inl None) AllNSs ->
   Exists (fun ns => exists err, os_Stat (nsPath (pid p) ns) = inr err) AllNSs ->
   UserNsInode p = (p, Ret 0%N))
  /\ (forall userns : Inode,
         nsInodes p = None ->
         Forall (fun ns => exists ino, os_Stat (nsPath (pid p) ns) = inl (Some ino)) AllNSs ->
         In "user" AllNSs ->
         os_Stat (nsPath (pid p) "user") = inl (Some userns) ->
         snd (UserNsInode p) = Ret userns
         /\ nsInodes (fst (UserNsInode p)) <> None)
  /\ (forall m : gmap string Inode,
         nsInodes p = Some m ->
         UserNsInode p = (p, Ret (default 0%N (m !! "user")))).
Proof.
  unfold NsInodes.UserNsInode, NsInodes.NsInodes, getNsInodes. split; [| split].
  - intros Hnil Hok Hex. rewrite Hnil.
    destruct (collect_fails (pid p) AllNSs Hok Hex ∅) as [err ->]. reflexivity.
  - intros userns Hnil Hall Hin Huser. rewrite Hnil.
    destruct (collect_succeeds (pid p) AllNSs Hall ∅) as (m & -> & Hm).
    rewrite (Hm "user" userns Huser (or_introl Hin)). cbn [fst snd nsInodes].
    split; [reflexivity | discriminate].
  - intros m ->. destruct (m !! "user"); reflexivity.
Qed.

End Host.

(** X20, on an example: process 1001 has a user namespace, and no file
    for its cgroup namespace. *)
Lemma UserNsInode_all_or_nothing_witness :
  NsInodes.UserNsInode linuxNSs false simReadFile simStat {| pid := 1001; nsInodes := None |}
  = ({| pid := 1001; nsInodes := None |}, Ret 0%N).
Proof.
  apply (proj1 (UserNsInode_all_or_nothing linuxNSs simReadFile simStat
                  {| pid := 1001; nsInodes := None |})).
  - reflexivity.
  - repeat constructor; vm_compute; discriminate.
  - do 5 apply Exists_cons_tl. apply Exists_cons_hd. eexists. vm_compute. reflexivity.
Defined.

End NsInodesFacts.
